(** * UAI benchmarking harness: scorer, evaluation loop and aggregator

    A shallow embedding of the Python sources under [scripts/]
    ([score_answer.py], [ask_model.py], [evaluation_pipeline.py],
    [calc_scores.py], [load_ground_truth.py], [utils.py]) and the properties
    of the answer parser, the score normalisation, the per-question failure
    isolation and the aggregation that the specification states.

    Python values are the values [json.loads] produces.  Floats are IEEE
    binary64 numbers (Rocq's primitive floats); integers are unbounded.
    A Python [str] is a [string] whose characters are read as the code
    points 0..255.  Exceptions are values: a class and the text [str(e)]. *)

From Stdlib Require Import String Ascii List ZArith Bool Arith Lia Permutation.
From Stdlib Require Import PrimFloat SpecFloat FloatOps DecimalString.
Import ListNotations.

Set Warnings "-register-all,-inexact-float".

Open Scope string_scope.
Open Scope list_scope.

Notation "s +++ t" := (String.append s t)
  (at level 60, right associativity).

(** ** Python values and builtins *)

Module Py.

(** *** Exceptions *)

Inductive exn_class : Type :=
| ValueError
| KeyError
| TypeError
| AttributeError
| OverflowError
| FileNotFoundError
| ImportError
| OtherException (name : string).

(** An exception: its class and [str(e)]. *)
Record exn : Type := Raise { exn_cls : exn_class; exn_str : string }.

Inductive res (A : Type) : Type :=
| Ok (a : A)
| Err (e : exn).
Arguments Ok {A} a.
Arguments Err {A} e.

Definition bind {A B} (r : res A) (k : A -> res B) : res B :=
  match r with
  | Ok a => k a
  | Err e => Err e
  end.

Definition is_ok {A} (r : res A) : bool :=
  match r with Ok _ => true | Err _ => false end.

(** *** Values *)

Inductive pyval : Type :=
| PNone
| PBool (b : bool)
| PInt (z : Z)
| PFloat (f : float)
| PStr (s : string)
| PList (l : list pyval)
| PDict (d : list (string * pyval)).

(** A [dict] with [str] keys, in insertion order, keys pairwise distinct. *)
Definition dict := list (string * pyval).

Definition type_name (v : pyval) : string :=
  match v with
  | PNone => "NoneType"
  | PBool _ => "bool"
  | PInt _ => "int"
  | PFloat _ => "float"
  | PStr _ => "str"
  | PList _ => "list"
  | PDict _ => "dict"
  end.

(** *** Dictionaries *)

Fixpoint dict_get (k : string) (d : dict) : option pyval :=
  match d with
  | [] => None
  | (k', v) :: d' => if String.eqb k k' then Some v else dict_get k d'
  end.

Definition dict_has (k : string) (d : dict) : bool :=
  match dict_get k d with Some _ => true | None => false end.

(** [d[k] = v]: the value of an existing key is replaced where it stands,
    a new key goes to the end. *)
Fixpoint dict_set (k : string) (v : pyval) (d : dict) : dict :=
  match d with
  | [] => [(k, v)]
  | (k', v') :: d' =>
      if String.eqb k k' then (k', v) :: d' else (k', v') :: dict_set k v d'
  end.

(** [d.get(k, default)] *)
Definition dict_get_default (k : string) (default : pyval) (d : dict) : pyval :=
  match dict_get k d with Some v => v | None => default end.

(** [d.setdefault(k, default)]: the dictionary afterwards. *)
Definition dict_setdefault (k : string) (default : pyval) (d : dict) : dict :=
  if dict_has k d then d else dict_set k default d.

(** [d.update(other)] *)
Definition dict_update (other d : dict) : dict :=
  fold_left (fun acc kv => dict_set (fst kv) (snd kv) acc) other d.

(** [{k: v for ...}] over key/value pairs: a dict comprehension. *)
Definition dict_of_pairs (kvs : list (string * pyval)) : dict :=
  dict_update kvs [].

Definition no_attribute (v : pyval) (attr : string) : exn :=
  Raise AttributeError
    ("'" +++ type_name v +++ "' object has no attribute '" +++ attr +++ "'").

(** [v.get(k, default)] on an arbitrary value. *)
Definition py_get (v : pyval) (k : string) (default : pyval) : res pyval :=
  match v with
  | PDict d => Ok (dict_get_default k default d)
  | _ => Err (no_attribute v "get")
  end.

(** *** Hashable values as dictionary keys

    Python compares keys by value: [True], [1] and [1.0] are one key,
    and so are [0], [0.0] and [-0.0].  A key is kept in a normal form in
    which equal keys are identical: an integral number is an integer,
    any other float stands as it is ([json.loads] yields one and the
    same object for every [NaN]). *)

Inductive hkey : Type :=
| HNone
| HStr (s : string)
| HInt (z : Z)
| HFloat (f : spec_float).

Definition signed (neg : bool) (z : Z) : Z := if neg then Z.opp z else z.

Definition float_key (f : float) : hkey :=
  match Prim2SF f with
  | S754_zero _ => HInt 0
  | S754_finite neg m e =>
      if (0 <=? e)%Z then HInt (signed neg (Z.pos m * 2 ^ e))
      else if (Z.pos m mod 2 ^ (- e) =? 0)%Z
           then HInt (signed neg (Z.pos m / 2 ^ (- e)))
           else HFloat (S754_finite neg m e)
  | sf => HFloat sf
  end.

(** [hash(v)] succeeds; lists and dicts raise [TypeError]. *)
Definition py_key (v : pyval) : res hkey :=
  match v with
  | PNone => Ok HNone
  | PBool b => Ok (HInt (if b then 1 else 0))
  | PInt z => Ok (HInt z)
  | PFloat f => Ok (float_key f)
  | PStr s => Ok (HStr s)
  | PList _ | PDict _ =>
      Err (Raise TypeError ("unhashable type: '" +++ type_name v +++ "'"))
  end.

Definition spec_float_eq_dec (a b : spec_float) : {a = b} + {a <> b}.
Proof.
  decide equality; auto using Bool.bool_dec, Pos.eq_dec, Z.eq_dec.
Defined.

Definition hkey_eq_dec (a b : hkey) : {a = b} + {a <> b}.
Proof.
  decide equality; auto using string_dec, Z.eq_dec, spec_float_eq_dec.
Defined.

(** *** Dictionaries with hashable keys, in insertion order *)

Section AList.
Context {K V : Type}.
Variable eq_dec : forall a b : K, {a = b} + {a <> b}.

Fixpoint alist_get (k : K) (l : list (K * V)) : option V :=
  match l with
  | [] => None
  | (k', v) :: r => if eq_dec k k' then Some v else alist_get k r
  end.

(** [l[k] = f(l[k])] on a [defaultdict] whose missing values are
    [default]: a new key goes to the end. *)
Fixpoint alist_alter (f : V -> V) (default : V) (k : K) (l : list (K * V))
  : list (K * V) :=
  match l with
  | [] => [(k, f default)]
  | (k', v) :: r =>
      if eq_dec k k' then (k', f v) :: r
      else (k', v) :: alist_alter f default k r
  end.

(** [l[k] = v] *)
Definition alist_set (k : K) (v : V) (l : list (K * V)) : list (K * V) :=
  alist_alter (fun _ => v) v k l.
End AList.

(** *** Truth value and conversion to float *)

Definition str_empty (s : string) : bool :=
  match s with EmptyString => true | String _ _ => false end.

(** [bool(v)] *)
Definition truthy (v : pyval) : bool :=
  match v with
  | PNone => false
  | PBool b => b
  | PInt z => negb (Z.eqb z 0)
  | PFloat f => negb (PrimFloat.eqb f 0%float)
  | PStr s => negb (str_empty s)
  | PList l => match l with [] => false | _ :: _ => true end
  | PDict d => match d with [] => false | _ :: _ => true end
  end.

(** [float(n)] for an [int]: rounded to nearest, ties to even; an integer
    beyond the range of binary64 raises [OverflowError]. *)
Definition float_of_Z (z : Z) : option float :=
  match binary_normalize prec emax z 0 false with
  | S754_infinity _ => None
  | sf => Some (SF2Prim sf)
  end.

Definition one_or_zero (b : bool) : float :=
  if b then 1%float else 0%float.

Section Float.
(** [float(s)] for a [str], [None] where it raises [ValueError]; and
    [repr], which the message of that error uses. *)
Variable float_of_str : string -> option float.
Variable repr : pyval -> string.

(** [float(v)] *)
Definition py_float (v : pyval) : res float :=
  match v with
  | PBool b => Ok (one_or_zero b)
  | PInt z =>
      match float_of_Z z with
      | Some f => Ok f
      | None => Err (Raise OverflowError "int too large to convert to float")
      end
  | PFloat f => Ok f
  | PStr s =>
      match float_of_str s with
      | Some f => Ok f
      | None =>
          Err (Raise ValueError
                 ("could not convert string to float: " +++ repr v))
      end
  | PNone | PList _ | PDict _ =>
      Err (Raise TypeError
             ("float() argument must be a string or a real number, not '"
                +++ type_name v +++ "'"))
  end.
End Float.

(** *** Strings *)

(** [str.isspace] on the code points below 256. *)
Definition is_space (c : ascii) : bool :=
  let n := nat_of_ascii c in
  (((9 <=? n) && (n <=? 13)) || ((28 <=? n) && (n <=? 32))
   || (n =? 133) || (n =? 160))%nat.

Fixpoint lstrip_with (p : ascii -> bool) (s : string) : string :=
  match s with
  | EmptyString => EmptyString
  | String c s' => if p c then lstrip_with p s' else s
  end.

Fixpoint rstrip_with (p : ascii -> bool) (s : string) : string :=
  match s with
  | EmptyString => EmptyString
  | String c s' =>
      let r := rstrip_with p s' in
      if str_empty r && p c then EmptyString else String c r
  end.

Definition strip_with (p : ascii -> bool) (s : string) : string :=
  rstrip_with p (lstrip_with p s).

(** [s.strip()] *)
Definition strip (s : string) : string := strip_with is_space s.

(** [s.strip(chars)] *)
Fixpoint char_in (c : ascii) (chars : string) : bool :=
  match chars with
  | EmptyString => false
  | String c' r => Ascii.eqb c c' || char_in c r
  end.

Definition strip_chars (chars s : string) : string :=
  strip_with (fun c => char_in c chars) s.

(** [s.startswith(p)] *)
Definition startswith (s p : string) : bool := String.prefix p s.

(** [s.replace(old, new)] for a non-empty [old]: occurrences are found
    from the left and do not overlap; [skip] counts the characters of an
    occurrence still to be dropped. *)
Fixpoint replace_from (old new : string) (skip : nat) (s : string) : string :=
  match s with
  | EmptyString => EmptyString
  | String c s' =>
      match skip with
      | S k => replace_from old new k s'
      | O =>
          if String.prefix old s
          then new +++ replace_from old new (String.length old - 1) s'
          else String c (replace_from old new 0 s')
      end
  end.

Definition replace (old new s : string) : string := replace_from old new 0 s.

(** [s.index(c)] and [s.rindex(c)] for a one-character [c]; [None] where
    Python raises [ValueError]. *)
Fixpoint index_of (c : ascii) (s : string) : option nat :=
  match s with
  | EmptyString => None
  | String c' s' =>
      if Ascii.eqb c c' then Some 0
      else match index_of c s' with Some i => Some (S i) | None => None end
  end.

Fixpoint rindex_of (c : ascii) (s : string) : option nat :=
  match s with
  | EmptyString => None
  | String c' s' =>
      match rindex_of c s' with
      | Some i => Some (S i)
      | None => if Ascii.eqb c c' then Some 0 else None
      end
  end.

(** [s[i:j]] for [0 <= i] and [0 <= j]. *)
Definition slice (i j : nat) (s : string) : string := substring i (j - i) s.

Definition upper_char (c : ascii) : ascii :=
  let n := nat_of_ascii c in
  if ((97 <=? n) && (n <=? 122))%nat then ascii_of_nat (n - 32) else c.

(** [s.upper()] on ASCII letters; the callers only compare the result
    with ["A"] and ["B"], which no other character upper-cases to. *)
Fixpoint upper (s : string) : string :=
  match s with
  | EmptyString => EmptyString
  | String c s' => String (upper_char c) (upper s')
  end.

Fixpoint str_in (s : string) (l : list string) : bool :=
  match l with
  | [] => false
  | x :: r => String.eqb s x || str_in s r
  end.

(** *** Methods on arbitrary values *)

(** [v[k]] for a [str] key *)
Definition py_getitem (v : pyval) (k : string) : res pyval :=
  match v with
  | PDict d =>
      match dict_get k d with
      | Some x => Ok x
      | None => Err (Raise KeyError ("'" +++ k +++ "'"))
      end
  | PList _ =>
      Err (Raise TypeError "list indices must be integers or slices, not str")
  | PStr _ =>
      Err (Raise TypeError "string indices must be integers, not 'str'")
  | _ =>
      Err (Raise TypeError ("'" +++ type_name v +++ "' object is not subscriptable"))
  end.

(** [v.strip()] *)
Definition py_strip (v : pyval) : res string :=
  match v with
  | PStr s => Ok (strip s)
  | _ => Err (no_attribute v "strip")
  end.

(** [v.copy()] *)
Definition py_copy (v : pyval) : res pyval :=
  match v with
  | PDict _ | PList _ => Ok v
  | _ => Err (no_attribute v "copy")
  end.

(** [v.update(other)] *)
Definition py_update (v : pyval) (other : dict) : res pyval :=
  match v with
  | PDict d => Ok (PDict (dict_update other d))
  | _ => Err (no_attribute v "update")
  end.

End Py.

Import Py.

Declare Scope res_scope.
Delimit Scope res_scope with res.
Notation "x <- c1 ;; c2" := (Py.bind c1 (fun x => c2))
  (at level 61, c1 at next level, right associativity) : res_scope.

(** ** The outside world

    What the scripts obtain from the interpreter, the environment and the
    network.  A network reply may depend on everything requested so far,
    so two requests with the same arguments need not agree. *)

Inductive event : Type :=
| ExtractorRequest (model question pdf_path : string)
| JudgeRequest (model user_prompt : string).

Class World : Type := {
  (** [json.loads], with the exception it raises on a text it rejects *)
  json_loads : string -> res pyval;
  (** [float(s)] for a [str]; [None] where it raises [ValueError]. *)
  float_of_str : string -> option float;
  (** [repr(v)], and the [repr] of a set of [str]. *)
  py_repr : pyval -> string;
  py_repr_set : list string -> string;
  (** [sum(values)] for a list of floats: the additions from the left,
      starting from [0]; from Python 3.12 on their rounding errors are
      compensated. *)
  py_sum : list float -> float;
  (** [os.getenv], [os.path.exists], and the lines of a text file as
      [open] and the iteration over it give them *)
  getenv : string -> option string;
  path_exists : string -> bool;
  read_lines : string -> res (list string);
  (** the directory above the one of the scripts *)
  BASE_DIR : string;
  (** whether [google.generativeai] could be imported *)
  genai_installed : bool;
  (** the two prompt files read by [load_prompt] when the module loads *)
  benchmark_a_correctness_prompt : string;
  benchmark_b_correctness_prompt : string;
  (** [encode_pdf]: reads the file and encodes it *)
  encode_pdf : string -> res string;
  (** the message content of the extractor's reply (OpenRouter, Gemini),
      or the exception raised on the way to it *)
  openrouter_reply : list event -> string -> string -> string -> res string;
  gemini_reply : list event -> string -> string -> string -> res string;
  (** the message content of the judge's reply, or the exception raised *)
  judge_reply : list event -> string -> string -> res string;
  (** [datetime.utcnow().isoformat()] while question number [idx] is handled *)
  utcnow_isoformat : nat -> string
}.

(** Computations that use the network: the requests made so far are
    threaded through, and an exception ends the computation. *)
Module Eff.

Definition M (A : Type) : Type := list event -> res A * list event.

Definition ret {A} (a : A) : M A := fun t => (Ok a, t).

Definition raise {A} (e : exn) : M A := fun t => (Err e, t).

Definition lift {A} (r : res A) : M A := fun t => (r, t).

Definition bind {A B} (m : M A) (k : A -> M B) : M B :=
  fun t =>
    match m t with
    | (Ok a, t') => k a t'
    | (Err e, t') => (Err e, t')
    end.

(** [try: m  except Exception as e: handler e] *)
Definition try_except {A} (m : M A) (handler : exn -> M A) : M A :=
  fun t =>
    match m t with
    | (Ok a, t') => (Ok a, t')
    | (Err e, t') => handler e t'
    end.

(** One request: the reply is a function of the requests made before. *)
Definition request (ev : event) (reply : list event -> res string) : M string :=
  fun t => (reply t, t ++ [ev]).

End Eff.

Declare Scope eff_scope.
Delimit Scope eff_scope with eff.
Notation "x <- c1 ;; c2" := (Eff.bind c1 (fun x => c2))
  (at level 61, c1 at next level, right associativity) : eff_scope.

(** The double quote and the line feed. *)
Definition dquote : string := String "034"%char EmptyString.
Definition nl : string := String "010"%char EmptyString.

(** [str(v)]: a [str] is itself, any other value prints as its [repr]. *)
Definition py_str {W : World} (v : pyval) : string :=
  match v with
  | PStr s => s
  | _ => py_repr v
  end.

(** [if not s] for [s = os.getenv(...)] *)
Definition env_set {W : World} (name : string) : bool :=
  match getenv name with
  | Some s => negb (str_empty s)
  | None => false
  end.

(** ** JSONL files and paths ([utils.py], [os.path]) *)

Module Utils.
Section WithWorld.
Context {W : World}.

Fixpoint loads_all (lines : list string) : res (list pyval) :=
  match lines with
  | [] => Ok []
  | line :: rest =>
      (v <- json_loads line ;;
       vs <- loads_all rest ;;
       Ok (v :: vs))%res
  end.

(** [load_jsonl] *)
Definition load_jsonl (path : string) : res (list pyval) :=
  (lines <- read_lines path ;; loads_all lines)%res.

Fixpoint ends_with_slash (s : string) : bool :=
  match s with
  | EmptyString => false
  | String c EmptyString => Ascii.eqb c "/"
  | String _ r => ends_with_slash r
  end.

(** [os.path.join(a, b)] on POSIX *)
Definition path_join (a b : string) : string :=
  if startswith b "/" then b
  else if str_empty a || ends_with_slash a then a +++ b
  else a +++ "/" +++ b.

(** [os.path.basename] on POSIX: what follows the last slash *)
Definition basename (path : string) : string :=
  match rindex_of "/" path with
  | Some i => slice (i + 1) (String.length path) path
  | None => path
  end.

Definition DATA_DIR : string := path_join BASE_DIR "data".

End WithWorld.
End Utils.

(** ** The answer parser ([ask_model.py], [score_answer.py]) *)

Module Parser.
Section WithWorld.
Context {W : World}.

(** [if raw.startswith(fence): raw = raw.strip("`"); raw =
    raw.replace("json", "").strip()] *)
Definition clean_fences (raw : string) : string :=
  if startswith raw "```"
  then strip (replace "json" "" (strip_chars "`" raw))
  else raw.

(** [raw[raw.index("{") : raw.rindex("}") + 1]], when both exist *)
Definition brace_block (raw : string) : option string :=
  match index_of "{" raw, rindex_of "}" raw with
  | Some start, Some stop => Some (slice start (stop + 1) raw)
  | _, _ => None
  end.

Definition malformed (who raw : string) : exn :=
  Raise ValueError (who +++ " returned malformed JSON:" +++ nl +++ nl +++ raw).

(** The direct parse, then the parse of the brace block. *)
Definition loads_tolerant (who raw : string) : res pyval :=
  match json_loads raw with
  | Ok v => Ok v
  | Err _ =>
      match brace_block raw with
      | Some block =>
          match json_loads block with
          | Ok v => Ok v
          | Err _ => Err (malformed who raw)
          end
      | None => Err (malformed who raw)
      end
  end.

(** [parse_extractor_output] of [ask_model.py] *)
Definition parse_extractor_output (raw : string) : res pyval :=
  loads_tolerant "Extractor" (clean_fences (strip raw)).

(** The same steps as written at the end of [call_judge_llm]. *)
Definition parse_judge_output (content : string) : res pyval :=
  loads_tolerant "Judge" (clean_fences (strip content)).

End WithWorld.
End Parser.

(** ** The extractor ([ask_model.py]) *)

Module AskModel.
Section WithWorld.
Context {W : World}.

Definition EXTRACTOR_MODELS : list string :=
  [ "anthropic/claude-4.5-opus"; "openai/gpt-5.1";
    "google/gemini-3-pro-preview" ].

Definition call_openrouter_extractor (question pdf_path model_name : string)
  : Eff.M pyval :=
  (if negb (env_set "OPENROUTER_API_KEY")
   then Eff.raise (Raise ValueError "Missing OPENROUTER_API_KEY in environment.")
   else
     _ <- Eff.lift (encode_pdf pdf_path) ;;
     raw_output <- Eff.request (ExtractorRequest model_name question pdf_path)
                     (fun t => openrouter_reply t model_name question pdf_path) ;;
     Eff.lift (Parser.parse_extractor_output raw_output))%eff.

Definition call_gemini_native (question pdf_path model_name : string)
  : Eff.M pyval :=
  (if negb (env_set "GEMINI_API_KEY")
   then Eff.raise (Raise ValueError "Missing GEMINI_API_KEY in environment.")
   else if negb genai_installed
   then Eff.raise (Raise ImportError
          "google-generativeai is not installed. Please pip install google-generativeai.")
   else
     raw_output <- Eff.request (ExtractorRequest model_name question pdf_path)
                     (fun t => gemini_reply t model_name question pdf_path) ;;
     Eff.lift (Parser.parse_extractor_output raw_output))%eff.

Definition ask_model (question pdf_path model_name : string) : Eff.M pyval :=
  (if negb (str_in model_name EXTRACTOR_MODELS)
   then Eff.raise (Raise ValueError
          ("Model '" +++ model_name +++ "' not allowed." +++ nl
             +++ "Allowed = " +++ py_repr_set EXTRACTOR_MODELS))
   else
     parsed <- (if startswith model_name "google/"
                then call_gemini_native question pdf_path model_name
                else call_openrouter_extractor question pdf_path model_name) ;;
     match parsed with
     | PDict d =>
         if negb (dict_has "answer" d) || negb (dict_has "rationale" d)
         then Eff.raise (Raise ValueError
                ("Extractor JSON missing required keys: " +++ py_str parsed))
         else Eff.ret parsed
     | _ =>
         Eff.raise (Raise ValueError
           ("Extractor response must be a JSON object, got: " +++ py_str parsed))
     end)%eff.

End WithWorld.
End AskModel.

(** ** The scorer ([score_answer.py]) *)

Module ScoreAnswer.
Section WithWorld.
Context {W : World}.

Definition JUDGE_MODELS : list string :=
  [ "deepseek/deepseek-v3.2"; "xai/grok-4.1" ].

(** [BENCHMARK_PROMPTS] *)
Definition BENCHMARK_PROMPTS : list (string * string) :=
  [ ("A", benchmark_a_correctness_prompt);
    ("B", benchmark_b_correctness_prompt) ].

Fixpoint prompt_for (k : string) (table : list (string * string))
  : option string :=
  match table with
  | [] => None
  | (k', p) :: r => if String.eqb k k' then Some p else prompt_for k r
  end.

(** [call_judge_llm]; the system prompt is a constant of the caller. *)
Definition call_judge_llm (user_prompt model : string) : Eff.M pyval :=
  (if negb (env_set "OPENROUTER_API_KEY")
   then Eff.raise (Raise ValueError "Missing OPENROUTER_API_KEY in .env")
   else if negb (str_in model JUDGE_MODELS)
   then Eff.raise (Raise ValueError
          ("Judge model '" +++ model +++ "' is not supported. Allowed: "
             +++ py_repr_set JUDGE_MODELS))
   else
     content <- Eff.request (JudgeRequest model user_prompt)
                  (fun t => judge_reply t model user_prompt) ;;
     Eff.lift (Parser.parse_judge_output content))%eff.

(** [1.0 if is_correct else 0.0] *)
Definition derived_score (is_correct : bool) : float :=
  if is_correct then 1%float else 0%float.

(** [except (TypeError, ValueError)] *)
Definition type_or_value_error (e : exn) : bool :=
  match exn_cls e with
  | TypeError | ValueError => true
  | _ => false
  end.

(** [if question_score is None: ... else: try: float(question_score)
    except (TypeError, ValueError): ...] *)
Definition coerce_question_score (is_correct : bool) (question_score : pyval)
  : res float :=
  match question_score with
  | PNone => Ok (derived_score is_correct)
  | _ =>
      match py_float float_of_str py_repr question_score with
      | Ok f => Ok f
      | Err e =>
          if type_or_value_error e
          then Ok (derived_score is_correct)
          else Err e
      end
  end.

(** The normalisation of the judge's reply: the statements of
    [score_answer] after the call of [call_judge_llm]. *)
Definition normalise (judge_result : pyval) : res pyval :=
  (v_correct <- py_get judge_result "is_correct" PNone ;;
   let is_correct := truthy v_correct in
   v_value <- py_get judge_result "has_value" PNone ;;
   let has_value := truthy v_value in
   error_type <- py_get judge_result "error_type" PNone ;;
   justification <- py_get judge_result "justification" (PStr "") ;;
   judge_reasoning <- py_get judge_result "judge_reasoning" justification ;;
   raw_score <- py_get judge_result "question_score" PNone ;;
   question_score <- coerce_question_score is_correct raw_score ;;
   Ok (PDict
         [ ("correctness_score", PFloat question_score);
           ("correctness_justification", judge_reasoning);
           ("rationale_score", PFloat (derived_score is_correct));
           ("rationale_justification",
             if truthy error_type then error_type else judge_reasoning);
           ("is_correct", PBool is_correct);
           ("has_value", PBool has_value);
           ("error_type", error_type);
           ("judge_reasoning", judge_reasoning);
           ("question_score", PFloat question_score) ]))%res.

Definition fill_prompt (template : string)
  (question gt_answer gt_rationale model_answer model_rationale : pyval)
  : string :=
  replace "{{MODEL_RATIONALE}}" (py_str model_rationale)
    (replace "{{MODEL_ANSWER}}" (py_str model_answer)
       (replace "{{GROUND_TRUTH_RATIONALE}}" (py_str gt_rationale)
          (replace "{{GROUND_TRUTH_ANSWER}}" (py_str gt_answer)
             (replace "{{QUESTION}}" (py_str question) template)))).

Definition score_answer
  (model_answer_obj ground_truth_obj : pyval) (judge_model benchmark_type : string)
  : Eff.M pyval :=
  (let benchmark_type := upper benchmark_type in
   match prompt_for benchmark_type BENCHMARK_PROMPTS with
   | None =>
       Eff.raise (Raise ValueError
         ("Unknown benchmark type '" +++ benchmark_type
            +++ "'. Expected one of ['A', 'B']"))
   | Some prompt_template =>
       gt_alt <- Eff.lift (py_get ground_truth_obj "answer" (PStr "")) ;;
       gt_answer <- Eff.lift (py_get ground_truth_obj "ground_truth_answer" gt_alt) ;;
       gt_rationale <- Eff.lift (py_get ground_truth_obj "rationale" (PStr "")) ;;
       model_answer <- Eff.lift (py_get model_answer_obj "answer" (PStr "")) ;;
       model_rationale <- Eff.lift (py_get model_answer_obj "rationale" (PStr "")) ;;
       question <- Eff.lift (py_get ground_truth_obj "question" (PStr "")) ;;
       let user_prompt :=
         fill_prompt prompt_template question gt_answer gt_rationale
           model_answer model_rationale in
       judge_result <- call_judge_llm user_prompt judge_model ;;
       Eff.lift (normalise judge_result)
   end)%eff.

End WithWorld.
End ScoreAnswer.

(** ** The evaluation loops ([evaluation_pipeline.py])

    What is printed is not modelled; the rows handed to [save_jsonl] and
    the failure count stand for the run. *)

Module Pipeline.

Record track : Type := {
  questions_pattern : string;     (* what follows the document name *)
  ground_truth_pattern : string;
  label : string
}.

(** [TRACK_CONFIG] *)
Definition TRACK_CONFIG (k : string) : option track :=
  if String.eqb k "A" then
    Some {| questions_pattern := "_benchmark_a_vision_questions.jsonl";
            ground_truth_pattern := "_benchmark_a_vision.jsonl";
            label := "benchmark_a" |}
  else if String.eqb k "B" then
    Some {| questions_pattern := "_benchmark_b_semantic_questions.jsonl";
            ground_truth_pattern := "_benchmark_b_semantic.jsonl";
            label := "benchmark_b" |}
  else None.

Record run : Type := { results : list pyval; failures : nat }.

(** [entry["question"].strip()] *)
Definition question_key (entry : pyval) : res string :=
  (q <- py_getitem entry "question" ;; py_strip q)%res.

Fixpoint gt_pairs (entries : list pyval) : res (list (string * pyval)) :=
  match entries with
  | [] => Ok []
  | entry :: rest =>
      (k <- question_key entry ;;
       kvs <- gt_pairs rest ;;
       Ok ((k, entry) :: kvs))%res
  end.

(** [{entry["question"].strip(): entry for entry in ground_truth_entries}] *)
Definition build_gt_map (ground_truth_entries : list pyval) : res dict :=
  (kvs <- gt_pairs ground_truth_entries ;; Ok (dict_of_pairs kvs))%res.

Section WithWorld.
Context {W : World}.

Definition missing_ground_truth (question_text : string) : exn :=
  Raise KeyError
    (py_repr (PStr ("Missing ground truth for question:" +++ nl +++ question_text))).

(** The [scores] of a fallback row. *)
Definition error_scores (e : exn) : pyval :=
  PDict
    [ ("correctness_score", PFloat 0%float);
      ("correctness_justification", PStr ("Error: " +++ exn_str e));
      ("rationale_score", PFloat 0%float);
      ("rationale_justification", PStr ("Error: " +++ exn_str e)) ].

Definition make_row (question_text : string) (model_answer scores metadata : pyval)
  : pyval :=
  PDict
    [ ("question", PStr question_text);
      ("model_answer", model_answer);
      ("scores", scores);
      ("metadata", metadata) ].

Section Document.
Variables (doc_name extractor_model judge_model benchmark_key pdf_path : string).
Variable gt_map : dict.

(** The body of the [try] for one question. *)
Definition question_body (idx : nat) (question_text : string) (category : pyval)
  : Eff.M pyval :=
  match dict_get question_text gt_map with
  | None => Eff.raise (missing_ground_truth question_text)
  | Some gt =>
      (model_answer_obj <-
         AskModel.ask_model question_text pdf_path extractor_model ;;
       score_obj <-
         ScoreAnswer.score_answer model_answer_obj gt judge_model benchmark_key ;;
       Eff.ret
         (make_row question_text model_answer_obj score_obj
            (PDict
               [ ("document", PStr doc_name);
                 ("extractor_model", PStr extractor_model);
                 ("judge_model", PStr judge_model);
                 ("benchmark", PStr benchmark_key);
                 ("category", category);
                 ("timestamp", PStr (utcnow_isoformat idx)) ])))%eff
  end.

(** The [except Exception as e] branch. *)
Definition question_fallback (idx : nat) (question_text : string)
  (category : pyval) (e : exn) : pyval :=
  make_row question_text PNone (error_scores e)
    (PDict
       [ ("document", PStr doc_name);
         ("extractor_model", PStr extractor_model);
         ("judge_model", PStr judge_model);
         ("benchmark", PStr benchmark_key);
         ("category", category);
         ("error", PStr (exn_str e));
         ("timestamp", PStr (utcnow_isoformat idx)) ]).

(** [for idx, q in enumerate(questions, start=1)] *)
Fixpoint question_loop (idx : nat) (questions : list pyval) (acc : run)
  : Eff.M run :=
  match questions with
  | [] => Eff.ret acc
  | q :: rest =>
      (question_text <- Eff.lift (question_key q) ;;
       category <- Eff.lift (py_get q "category" (PStr "Uncategorized")) ;;
       step <-
         Eff.try_except
           (row <- question_body idx question_text category ;;
            Eff.ret (row, 0))
           (fun e =>
              Eff.ret (question_fallback idx question_text category e, 1)) ;;
       question_loop (S idx) rest
         {| results := results acc ++ [fst step];
            failures := failures acc + snd step |})%eff
  end.
End Document.

Definition evaluate_document
  (doc_name extractor_model judge_model benchmark_type : string) : Eff.M run :=
  let benchmark_key := upper benchmark_type in
  match TRACK_CONFIG benchmark_key with
  | None =>
      Eff.raise (Raise ValueError
        ("Unknown benchmark type '" +++ benchmark_type
           +++ "'. Expected ['A', 'B']"))
  | Some track_info =>
      let questions_path :=
        Utils.path_join (Utils.path_join Utils.DATA_DIR "questions")
          (doc_name +++ questions_pattern track_info) in
      let gt_path :=
        Utils.path_join (Utils.path_join Utils.DATA_DIR "ground_truth")
          (doc_name +++ ground_truth_pattern track_info) in
      let pdf_path :=
        Utils.path_join (Utils.path_join Utils.DATA_DIR "documents")
          (doc_name +++ ".pdf") in
      if negb (path_exists pdf_path)
      then Eff.raise (Raise FileNotFoundError ("PDF not found: " +++ pdf_path))
      else
        (questions <- Eff.lift (Utils.load_jsonl questions_path) ;;
         ground_truth_entries <- Eff.lift (Utils.load_jsonl gt_path) ;;
         gt_map <- Eff.lift (build_gt_map ground_truth_entries) ;;
         question_loop doc_name extractor_model judge_model benchmark_key
           pdf_path gt_map 1 questions {| results := []; failures := 0 |})%eff
  end.

Section Precomputed.
Variables (doc_name answers_path judge_model benchmark_key : string).
Variable gt_map : dict.

(** The statements of the [try] after [category] has been assigned. *)
Definition judged_row (idx : nat) (question_text : string)
  (entry gt_entry category : pyval) : Eff.M pyval :=
  (given <- Eff.lift (py_get entry "model_answer" PNone) ;;
   model_answer_obj <-
     match given with
     | PNone =>
         (answer <- Eff.lift (py_get entry "answer" (PStr "")) ;;
          rationale <- Eff.lift (py_get entry "rationale" (PStr "")) ;;
          Eff.ret (PDict [("answer", answer); ("rationale", rationale)]))
     | _ => Eff.ret given
     end ;;
   score_obj <-
     ScoreAnswer.score_answer model_answer_obj gt_entry judge_model benchmark_key ;;
   given_meta <- Eff.lift (py_get entry "metadata" (PDict [])) ;;
   copied <- Eff.lift (py_copy given_meta) ;;
   metadata <-
     Eff.lift
       (py_update copied
          [ ("document", PStr doc_name);
            ("judge_model", PStr judge_model);
            ("source_answers_file", PStr answers_path);
            ("benchmark", PStr benchmark_key);
            ("category", category);
            ("timestamp", PStr (utcnow_isoformat idx)) ]) ;;
   Eff.ret (make_row question_text model_answer_obj score_obj metadata))%eff.

(** The body of the [try] for one entry: the value of [category] when
    the body is left, and the row or the exception. *)
Definition entry_body (idx : nat) (question_text : string) (entry : pyval)
  : list event -> (pyval * res pyval) * list event :=
  fun t =>
    if str_empty question_text
    then ((PNone, Err (Raise ValueError "Missing question text in answers file.")), t)
    else
      match dict_get question_text gt_map with
      | None => ((PNone, Err (missing_ground_truth question_text)), t)
      | Some gt_entry =>
          match py_get gt_entry "category" (PStr "Uncategorized") with
          | Err e => ((PNone, Err e), t)
          | Ok category =>
              let '(r, t') :=
                judged_row idx question_text entry gt_entry category t in
              ((category, r), t')
          end
      end.

(** The [except Exception as e] branch; it can raise in turn. *)
Definition entry_fallback (idx : nat) (question_text : string)
  (entry category : pyval) (e : exn) : res pyval :=
  (given_meta <- py_get entry "metadata" PNone ;;
   fallback_cat <-
     (if truthy given_meta
      then (m <- py_getitem entry "metadata" ;;
            py_get m "category" (PStr "Uncategorized"))
      else Ok (PStr "Uncategorized")) ;;
   let err_category := if truthy category then category else fallback_cat in
   given <- py_get entry "model_answer" PNone ;;
   Ok (make_row question_text given (error_scores e)
         (PDict
            [ ("document", PStr doc_name);
              ("judge_model", PStr judge_model);
              ("source_answers_file", PStr answers_path);
              ("benchmark", PStr benchmark_key);
              ("category", err_category);
              ("error", PStr (exn_str e));
              ("timestamp", PStr (utcnow_isoformat idx)) ])))%res.

(** [for idx, entry in enumerate(answers_entries, start=1)] *)
Fixpoint entry_loop (idx : nat) (answers_entries : list pyval) (acc : run)
  : Eff.M run :=
  match answers_entries with
  | [] => Eff.ret acc
  | entry :: rest =>
      (question <- Eff.lift (py_get entry "question" (PStr "")) ;;
       let question_text := strip (py_str question) in
       step <-
         (fun t =>
            match entry_body idx question_text entry t with
            | ((_, Ok row), t') => (Ok (row, 0), t')
            | ((category, Err e), t') =>
                match entry_fallback idx question_text entry category e with
                | Ok row => (Ok (row, 1), t')
                | Err e' => (Err e', t')
                end
            end) ;;
       entry_loop (S idx) rest
         {| results := results acc ++ [fst step];
            failures := failures acc + snd step |})%eff
  end.
End Precomputed.

Definition evaluate_precomputed_answers
  (doc_name answers_path judge_model benchmark_type : string) : Eff.M run :=
  let benchmark_key := upper benchmark_type in
  match TRACK_CONFIG benchmark_key with
  | None =>
      Eff.raise (Raise ValueError
        ("Unknown benchmark type '" +++ benchmark_type
           +++ "'. Expected ['A', 'B']"))
  | Some track_info =>
      let gt_path :=
        Utils.path_join (Utils.path_join Utils.DATA_DIR "ground_truth")
          (doc_name +++ ground_truth_pattern track_info) in
      if negb (path_exists answers_path)
      then Eff.raise (Raise FileNotFoundError
             ("Answers file not found: " +++ answers_path))
      else if negb (path_exists gt_path)
      then Eff.raise (Raise FileNotFoundError
             ("Ground truth not found: " +++ gt_path))
      else
        (ground_truth_entries <- Eff.lift (Utils.load_jsonl gt_path) ;;
         answers_entries <- Eff.lift (Utils.load_jsonl answers_path) ;;
         match answers_entries with
         | [] =>
             Eff.raise (Raise ValueError
               ("No entries found in answers file: " +++ answers_path))
         | _ :: _ =>
             gt_map <- Eff.lift (build_gt_map ground_truth_entries) ;;
             entry_loop doc_name answers_path judge_model benchmark_key
               gt_map 1 answers_entries {| results := []; failures := 0 |}
         end)%eff
  end.

End WithWorld.
End Pipeline.

(** ** The aggregator ([calc_scores.py]) *)

Module CalcScores.

(** *** The file name pattern *)

Definition lower_char (c : ascii) : ascii :=
  let n := nat_of_ascii c in
  if ((65 <=? n) && (n <=? 90))%nat then ascii_of_nat (n + 32) else c.

(** What follows the literal [p] at the head of [s], letters compared
    without regard to case. *)
Fixpoint after_literal (p s : string) : option string :=
  match p, s with
  | EmptyString, _ => Some s
  | String a p', String b s' =>
      if Ascii.eqb (lower_char a) (lower_char b) then after_literal p' s' else None
  | String _ _, EmptyString => None
  end.

(** [\.jsonl$]: the literal, then the end of the text or its last line feed *)
Definition is_jsonl_tail (s : string) : bool :=
  match after_literal ".jsonl" s with
  | Some rest => String.eqb rest "" || String.eqb rest nl
  | None => false
  end.

(** [(.+?)] followed by [\.jsonl$]: the shortest non-empty run, free of
    line feeds, after which the tail matches. *)
Fixpoint lazy_group (s : string) : option string :=
  match s with
  | EmptyString => None
  | String c s' =>
      if Ascii.eqb c "010" then None
      else if is_jsonl_tail s' then Some (String c EmptyString)
      else match lazy_group s' with
           | Some g => Some (String c g)
           | None => None
           end
  end.

(** The pattern matched at the head of [s]: groups 1 and 2. *)
Definition match_here (s : string) : option (ascii * string) :=
  match after_literal "benchmark_" s with
  | Some (String c (String u rest)) =>
      if (Ascii.eqb (lower_char c) "a" || Ascii.eqb (lower_char c) "b")
         && Ascii.eqb u "_"
      then match lazy_group rest with
           | Some g => Some (c, g)
           | None => None
           end
      else None
  | _ => None
  end.

(** [re.search(r"benchmark_([ab])_(.+?)\.jsonl$", s, re.IGNORECASE)]:
    the match that starts leftmost. *)
Fixpoint search_pattern (s : string) : option (ascii * string) :=
  match match_here s with
  | Some m => Some m
  | None =>
      match s with
      | EmptyString => None
      | String _ s' => search_pattern s'
      end
  end.

(** [benchmark_from_file] and [model_name] of [load_results] *)
Definition file_benchmark_and_model (filename : string) : pyval * string :=
  match search_pattern filename with
  | Some (c, g) => (PStr (String (upper_char c) EmptyString), g)
  | None => (PNone, "unknown_model")
  end.

(** [entry.setdefault("metadata", {});
     entry["metadata"].setdefault("benchmark", benchmark_from_file);
     entry["metadata"]["extractor_model"] = model_name] *)
Definition attach_model (benchmark_from_file : pyval) (model_name : string)
  (entry : pyval) : res pyval :=
  match entry with
  | PDict d =>
      match dict_get_default "metadata" (PDict []) d with
      | PDict meta =>
          Ok (PDict
                (dict_set "metadata"
                   (PDict (dict_set "extractor_model" (PStr model_name)
                             (dict_setdefault "benchmark" benchmark_from_file meta)))
                   d))
      | m => Err (no_attribute m "setdefault")
      end
  | _ => Err (no_attribute entry "setdefault")
  end.

Fixpoint attach_all (benchmark_from_file : pyval) (model_name : string)
  (path : string) (entries : list pyval) : res (list (string * pyval)) :=
  match entries with
  | [] => Ok []
  | entry :: rest =>
      (e <- attach_model benchmark_from_file model_name entry ;;
       es <- attach_all benchmark_from_file model_name path rest ;;
       Ok ((path, e) :: es))%res
  end.

(** *** Membership and means *)

Fixpoint is_substring (p s : string) : bool :=
  String.prefix p s
  || match s with
     | EmptyString => false
     | String _ s' => is_substring p s'
     end.

Definition is_str (k : string) (v : pyval) : bool :=
  match v with PStr s => String.eqb s k | _ => false end.

(** [k in v] for a [str] [k] *)
Definition py_contains (k : string) (v : pyval) : res bool :=
  match v with
  | PDict d => Ok (dict_has k d)
  | PList l => Ok (existsb (is_str k) l)
  | PStr s => Ok (is_substring k s)
  | _ => Err (Raise TypeError
                ("argument of type '" +++ type_name v +++ "' is not iterable"))
  end.

(** [float(n)] for a length *)
Definition float_of_nat (n : nat) : float :=
  SF2Prim (binary_normalize prec emax (Z.of_nat n) 0 false).

Section WithWorld.
Context {W : World}.

(** [sum(values) / len(values)] *)
Definition mean (values : list float) : float :=
  PrimFloat.div (py_sum values) (float_of_nat (length values)).

(** [sum(values) / len(values) if values else 0.0] *)
Definition mean_or_zero (values : list float) : float :=
  match values with
  | [] => 0%float
  | _ :: _ => mean values
  end.

(** *** Grouping *)

Definition gkey : Type := hkey * hkey * hkey.     (* model, document, benchmark *)

Definition gkey_eq_dec (a b : gkey) : {a = b} + {a <> b}.
Proof. decide equality; auto using hkey_eq_dec. decide equality; auto using hkey_eq_dec. Defined.

Definition mbkey_eq_dec (a b : hkey * hkey) : {a = b} + {a <> b}.
Proof. decide equality; auto using hkey_eq_dec. Defined.

Definition category_map : Type := list (hkey * list float).
Definition grouped_map : Type := list (gkey * category_map).

(** [grouped[g][category].append(score)] on the nested [defaultdict] *)
Definition add_score (g : gkey) (category : hkey) (score : float)
  (grouped : grouped_map) : grouped_map :=
  alist_alter gkey_eq_dec
    (alist_alter hkey_eq_dec (fun values => values ++ [score]) [] category)
    [] g grouped.

Record summary : Type := {
  categories : list (hkey * float);
  functional_score : float
}.

(** The inner loop over [category_map.items()]:
    [category_scores] and [all_scores]. *)
Fixpoint category_pass (cm : category_map)
  (category_scores : list (hkey * float)) (all_scores : list float)
  : list (hkey * float) * list float :=
  match cm with
  | [] => (category_scores, all_scores)
  | (category, values) :: rest =>
      match values with
      | [] => category_pass rest category_scores all_scores
      | _ :: _ =>
          category_pass rest
            (alist_set hkey_eq_dec category (mean values) category_scores)
            (all_scores ++ values)
      end
  end.

Record totals : Type := {
  model_summaries : list (gkey * summary);
  benchmark_totals : list (hkey * list float);
  model_benchmark_totals : list ((hkey * hkey) * list float)
}.

(** The loop over [grouped.items()] *)
Fixpoint group_pass (grouped : grouped_map) (acc : totals) : totals :=
  match grouped with
  | [] => acc
  | ((model, doc, benchmark), cm) :: rest =>
      let '(category_scores, all_scores) := category_pass cm [] [] in
      let doc_score := mean_or_zero all_scores in
      group_pass rest
        {| model_summaries :=
             alist_set gkey_eq_dec (model, doc, benchmark)
               {| categories := category_scores; functional_score := doc_score |}
               (model_summaries acc);
           benchmark_totals :=
             alist_alter hkey_eq_dec (fun l => l ++ [doc_score]) [] benchmark
               (benchmark_totals acc);
           model_benchmark_totals :=
             alist_alter mbkey_eq_dec (fun l => l ++ [doc_score]) []
               (model, benchmark) (model_benchmark_totals acc) |}
  end.

Definition means_of {K : Type} (l : list (K * list float)) : list (K * float) :=
  map (fun kv => (fst kv, mean_or_zero (snd kv))) l.

Record aggregate_result : Type := {
  summaries : list (gkey * summary);
  global_scores : list (hkey * float);
  model_benchmark_scores : list ((hkey * hkey) * float)
}.

(** [load_results] *)
Fixpoint load_results (paths : list string) : res (list (string * pyval)) :=
  match paths with
  | [] => Ok []
  | path :: rest =>
      if negb (path_exists path)
      then Err (Raise FileNotFoundError ("Results file not found: " +++ path))
      else
        (entries <- Utils.load_jsonl path ;;
         let '(benchmark_from_file, model_name) :=
           file_benchmark_and_model (Utils.basename path) in
         here <- attach_all benchmark_from_file model_name path entries ;;
         more <- load_results rest ;;
         Ok (here ++ more))%res
  end.

(** [extract_question_score] *)
Definition extract_question_score (entry : pyval) : res float :=
  (scores <- py_get entry "scores" (PDict []) ;;
   has_question_score <- py_contains "question_score" scores ;;
   if (has_question_score : bool)
   then (v <- py_getitem scores "question_score" ;; py_float float_of_str py_repr v)
   else
     has_correctness_score <- py_contains "correctness_score" scores ;;
     if (has_correctness_score : bool)
     then (v <- py_getitem scores "correctness_score" ;; py_float float_of_str py_repr v)
     else Ok 0%float)%res.

(** One turn of the first loop of [aggregate]: the group, the
    category and the score of an entry. *)
Definition entry_keys (entry : pyval) : res (gkey * (hkey * float)) :=
  (meta <- py_get entry "metadata" (PDict []) ;;
   model <- py_get meta "extractor_model" (PStr "unknown_model") ;;
   doc <- py_get meta "document" (PStr "unknown_document") ;;
   benchmark <- py_get meta "benchmark" (PStr "unknown_benchmark") ;;
   category <- py_get meta "category" (PStr "Uncategorized") ;;
   score <- extract_question_score entry ;;
   m <- py_key model ;;
   d <- py_key doc ;;
   b <- py_key benchmark ;;
   c <- py_key category ;;
   Ok ((m, d, b), (c, score)))%res.

Fixpoint collect (data : list (string * pyval)) (grouped : grouped_map)
  : res grouped_map :=
  match data with
  | [] => Ok grouped
  | (_, entry) :: rest =>
      (keys <- entry_keys entry ;;
       let '(g, (c, score)) := keys in
       collect rest (add_score g c score grouped))%res
  end.

(** [aggregate] *)
Definition aggregate (paths : list string) : res aggregate_result :=
  (data <- load_results paths ;;
   grouped <- collect data [] ;;
   let t := group_pass grouped
              {| model_summaries := []; benchmark_totals := [];
                 model_benchmark_totals := [] |} in
   Ok {| summaries := model_summaries t;
         global_scores := means_of (benchmark_totals t);
         model_benchmark_scores := means_of (model_benchmark_totals t) |})%res.

End WithWorld.
End CalcScores.

(** ** [load_ground_truth.py] *)

Module LoadGroundTruth.
Section WithWorld.
Context {W : World}.

(** The loop of [load_ground_truth]: [gt[obj["question"]] = obj] *)
Fixpoint load_lines (lines : list string) (gt : list (hkey * pyval))
  : res (list (hkey * pyval)) :=
  match lines with
  | [] => Ok gt
  | line :: rest =>
      (obj <- json_loads line ;;
       question <- py_getitem obj "question" ;;
       k <- py_key question ;;
       load_lines rest (alist_set hkey_eq_dec k obj gt))%res
  end.

Definition load_ground_truth (path : string) : res (list (hkey * pyval)) :=
  (lines <- read_lines path ;; load_lines lines [])%res.

End WithWorld.
End LoadGroundTruth.

(** ** A JSON decoder for the examples

    [json.loads] is a parameter of the development.  The examples run in
    a world whose decoder is this one: the JSON grammar as Python reads
    it ([NaN] and [Infinity] included, the last of several equal keys
    kept, control characters refused inside strings), on texts whose
    characters are all below code point 256. *)

Module Json.

Definition is_ws (c : ascii) : bool :=
  Ascii.eqb c " " || Ascii.eqb c "009" || Ascii.eqb c "010" || Ascii.eqb c "013".

Definition skip_ws (s : string) : string := lstrip_with is_ws s.

Definition digit_val (c : ascii) : option Z :=
  let n := nat_of_ascii c in
  if ((48 <=? n) && (n <=? 57))%nat then Some (Z.of_nat (n - 48)) else None.

Definition hex_val (c : ascii) : option nat :=
  let n := nat_of_ascii c in
  if ((48 <=? n) && (n <=? 57))%nat then Some (n - 48)
  else if ((97 <=? n) && (n <=? 102))%nat then Some (n - 87)
  else if ((65 <=? n) && (n <=? 70))%nat then Some (n - 55)
  else None.

(** The digits at the head of [s]: the number they add to [acc], how
    many they are, and what follows. *)
Fixpoint digits (s : string) (acc : Z) (count : Z) : Z * Z * string :=
  match s with
  | EmptyString => (acc, count, s)
  | String c r =>
      match digit_val c with
      | Some d => digits r (10 * acc + d)%Z (count + 1)%Z
      | None => (acc, count, s)
      end
  end.

(** The float nearest to [m * 10 ^ e], ties to even, for [0 <= m]. *)
Definition float_of_decimal (m e : Z) : float :=
  if (m =? 0)%Z then 0%float
  else if (0 <=? e)%Z
  then SF2Prim (binary_normalize prec emax (m * 10 ^ e) 0 false)
  else
    let d := (10 ^ (- e))%Z in
    let s := Z.max 0 (66 + Z.log2 d - Z.log2 m) in
    let q := (m * 2 ^ s / d)%Z in
    let sticky := if (m * 2 ^ s mod d =? 0)%Z then 0%Z else 1%Z in
    SF2Prim (binary_normalize prec emax (2 * q + sticky) (- (s + 1)) false).

Definition with_sign (neg : bool) (f : float) : float :=
  if neg then PrimFloat.opp f else f.

(** A JSON number at the head of [s]. *)
Definition number (s : string) : option (pyval * string) :=
  let '(neg, s1) :=
    match s with
    | String "-" r => (true, r)
    | _ => (false, s)
    end in
  match s1 with
  | EmptyString => None
  | String c r =>
      match digit_val c with
      | None => None
      | Some d =>
          let '(ip, _, s2) := if (d =? 0)%Z then (0%Z, 0%Z, r) else digits r d 0 in
          let '(m, fl, s3) :=
            match s2 with
            | String "." (String c' _ as r') =>
                match digit_val c' with
                | Some _ => digits r' ip 0
                | None => (ip, (-1)%Z, s2)
                end
            | _ => (ip, (-1)%Z, s2)
            end in
          let '(ex, has_exp, s4) :=
            match s3 with
            | String x r' =>
                if Ascii.eqb x "e" || Ascii.eqb x "E" then
                  let '(eneg, r'') :=
                    match r' with
                    | String "-" t => (true, t)
                    | String "+" t => (false, t)
                    | _ => (false, r')
                    end in
                  match digits r'' 0 0 with
                  | (_, 0%Z, _) => (0%Z, false, s3)
                  | (v, _, rest) => (if eneg then (- v)%Z else v, true, rest)
                  end
                else (0%Z, false, s3)
            | EmptyString => (0%Z, false, s3)
            end in
          if (0 <=? fl)%Z || has_exp
          then Some (PFloat (with_sign neg (float_of_decimal m (ex - Z.max 0 fl))), s4)
          else Some (PInt (if neg then (- ip)%Z else ip), s4)
      end
  end.

Definition simple_escape (c : ascii) : option ascii :=
  if Ascii.eqb c "034" then Some "034"%char
  else if Ascii.eqb c "\" then Some "\"%char
  else if Ascii.eqb c "/" then Some "/"%char
  else if Ascii.eqb c "b" then Some "008"%char
  else if Ascii.eqb c "f" then Some "012"%char
  else if Ascii.eqb c "n" then Some "010"%char
  else if Ascii.eqb c "r" then Some "013"%char
  else if Ascii.eqb c "t" then Some "009"%char
  else None.

Definition prepend (c : ascii) (r : option (string * string))
  : option (string * string) :=
  match r with
  | Some (body, rest) => Some (String c body, rest)
  | None => None
  end.

(** A string after its opening quote: its characters and what follows
    the closing quote. *)
Fixpoint string_body (s : string) : option (string * string) :=
  match s with
  | EmptyString => None
  | String c r =>
      if Ascii.eqb c "034" then Some (EmptyString, r)
      else if Ascii.eqb c "\" then
        match r with
        | String "u" (String h1 (String h2 (String h3 (String h4 r')))) =>
            match hex_val h1, hex_val h2, hex_val h3, hex_val h4 with
            | Some 0, Some 0, Some a, Some b =>
                prepend (ascii_of_nat (16 * a + b)) (string_body r')
            | _, _, _, _ => None
            end
        | String e r' =>
            match simple_escape e with
            | Some x => prepend x (string_body r')
            | None => None
            end
        | EmptyString => None
        end
      else if (nat_of_ascii c <? 32)%nat then None
      else prepend c (string_body r)
  end.

Definition literal (name : string) (v : pyval) (s : string)
  : option (pyval * string) :=
  if String.prefix name s
  then Some (v, substring (String.length name) (String.length s) s)
  else None.

Definition first_of {A} (a b : option A) : option A :=
  match a with Some _ => a | None => b end.

Fixpoint value (fuel : nat) (s : string) {struct fuel} : option (pyval * string) :=
  match fuel with
  | O => None
  | S fuel' =>
      match s with
      | EmptyString => None
      | String c r =>
          if Ascii.eqb c "034" then
            match string_body r with
            | Some (body, rest) => Some (PStr body, rest)
            | None => None
            end
          else if Ascii.eqb c "{" then
            match skip_ws r with
            | String "}" rest => Some (PDict [], rest)
            | r' => members fuel' r' []
            end
          else if Ascii.eqb c "[" then
            match skip_ws r with
            | String "]" rest => Some (PList [], rest)
            | r' => elements fuel' r' []
            end
          else
            first_of (number s)
              (first_of (literal "null" PNone s)
                 (first_of (literal "true" (PBool true) s)
                    (first_of (literal "false" (PBool false) s)
                       (first_of (literal "NaN" (PFloat nan) s)
                          (first_of (literal "Infinity" (PFloat infinity) s)
                             (literal "-Infinity" (PFloat neg_infinity) s))))))
      end
  end

with elements (fuel : nat) (s : string) (acc : list pyval) {struct fuel}
  : option (pyval * string) :=
  match fuel with
  | O => None
  | S fuel' =>
      match value fuel' s with
      | Some (v, rest) =>
          match skip_ws rest with
          | String "," rest' => elements fuel' (skip_ws rest') (acc ++ [v])
          | String "]" rest' => Some (PList (acc ++ [v]), rest')
          | _ => None
          end
      | None => None
      end
  end

with members (fuel : nat) (s : string) (acc : dict) {struct fuel}
  : option (pyval * string) :=
  match fuel with
  | O => None
  | S fuel' =>
      match s with
      | String "034" r =>
          match string_body r with
          | Some (key, rest) =>
              match skip_ws rest with
              | String ":" rest' =>
                  match value fuel' (skip_ws rest') with
                  | Some (v, rest'') =>
                      match skip_ws rest'' with
                      | String "," t => members fuel' (skip_ws t) (dict_set key v acc)
                      | String "}" t => Some (PDict (dict_set key v acc), t)
                      | _ => None
                      end
                  | None => None
                  end
              | _ => None
              end
          | None => None
          end
      | _ => None
      end
  end.

Definition decode_error : exn :=
  Raise ValueError "Expecting value: line 1 column 1 (char 0)".

Definition loads (s : string) : res pyval :=
  match value (S (String.length s)) (skip_ws s) with
  | Some (v, rest) =>
      if str_empty (skip_ws rest) then Ok v else Err decode_error
  | None => Err decode_error
  end.

(** A text written with ['] where JSON has the double quote. *)
Fixpoint qq (s : string) : string :=
  match s with
  | EmptyString => EmptyString
  | String c r => String (if Ascii.eqb c "'" then "034"%char else c) (qq r)
  end.

End Json.

(** ** A world for the examples

    The interpreter's part is computed ([json.loads] by the decoder
    above, [repr] and [float] on the values the examples print and
    convert, [sum] by additions from the left, which are exact on the
    scores of the examples); the files and the replies of the two models
    are given by a script. *)

Module Example.

Definition digits_of (z : Z) : string := NilZero.string_of_int (Z.to_int z).

Fixpoint join (sep : string) (l : list string) : string :=
  match l with
  | [] => EmptyString
  | [x] => x
  | x :: r => x +++ sep +++ join sep r
  end.

Fixpoint escape (quote : ascii) (s : string) : string :=
  match s with
  | EmptyString => EmptyString
  | String c r =>
      (if Ascii.eqb c "\" then "\\"
       else if Ascii.eqb c quote then String "\" (String c EmptyString)
       else if Ascii.eqb c "010" then "\n"
       else if Ascii.eqb c "013" then "\r"
       else if Ascii.eqb c "009" then "\t"
       else String c EmptyString) +++ escape quote r
  end.

(** [repr] of a [str]: single quotes, unless it holds one and no double
    quote. *)
Definition repr_str (s : string) : string :=
  let quote : ascii :=
    if char_in "'" s && negb (char_in "034" s) then "034"%char else "'"%char in
  String quote (escape quote s) +++ String quote EmptyString.

Definition strip_zeros (s : string) : string := rstrip_with (Ascii.eqb "0") s.

Fixpoint zeros (n : nat) : string :=
  match n with
  | O => EmptyString
  | S n' => String "0" (zeros n')
  end.

(** [s.zfill(n)] for a text of digits *)
Definition pad_zeros (n : nat) (s : string) : string :=
  zeros (n - String.length s) +++ s.

(** [repr] of a float that is integral and below [10 ^ 16], infinite or
    NaN; any other float is written with all its decimals. *)
Definition repr_float (f : float) : string :=
  match Prim2SF f with
  | S754_zero neg => if neg then "-0.0" else "0.0"
  | S754_infinity neg => if neg then "-inf" else "inf"
  | S754_nan => "nan"
  | S754_finite neg m e =>
      (if neg then "-" else "") +++
      (if (0 <=? e)%Z then digits_of (Z.pos m * 2 ^ e) +++ ".0"
       else
         let k := (- e)%Z in
         let frac := (Z.pos m mod 2 ^ k * 5 ^ k)%Z in
         digits_of (Z.pos m / 2 ^ k) +++ "." +++
         (if (frac =? 0)%Z then "0"
          else strip_zeros (pad_zeros (Z.to_nat k) (digits_of frac))))
  end.

Fixpoint repr (v : pyval) : string :=
  match v with
  | PNone => "None"
  | PBool b => if b then "True" else "False"
  | PInt z => digits_of z
  | PFloat f => repr_float f
  | PStr s => repr_str s
  | PList l => "[" +++ join ", " (map repr l) +++ "]"
  | PDict d =>
      "{" +++ join ", " (map (fun kv => let '(k, x) := kv in
                                        repr_str k +++ ": " +++ repr x) d) +++ "}"
  end.

Definition repr_set (l : list string) : string :=
  "{" +++ join ", " (map repr_str l) +++ "}".

Definition is_digit (c : ascii) : bool :=
  match Json.digit_val c with Some _ => true | None => false end.

(** The text without the underscores that stand between two digits. *)
Fixpoint drop_separators (previous_digit : bool) (s : string) : string :=
  match s with
  | EmptyString => EmptyString
  | String c r =>
      if Ascii.eqb c "_" && previous_digit
         && match r with String d _ => is_digit d | EmptyString => false end
      then drop_separators false r
      else String c (drop_separators (is_digit c) r)
  end.

Fixpoint lower (s : string) : string :=
  match s with
  | EmptyString => EmptyString
  | String c r => String (CalcScores.lower_char c) (lower r)
  end.

(** The exponent part of a float literal: what it adds to the exponent. *)
Definition exponent_part (s : string) : option Z :=
  match s with
  | EmptyString => Some 0%Z
  | String x r =>
      if Ascii.eqb x "e" || Ascii.eqb x "E" then
        let '(eneg, r') :=
          match r with
          | String "-" t => (true, t)
          | String "+" t => (false, t)
          | _ => (false, r)
          end in
        match Json.digits r' 0 0 with
        | (_, 0%Z, _) => None
        | (v, _, EmptyString) => Some (if eneg then (- v)%Z else v)
        | _ => None
        end
      else None
  end.

(** [float(s)]: blanks around, a sign, then [inf], [infinity] or [nan]
    in any case, or digits with an optional point and exponent. *)
Definition float_of_text (s : string) : option float :=
  let t := strip s in
  let '(neg, u) :=
    match t with
    | String "-" r => (true, r)
    | String "+" r => (false, r)
    | _ => (false, t)
    end in
  if String.eqb (lower u) "nan" then Some nan
  else if String.eqb (lower u) "inf" || String.eqb (lower u) "infinity"
  then Some (Json.with_sign neg infinity)
  else
    let '(ip, n1, s1) := Json.digits (drop_separators false u) 0 0 in
    let '(m, n2, s2) :=
      match s1 with
      | String "." r => Json.digits r ip 0
      | _ => (ip, 0%Z, s1)
      end in
    if (n1 + n2 =? 0)%Z then None
    else
      match exponent_part s2 with
      | Some ex => Some (Json.with_sign neg (Json.float_of_decimal m (ex - n2)))
      | None => None
      end.

Fixpoint lookup {A} (k : string) (l : list (string * A)) : option A :=
  match l with
  | [] => None
  | (k', a) :: r => if String.eqb k k' then Some a else lookup k r
  end.

(** What is outside the interpreter. *)
Record script : Type := {
  environment : list (string * string);
  files : list (string * list string);
  extractor_says : string -> res string;      (* by question *)
  judge_says : string -> res string           (* by prompt *)
}.

Definition prompt_text (track : string) : string :=
  "Track " +++ track +++ ". Question: {{QUESTION}} Expected: {{GROUND_TRUTH_ANSWER}}"
  +++ " ({{GROUND_TRUTH_RATIONALE}}) Given: {{MODEL_ANSWER}} ({{MODEL_RATIONALE}})".

Definition world_of (sc : script) : World := {|
  json_loads := Json.loads;
  float_of_str := float_of_text;
  py_repr := repr;
  py_repr_set := repr_set;
  py_sum := fun values => fold_left PrimFloat.add values 0%float;
  getenv := fun name => lookup name (environment sc);
  path_exists := fun path =>
    match lookup path (files sc) with Some _ => true | None => false end;
  read_lines := fun path =>
    match lookup path (files sc) with
    | Some lines => Ok lines
    | None => Err (Raise FileNotFoundError
                     ("[Errno 2] No such file or directory: " +++ repr_str path))
    end;
  BASE_DIR := "/bench";
  genai_installed := true;
  benchmark_a_correctness_prompt := prompt_text "A";
  benchmark_b_correctness_prompt := prompt_text "B";
  encode_pdf := fun _ => Ok "data:application/pdf;base64,JVBERi0=";
  openrouter_reply := fun _ _ question _ => extractor_says sc question;
  gemini_reply := fun _ _ question _ => extractor_says sc question;
  judge_reply := fun _ _ prompt => judge_says sc prompt;
  utcnow_isoformat := fun idx => "2025-01-01T00:00:00." +++ pad_zeros 6 (digits_of (Z.of_nat idx))
|}.

(** A run on three questions: the extractor answers the first inside
    code fences, raises an exception without a message on the second,
    and answers the third in prose around the object. *)

Definition keys : list (string * string) :=
  [ ("OPENROUTER_API_KEY", "sk-or-1"); ("GEMINI_API_KEY", "g-1") ].

Definition acme_files : list (string * list string) :=
  [ ("/bench/data/documents/acme.pdf", []);
    ("/bench/data/questions/acme_benchmark_b_semantic_questions.jsonl",
      [ Json.qq "{'question': 'What is the revenue?', 'category': 'Finance'}";
        Json.qq "{'question': ' Who is the CEO? ', 'category': 'People'}";
        Json.qq "{'question': 'How many sites?'}" ]);
    ("/bench/data/ground_truth/acme_benchmark_b_semantic.jsonl",
      [ Json.qq "{'question': 'What is the revenue?', 'ground_truth_answer': '12', 'rationale': 'p. 3'}";
        Json.qq "{'question': 'Who is the CEO?', 'answer': 'A. Smith', 'rationale': 'p. 1'}";
        Json.qq "{'question': 'How many sites?', 'answer': 4, 'rationale': 'p. 9'}";
        Json.qq "{'question': 'What is the revenue? ', 'ground_truth_answer': '14', 'rationale': 'p. 4'}" ]) ].

Definition fence : string := "```".

Definition acme_extractor (question : string) : res string :=
  if String.eqb question "What is the revenue?"
  then Ok (fence +++ "json" +++ nl
             +++ Json.qq "{'answer': '14', 'rationale': 'table on p. 4'}" +++ nl +++ fence)
  else if String.eqb question "Who is the CEO?"
  then Err (Raise (OtherException "MemoryError") "")
  else Ok ("Here it is: " +++ Json.qq "{'answer': 5, 'rationale': 'map'}" +++ " Done.").

Definition acme_judge (prompt : string) : res string :=
  if CalcScores.is_substring "revenue" prompt
  then Ok (Json.qq "{'is_correct': true}")
  else Ok (Json.qq "{'is_correct': false, 'has_value': true, 'question_score': 0.4, 'error_type': 'wrong_count', 'justification': 'off by one'}").

Definition acme : World :=
  world_of {| environment := keys; files := acme_files;
              extractor_says := acme_extractor; judge_says := acme_judge |}.

(** The questions and the ground truth of the run, as loaded. *)
Definition acme_questions : list pyval :=
  [ PDict [("question", PStr "What is the revenue?"); ("category", PStr "Finance")];
    PDict [("question", PStr " Who is the CEO? "); ("category", PStr "People")];
    PDict [("question", PStr "How many sites?")] ].

Definition acme_ground_truth : list pyval :=
  [ PDict [("question", PStr "What is the revenue?");
           ("ground_truth_answer", PStr "12"); ("rationale", PStr "p. 3")];
    PDict [("question", PStr "Who is the CEO?");
           ("answer", PStr "A. Smith"); ("rationale", PStr "p. 1")];
    PDict [("question", PStr "How many sites?");
           ("answer", PInt 4); ("rationale", PStr "p. 9")];
    PDict [("question", PStr "What is the revenue? ");
           ("ground_truth_answer", PStr "14"); ("rationale", PStr "p. 4")] ].

Definition acme_gt_map : dict :=
  match Pipeline.build_gt_map acme_ground_truth with
  | Ok m => m
  | Err _ => []
  end.


Definition no_rows : Pipeline.run := {| Pipeline.results := []; Pipeline.failures := 0 |}.

(** Result files for the aggregator.  The first holds two rows of one
    group and one category, scored 1.0 and 0.0; its first row names
    another extractor than the file name does, its second is a fallback
    row.  The second has three rows scored 1.0 in one category and one
    row scored 0.0 in another.  The third was written by hand, with a
    score that is no number.  The name of the last does not follow the
    pattern. *)
Definition report_files : list (string * list string) :=
  [ ("/results/acme_benchmark_a_openai-gpt5.jsonl",
      [ Json.qq "{'question': 'q1', 'scores': {'correctness_score': 1.0, 'question_score': 1.0}, 'metadata': {'document': 'acme', 'extractor_model': 'anthropic/claude-4.5-opus', 'benchmark': 'A', 'category': 'Finance'}}";
        Json.qq "{'question': 'q2', 'scores': {'correctness_score': 0.0, 'rationale_score': 0.0}, 'metadata': {'document': 'acme', 'category': 'Finance', 'error': 'timeout'}}" ]);
    ("/results/acme_benchmark_b_openai-gpt5.jsonl",
      [ Json.qq "{'scores': {'question_score': 1.0}, 'metadata': {'document': 'acme', 'category': 'Finance'}}";
        Json.qq "{'scores': {'question_score': 0.0}, 'metadata': {'document': 'acme', 'category': 'People'}}";
        Json.qq "{'scores': {'question_score': 1.0}, 'metadata': {'document': 'acme', 'category': 'Finance'}}";
        Json.qq "{'scores': {'question_score': 1.0}, 'metadata': {'document': 'acme', 'category': 'Finance'}}" ]);
    ("/results/hand_benchmark_a_m.jsonl",
      [ Json.qq "{'scores': {'question_score': 'n/a', 'correctness_score': 1.0}, 'metadata': {'document': 'acme'}}" ]);
    ("/results/notes.jsonl",
      [ Json.qq "{'question': 'q3', 'scores': {'question_score': 0.25}, 'metadata': {'document': 'acme', 'extractor_model': 'openai/gpt-5.1'}}" ]) ].

Definition reports : World :=
  world_of {| environment := []; files := report_files;
              extractor_says := fun _ => Err (Raise (OtherException "ConnectionError") "offline");
              judge_says := fun _ => Err (Raise (OtherException "ConnectionError") "offline") |}.

End Example.

(** ** Vocabulary of the statements *)

Module Spec.

(** [record[k]], when [record] is a dict that has the key *)
Definition field (k : string) (record : pyval) : option pyval :=
  match record with
  | PDict d => dict_get k d
  | _ => None
  end.

(** [row["scores"][k]] and [row["metadata"][k]] *)
Definition score_field (k : string) (row : pyval) : option pyval :=
  match field "scores" row with
  | Some s => field k s
  | None => None
  end.

Definition metadata_field (k : string) (row : pyval) : option pyval :=
  match field "metadata" row with
  | Some m => field k m
  | None => None
  end.

Definition is_float (v : option pyval) : Prop :=
  exists f : float, v = Some (PFloat f).

(** The judge's [question_score] is an integer too large for a float. *)
Definition score_overflows (d : dict) : Prop :=
  exists z : Z, dict_get "question_score" d = Some (PInt z) /\ float_of_Z z = None.

(** The judge's [question_score] coerced to a float, when the key is
    present and the value coercible. *)
Definition coerced_score {W : World} (d : dict) : option float :=
  match dict_get "question_score" d with
  | Some v =>
      match py_float float_of_str py_repr v with
      | Ok f => Some f
      | Err _ => None
      end
  | None => None
  end.

(** A text in code fences with the language tag [json]. *)
Definition fenced (text : string) : string :=
  "```json" +++ nl +++ text +++ nl +++ "```".

(** A question record with a textual [question]. *)
Definition has_question_text (q : pyval) : Prop :=
  exists question_text, Pipeline.question_key q = Ok question_text.


(** What a fallback row records of the exception [e]. *)
Definition fallback_row_for (e : exn) (row : pyval) : Prop :=
  score_field "correctness_score" row = Some (PFloat 0)
  /\ score_field "rationale_score" row = Some (PFloat 0)
  /\ (exists text, score_field "correctness_justification" row = Some (PStr text)
                   /\ CalcScores.is_substring (exn_str e) text = true)
  /\ (exists text, score_field "rationale_justification" row = Some (PStr text)
                   /\ CalcScores.is_substring (exn_str e) text = true)
  /\ metadata_field "error" row = Some (PStr (exn_str e)).


Section Outcomes.
Context {W : World}.
Variables (doc_name extractor_model judge_model benchmark_key pdf_path : string).
Variable gt_map : dict.

(** The row of one question of [evaluate_document], and whether it
    counts as a failure: the row the body builds, or the fallback row for
    the exception the body raises. *)
Definition question_outcome (q : pyval) (out : pyval * bool) : Prop :=
  exists idx question_text category t,
    Pipeline.question_key q = Ok question_text
    /\ py_get q "category" (PStr "Uncategorized") = Ok category
    /\ match fst (Pipeline.question_body doc_name extractor_model judge_model
                    benchmark_key pdf_path gt_map idx question_text category t) with
       | Ok built => out = (built, false)
       | Err e =>
           out = (Pipeline.question_fallback doc_name extractor_model judge_model
                    benchmark_key idx question_text category e, true)
           /\ fallback_row_for e (fst out)
       end.



End Outcomes.



(** The scores of a row as the aggregator needs them: the two legacy
    scores are floats, [question_score] is a float or absent, and
    [extract_question_score] returns the row's [correctness_score]. *)
Definition row_scores_numeric {W : World} (row : pyval) : Prop :=
  is_float (score_field "correctness_score" row)
  /\ is_float (score_field "rationale_score" row)
  /\ (is_float (score_field "question_score" row)
      \/ score_field "question_score" row = None)
  /\ exists f, CalcScores.extract_question_score row = Ok f
               /\ score_field "correctness_score" row = Some (PFloat f).


(** A result entry: a dict whose [metadata], when present, is a dict. *)
Definition result_entry_ok (entry : pyval) : bool :=
  match entry with
  | PDict d =>
      match dict_get "metadata" d with
      | Some (PDict _) | None => true
      | Some _ => false
      end
  | _ => false
  end.

(** *** Grouping, in the words of the specification *)

Section Buckets.
Context {K V : Type}.
Variable eq_dec : forall a b : K, {a = b} + {a <> b}.

Definition has_key (k : K) (kv : K * V) : bool :=
  if eq_dec (fst kv) k then true else false.

(** The values recorded under [k], in the order of the rows. *)
Definition bucket (k : K) (l : list (K * V)) : list V :=
  map snd (filter (has_key k) l).

Definition add_first (acc : list K) (k : K) : list K :=
  if in_dec eq_dec k acc then acc else acc ++ [k].

(** The distinct keys, in the order in which they first appear. *)
Definition keys_of (l : list (K * V)) : list K :=
  fold_left add_first (map fst l) [].
End Buckets.

(** A key with what a function says of it, for each key of a list. *)
Definition tabulate {K A : Type} (F : K -> A) (ks : list K) : list (K * A) :=
  map (fun k => (k, F k)) ks.

(** A row as the aggregator sees it: its group, its category, its score. *)
Definition info : Type := CalcScores.gkey * (hkey * float).

Fixpoint infos_of {W : World} (data : list (string * pyval)) : res (list info) :=
  match data with
  | [] => Ok []
  | (_, entry) :: rest =>
      (i <- CalcScores.entry_keys entry ;;
       more <- infos_of rest ;;
       Ok (i :: more))%res
  end.

(** The row scores of category [c] in group [g]; the categories of the
    group; all row scores of the group, category by category. *)
Definition scores_in (g : CalcScores.gkey) (c : hkey) (infos : list info) : list float :=
  bucket hkey_eq_dec c (bucket CalcScores.gkey_eq_dec g infos).

Definition categories_in (g : CalcScores.gkey) (infos : list info) : list hkey :=
  keys_of hkey_eq_dec (bucket CalcScores.gkey_eq_dec g infos).

Definition group_scores (g : CalcScores.gkey) (infos : list info) : list float :=
  flat_map (fun c => scores_in g c infos) (categories_in g infos).

(** Per group: the mean of each category's row scores, and the mean of
    all the group's row scores. *)
Definition summary_spec {W : World} (infos : list info) (g : CalcScores.gkey)
  : CalcScores.summary :=
  {| CalcScores.categories :=
       tabulate (fun c => CalcScores.mean (scores_in g c infos)) (categories_in g infos);
     CalcScores.functional_score := CalcScores.mean (group_scores g infos) |}.

Definition summaries_spec {W : World} (infos : list info)
  : list (CalcScores.gkey * CalcScores.summary) :=
  tabulate (summary_spec infos) (keys_of CalcScores.gkey_eq_dec infos).

(** The mean of the category means of a summary. *)
Definition mean_of_category_means {W : World} (s : CalcScores.summary) : float :=
  CalcScores.mean (map snd (CalcScores.categories s)).

(** What the second loop of [aggregate] records for one group. *)
Definition summarise {W : World} (cm : CalcScores.category_map)
  : CalcScores.summary :=
  {| CalcScores.categories := fst (CalcScores.category_pass cm [] []);
     CalcScores.functional_score :=
       CalcScores.mean_or_zero (snd (CalcScores.category_pass cm [] [])) |}.

(** A loaded row of the file [path], made from the [entry] of the file:
    the model is the one of the file name, whatever the entry says; the
    benchmark is the entry's own when its metadata has one, else the one
    of the file name; the scores are the entry's. *)
Definition loaded_from (path : string) (entry row : pyval) : Prop :=
  metadata_field "extractor_model" row
  = Some (PStr (snd (CalcScores.file_benchmark_and_model (Utils.basename path))))
  /\ metadata_field "benchmark" row
     = Some match metadata_field "benchmark" entry with
            | Some own => own
            | None => fst (CalcScores.file_benchmark_and_model (Utils.basename path))
            end
  /\ field "scores" row = field "scores" entry.

(** A result file that exists and loads, with well-formed entries. *)
Definition result_file_ok {W : World} (path : string) (entries : list pyval) : Prop :=
  path_exists path = true
  /\ Utils.load_jsonl path = Ok entries
  /\ Forall (fun entry => result_entry_ok entry = true) entries.

(** The key and the object of one line of a ground-truth file, as
    [load_ground_truth] reads it: the key is the question as written. *)
Definition line_entry {W : World} (line : string) : res (hkey * pyval) :=
  (obj <- json_loads line ;;
   question <- py_getitem obj "question" ;;
   k <- py_key question ;;
   Ok (k, obj))%res.

End Spec.

Import Spec.

(** ** The result file of a run ([evaluation_pipeline.py]) *)

Module Outputs.
Section WithWorld.
Context {W : World}.

(** [RESULTS_DIR] *)
Definition RESULTS_DIR : string := Utils.path_join BASE_DIR "results".

(** [safe_model_name = extractor_model.replace("/", "_")] *)
Definition safe_model_name (extractor_model : string) : string :=
  replace "/" "_" extractor_model.

(** [out_path] of [evaluate_document]:
    [f"{doc_name}_{track_info['label']}_{safe_model_name}.jsonl"] under
    [RESULTS_DIR] *)
Definition out_path (doc_name extractor_model : string)
  (track_info : Pipeline.track) : string :=
  Utils.path_join RESULTS_DIR
    (doc_name +++ "_" +++ Pipeline.label track_info +++ "_"
       +++ safe_model_name extractor_model +++ ".jsonl").

End WithWorld.
End Outputs.

(** ** Further vocabulary *)

Module Terms.

(** The environment variable that holds the key of the extractor's
    backend: Gemini for the models of [google/], OpenRouter for the rest. *)
Definition backend_key (model_name : string) : string :=
  if startswith model_name "google/" then "GEMINI_API_KEY" else "OPENROUTER_API_KEY".

(** The literal [p] stands somewhere in [s], letters compared without
    regard to case. *)
Fixpoint literal_inside (p s : string) : bool :=
  match CalcScores.after_literal p s with
  | Some _ => true
  | None =>
      match s with
      | EmptyString => false
      | String _ s' => literal_inside p s'
      end
  end.


(** [q.get("category", "Uncategorized")] of a question record *)
Definition category_of (q : pyval) : pyval :=
  match q with
  | PDict d => dict_get_default "category" (PStr "Uncategorized") d
  | _ => PNone
  end.


(** The keys that [evaluate_precomputed_answers] writes into the metadata
    of a judged row. *)
Definition judged_keys : list string :=
  [ "document"; "judge_model"; "source_answers_file"; "benchmark"; "category";
    "timestamp" ].

(** The model and the benchmark of a group. *)
Definition model_of (g : CalcScores.gkey) : hkey := fst (fst g).
Definition benchmark_of (g : CalcScores.gkey) : hkey := snd g.
Definition model_benchmark_of (g : CalcScores.gkey) : hkey * hkey :=
  (model_of g, benchmark_of g).

(** The groups' scores under a key of the group, in the order of the
    summaries; and per key, in the order of first appearance, the mean of
    the scores of the groups with that key. *)
Definition scores_by {K : Type} (key : CalcScores.gkey -> K)
  (sums : list (CalcScores.gkey * CalcScores.summary)) : list (K * float) :=
  map (fun gs => (key (fst gs), CalcScores.functional_score (snd gs))) sums.

Definition means_by {W : World} {K : Type}
  (eq_dec : forall a b : K, {a = b} + {a <> b}) (key : CalcScores.gkey -> K)
  (sums : list (CalcScores.gkey * CalcScores.summary)) : list (K * float) :=
  tabulate (fun k => CalcScores.mean (bucket eq_dec k (scores_by key sums)))
    (keys_of eq_dec (scores_by key sums)).

(** The metadata of the row of a question that went through. *)
Definition stamp_of {W : World}
  (doc_name extractor_model judge_model benchmark_key : string)
  (idx : nat) (category : pyval) : pyval :=
  PDict
    [ ("document", PStr doc_name);
      ("extractor_model", PStr extractor_model);
      ("judge_model", PStr judge_model);
      ("benchmark", PStr benchmark_key);
      ("category", category);
      ("timestamp", PStr (utcnow_isoformat idx)) ].





(** The files of a run of [evaluate_document]. *)
Definition questions_path {W : World} (doc_name : string) (track_info : Pipeline.track)
  : string :=
  Utils.path_join (Utils.path_join Utils.DATA_DIR "questions")
    (doc_name +++ Pipeline.questions_pattern track_info).

Definition ground_truth_path {W : World} (doc_name : string)
  (track_info : Pipeline.track) : string :=
  Utils.path_join (Utils.path_join Utils.DATA_DIR "ground_truth")
    (doc_name +++ Pipeline.ground_truth_pattern track_info).

Definition document_path {W : World} (doc_name : string) : string :=
  Utils.path_join (Utils.path_join Utils.DATA_DIR "documents") (doc_name +++ ".pdf").


(** The answer that [evaluate_precomputed_answers] judges for an entry:
    its [model_answer], or the [answer] and [rationale] that stand at the
    top level of the entry when it has none. *)
Definition flat_answer (d : dict) : pyval :=
  PDict [ ("answer", dict_get_default "answer" (PStr "") d);
          ("rationale", dict_get_default "rationale" (PStr "") d) ].

Definition answer_of_entry (d : dict) : pyval :=
  match dict_get_default "model_answer" PNone d with
  | PNone => flat_answer d
  | given => given
  end.

(** The metadata of an entry, when it is an object. *)
Definition metadata_of_entry (d : dict) : dict :=
  match dict_get "metadata" d with
  | Some (PDict meta) => meta
  | _ => []
  end.

(** What [evaluate_precomputed_answers] writes over the metadata of a
    judged entry. *)
Definition judged_stamp {W : World}
  (doc_name answers_path judge_model benchmark_key : string)
  (idx : nat) (category : pyval) : dict :=
  [ ("document", PStr doc_name);
    ("judge_model", PStr judge_model);
    ("source_answers_file", PStr answers_path);
    ("benchmark", PStr benchmark_key);
    ("category", category);
    ("timestamp", PStr (utcnow_isoformat idx)) ].

(** A text of blanks only. *)
Fixpoint all_space (s : string) : bool :=
  match s with
  | EmptyString => true
  | String c r => is_space c && all_space r
  end.

End Terms.

Import Terms.

(** ** Further example files

    Two more documents beside the one of [Example.acme]: the questions
    file of [beta] has a record without a question, the ground-truth file
    of [gamma] has one; two answers files, one of them empty; and a file
    with a line that is no JSON. *)

Module Cases.

Definition files : list (string * list string) :=
  Example.acme_files ++
  [ ("/bench/data/documents/beta.pdf", []);
    ("/bench/data/questions/beta_benchmark_a_vision_questions.jsonl",
      [ Json.qq "{'question': 'How many sites?'}";
        Json.qq "{'category': 'Finance'}";
        Json.qq "{'question': 'What is the revenue?'}" ]);
    ("/bench/data/ground_truth/beta_benchmark_a_vision.jsonl",
      [ Json.qq "{'question': 'How many sites?', 'answer': 4, 'rationale': 'p. 9'}" ]);
    ("/bench/data/documents/gamma.pdf", []);
    ("/bench/data/questions/gamma_benchmark_a_vision_questions.jsonl",
      [ Json.qq "{'question': 'How many sites?'}" ]);
    ("/bench/data/ground_truth/gamma_benchmark_a_vision.jsonl",
      [ Json.qq "{'question': 'How many sites?', 'answer': 4, 'rationale': 'p. 9'}";
        Json.qq "{'answer': 5}" ]);
    ("/in/empty.jsonl", []);
    ("/in/broken.jsonl",
      [ Json.qq "{'question': 'How many sites?'}";
        "not json";
        Json.qq "{'question': 'What is the revenue?'}" ]);
    ("/in/answers.jsonl",
      [ Json.qq "{'question': 'How many sites?', 'answer': 5, 'rationale': 'map', 'metadata': {'extractor_model': 'by-hand', 'benchmark': 'A', 'reviewer': 'kim'}}" ]) ].

Definition desk : World :=
  Example.world_of
    {| Example.environment := Example.keys; Example.files := files;
       Example.extractor_says := Example.acme_extractor;
       Example.judge_says := Example.acme_judge |}.

(** The entry of the answers file, the ground truth of its question, and
    the row that judging it gives. *)
Definition hand_entry : dict :=
  [ ("question", PStr "How many sites?");
    ("answer", PInt 5);
    ("rationale", PStr "map");
    ("metadata", PDict [ ("extractor_model", PStr "by-hand");
                         ("benchmark", PStr "A");
                         ("reviewer", PStr "kim") ]) ].

Definition sites_truth : pyval :=
  PDict [ ("question", PStr "How many sites?");
          ("answer", PInt 4); ("rationale", PStr "p. 9") ].

Definition or_none (r : res pyval) : pyval :=
  match r with
  | Ok v => v
  | Err _ => PNone
  end.

Definition hand_row : pyval :=
  Eval vm_compute in
    or_none
      (fst (Pipeline.judged_row (W := desk) "acme" "/in/answers.jsonl"
              "deepseek/deepseek-v3.2" "B" 1 "How many sites?" (PDict hand_entry)
              sites_truth (PStr "Uncategorized") [])).

(** The first row of the run of [Example.acme]. *)
Definition first_row : pyval :=
  Eval vm_compute in
    or_none
      (fst (Pipeline.question_body (W := Example.acme) "acme" "openai/gpt-5.1"
              "deepseek/deepseek-v3.2" "B" "/bench/data/documents/acme.pdf"
              Example.acme_gt_map 1 "What is the revenue?" (PStr "Finance") [])).

(** Result files of one model on one benchmark and two documents: three
    rows scored [1.0] for the first document, one row scored [0.0] for the
    second. *)
Definition board_files : list (string * list string) :=
  [ ("/results/north_benchmark_a_m1.jsonl",
      [ Json.qq "{'scores': {'question_score': 1.0}, 'metadata': {'document': 'north', 'category': 'Finance'}}";
        Json.qq "{'scores': {'question_score': 1.0}, 'metadata': {'document': 'north', 'category': 'People'}}";
        Json.qq "{'scores': {'question_score': 1.0}, 'metadata': {'document': 'north', 'category': 'Finance'}}" ]);
    ("/results/south_benchmark_a_m1.jsonl",
      [ Json.qq "{'scores': {'question_score': 0.0}, 'metadata': {'document': 'south', 'category': 'Finance'}}" ]) ].

Definition board : World :=
  Example.world_of
    {| Example.environment := []; Example.files := board_files;
       Example.extractor_says := Example.acme_extractor;
       Example.judge_says := Example.acme_judge |}.

Definition board_paths : list string :=
  [ "/results/north_benchmark_a_m1.jsonl"; "/results/south_benchmark_a_m1.jsonl" ].

(** What [aggregate] returns on them. *)
Definition board_report : CalcScores.aggregate_result :=
  Eval vm_compute in
    match CalcScores.aggregate (W := board) board_paths with
    | Ok r => r
    | Err _ =>
        {| CalcScores.summaries := []; CalcScores.global_scores := [];
           CalcScores.model_benchmark_scores := [] |}
    end.

End Cases.

(** * Properties *)

(** ** Strings *)

Lemma append_assoc (a b c : string) : (a +++ b) +++ c = a +++ (b +++ c).
Proof. induction a as [|x a IH]; simpl; [reflexivity | now rewrite IH]. Qed.

Lemma append_nil_r (a : string) : a +++ "" = a.
Proof. induction a as [|x a IH]; simpl; [reflexivity | now rewrite IH]. Qed.

Lemma length_append (a b : string) :
  String.length (a +++ b) = String.length a + String.length b.
Proof. induction a as [|x a IH]; simpl; [reflexivity | now rewrite IH]. Qed.

Lemma char_in_append (c : ascii) (a b : string) :
  char_in c (a +++ b) = char_in c a || char_in c b.
Proof.
  induction a as [|x a IH]; simpl; [reflexivity|].
  rewrite IH. now rewrite orb_assoc.
Qed.


Lemma rindex_of_absent (c : ascii) (s : string) :
  char_in c s = false -> rindex_of c s = None.
Proof.
  induction s as [|x s IH]; simpl; intros Hs; [reflexivity|].
  apply orb_false_iff in Hs as [Hx Hs].
  now rewrite (IH Hs), Hx.
Qed.

Lemma rindex_of_last (c : ascii) (s post : string) :
  char_in c post = false ->
  rindex_of c (s +++ String c post) = Some (String.length s).
Proof.
  intros Hpost. induction s as [|x s IH]; simpl.
  - now rewrite (rindex_of_absent _ _ Hpost), Ascii.eqb_refl.
  - now rewrite IH.
Qed.

Lemma substring_skip (pre s : string) (n : nat) :
  substring (String.length pre) n (pre +++ s) = substring 0 n s.
Proof. induction pre as [|x pre IH]; simpl; [reflexivity | exact IH]. Qed.

Lemma substring_take (b post : string) :
  substring 0 (String.length b) (b +++ post) = b.
Proof.
  induction b as [|x b IH]; simpl.
  - destruct post; reflexivity.
  - now rewrite IH.
Qed.



Lemma rstrip_with_append (p : ascii -> bool) (s : string) (c : ascii) (post : string) :
  p c = false ->
  rstrip_with p (s +++ String c post) = s +++ String c (rstrip_with p post).
Proof.
  intros Hc. induction s as [|x s IH]; simpl.
  - rewrite Hc, andb_false_r. reflexivity.
  - rewrite IH. destruct s; reflexivity.
Qed.

Lemma char_in_lstrip (p : ascii -> bool) (c : ascii) (s : string) :
  char_in c s = false -> char_in c (lstrip_with p s) = false.
Proof.
  induction s as [|x s IH]; simpl; intros Hs; [reflexivity|].
  apply orb_false_iff in Hs as [Hx Hs].
  destruct (p x); [auto | simpl; now rewrite Hx, Hs].
Qed.

Lemma char_in_rstrip (p : ascii -> bool) (c : ascii) (s : string) :
  char_in c s = false -> char_in c (rstrip_with p s) = false.
Proof.
  induction s as [|x s IH]; simpl; intros Hs; [reflexivity|].
  apply orb_false_iff in Hs as [Hx Hs].
  destruct (str_empty (rstrip_with p s) && p x); simpl; [reflexivity|].
  now rewrite Hx, IH.
Qed.


(** ** The answer parser *)

Section ParserProperties.
Context {W : World}.


(** Without an opening or a closing brace there is nothing to fall back to. *)
Lemma loads_tolerant_no_block (who text : string) (e : exn) :
  json_loads text = Err e ->
  Parser.brace_block text = None ->
  Parser.loads_tolerant who text = Err (Parser.malformed who text).
Proof.
  intros Hfail Hnone. unfold Parser.loads_tolerant. now rewrite Hfail, Hnone.
Qed.


End ParserProperties.


(** The substring that does not parse: the error carries the text. *)
Example parser_reports_malformed :
  Parser.parse_extractor_output (W := Example.acme) "  I found {nothing} useful.  "
  = Err (Raise ValueError
           ("Extractor returned malformed JSON:" +++ nl +++ nl
              +++ "I found {nothing} useful.")).
Proof. reflexivity. Qed.

(** *** Code fences *)

Lemma prefix_length (a b : string) :
  String.prefix a b = true -> String.length a <= String.length b.
Proof.
  revert b. induction a as [|x a IH]; intros b; [simpl; lia|].
  destruct b as [|y b]; simpl; [discriminate|].
  destruct (ascii_dec x y); [|discriminate].
  intros Hp. apply IH in Hp. lia.
Qed.

(** A character that the pattern does not hold, put at the end of a text,
    makes no new occurrence of the pattern. *)
Lemma prefix_one_more (old s : string) (x : ascii) :
  char_in x old = false ->
  String.prefix old (s +++ String x EmptyString) = String.prefix old s.
Proof.
  revert s. induction old as [|a old IH]; intros s Hx.
  - now destruct s.
  - simpl in Hx. apply orb_false_iff in Hx as [Hxa Hx].
    destruct s as [|b s]; simpl.
    + destruct (ascii_dec a x) as [->|_]; [|reflexivity].
      now rewrite Ascii.eqb_refl in Hxa.
    + destruct (ascii_dec a b); [now apply IH | reflexivity].
Qed.

Lemma replace_from_one_more (old new s : string) (x : ascii) (skip : nat) :
  old <> EmptyString ->
  char_in x old = false ->
  skip <= String.length s ->
  replace_from old new skip (s +++ String x EmptyString)
  = replace_from old new skip s +++ String x EmptyString.
Proof.
  intros Hold Hx. revert skip. induction s as [|c s IH]; intros skip Hskip.
  - simpl in Hskip. replace skip with 0 by lia.
    cbn [String.append replace_from].
    change (String x EmptyString) with (EmptyString +++ String x EmptyString) at 1.
    rewrite (prefix_one_more old EmptyString x Hx).
    destruct old as [|a old]; [now destruct Hold | reflexivity].
  - cbn [String.append replace_from]. destruct skip as [|k].
    + change (String c (s +++ String x EmptyString))
        with (String c s +++ String x EmptyString).
      rewrite (prefix_one_more old (String c s) x Hx).
      destruct (String.prefix old (String c s)) eqn:Ep.
      * apply prefix_length in Ep. simpl in Ep.
        rewrite IH by lia. now rewrite append_assoc.
      * rewrite IH by lia. reflexivity.
    + apply IH. simpl in Hskip. lia.
Qed.

Lemma replace_absent (old new s : string) :
  CalcScores.is_substring old s = false -> replace old new s = s.
Proof.
  unfold replace. induction s as [|c s IH]; intros Hs; [reflexivity|].
  cbn [CalcScores.is_substring] in Hs. apply orb_false_iff in Hs as [Hp Hs].
  cbn [replace_from]. rewrite Hp. now rewrite IH.
Qed.

Lemma rstrip_with_one_more (p : ascii -> bool) (s : string) (x : ascii) :
  p x = true ->
  rstrip_with p (s +++ String x EmptyString) = rstrip_with p s.
Proof.
  intros Hx. induction s as [|c s IH]; simpl.
  - now rewrite Hx.
  - now rewrite IH.
Qed.

Lemma strip_with_one_more (p : ascii -> bool) (s : string) (x : ascii) :
  p x = true ->
  strip_with p (s +++ String x EmptyString) = strip_with p s.
Proof.
  intros Hx. unfold strip_with. induction s as [|c s IH]; simpl.
  - now rewrite Hx.
  - destruct (p c); [exact IH|].
    exact (rstrip_with_one_more p (String c s) x Hx).
Qed.

Lemma strip_fenced (text : string) : strip (fenced text) = fenced text.
Proof.
  unfold strip, strip_with.
  change (lstrip_with is_space (fenced text)) with (fenced text).
  replace (fenced text)
    with ((("```json" +++ nl +++ text) +++ (nl +++ "``")) +++ String "`" "")
    by (unfold fenced; rewrite !append_assoc; reflexivity).
  now rewrite rstrip_with_append.
Qed.

Lemma strip_backticks_fenced (text : string) :
  strip_chars "`" (fenced text) = ("json" +++ nl +++ text) +++ nl.
Proof.
  unfold strip_chars, strip_with.
  change (lstrip_with (fun c => char_in c "`") (fenced text))
    with ("json" +++ nl +++ text +++ nl +++ "```").
  replace ("json" +++ nl +++ text +++ nl +++ "```")
    with (("json" +++ nl +++ text) +++ String "010" "```")
    by (rewrite !append_assoc; reflexivity).
  now rewrite rstrip_with_append.
Qed.

Lemma replace_tag_line (text : string) :
  replace "json" "" (("json" +++ nl +++ text) +++ nl)
  = nl +++ replace "json" "" text +++ nl.
Proof.
  rewrite !append_assoc.
  change (replace "json" "" ("json" +++ nl +++ text +++ nl))
    with (String "010" (replace_from "json" "" 0 (text +++ String "010" ""))).
  rewrite replace_from_one_more by (discriminate || reflexivity || lia).
  reflexivity.
Qed.

(** What is left of a fenced text after the cleaning: the trimmed text
    without the letters of the tag, wherever they stand. *)
Lemma clean_fenced (text : string) :
  Parser.clean_fences (strip (fenced text)) = strip (replace "json" "" text).
Proof.
  rewrite strip_fenced. unfold Parser.clean_fences.
  change (startswith (fenced text) "```") with true. cbn iota.
  rewrite strip_backticks_fenced, replace_tag_line.
  unfold strip, strip_with.
  change (lstrip_with is_space (nl +++ replace "json" "" text +++ nl))
    with (lstrip_with is_space (replace "json" "" text +++ String "010" "")).
  exact (strip_with_one_more is_space _ "010" eq_refl).
Qed.

(** A fenced text that holds the letters of the tag nowhere is parsed as
    the bare text is. *)
Lemma fenced_without_tag_letters {W : World} (text : string) :
  CalcScores.is_substring "json" text = false ->
  startswith (strip text) "```" = false ->
  Parser.parse_extractor_output (fenced text) = Parser.parse_extractor_output text
  /\ Parser.parse_judge_output (fenced text) = Parser.parse_judge_output text.
Proof.
  intros Htag Hfence.
  unfold Parser.parse_extractor_output, Parser.parse_judge_output.
  rewrite clean_fenced, (replace_absent _ _ _ Htag).
  unfold Parser.clean_fences. rewrite Hfence. split; reflexivity.
Qed.

(** C7: the answer [{"answer": "json", ...}] in code fences with the tag
    [json] is not parsed as the bare text is: the parser removes every
    occurrence of the tag's letters, those inside the answer too. *)
Theorem fenced_answer_loses_json :
  let text := Json.qq "{'answer': 'json', 'rationale': 'see the json export'}" in
  Parser.parse_extractor_output (W := Example.acme) text
  = Ok (PDict [("answer", PStr "json"); ("rationale", PStr "see the json export")])
  /\ Parser.parse_extractor_output (W := Example.acme) (fenced text)
     = Ok (PDict [("answer", PStr ""); ("rationale", PStr "see the  export")])
  /\ Parser.parse_judge_output (W := Example.acme) (fenced text)
     = Ok (PDict [("answer", PStr ""); ("rationale", PStr "see the  export")]).
Proof. vm_compute. repeat split. Qed.

(** Whatever the decoder, it is handed the text without the letters. *)
Lemma fenced_answer_text_decoded :
  Parser.clean_fences (strip (fenced (Json.qq "{'answer': 'json'}")))
  = Json.qq "{'answer': ''}".
Proof. reflexivity. Qed.

(** A fenced text that holds the letters nowhere is parsed as the bare
    text is. *)
Example fenced_answer_kept :
  Parser.parse_extractor_output (W := Example.acme)
    (fenced (Json.qq "{'answer': '14', 'rationale': 'table on p. 4'}"))
  = Parser.parse_extractor_output (W := Example.acme)
      (Json.qq "{'answer': '14', 'rationale': 'table on p. 4'}").
Proof. reflexivity. Qed.

(** ** The score normalisation *)

Section ScorerProperties.
Context {W : World}.

Lemma py_float_not_overflow (v : pyval) (e : exn) :
  py_float float_of_str py_repr v = Err e ->
  (forall z, v = PInt z -> float_of_Z z <> None) ->
  ScoreAnswer.type_or_value_error e = true.
Proof.
  intros Hv Hz. destruct v as [|b|z|f|s|l|d]; simpl in Hv;
    try (injection Hv as <-; reflexivity); try discriminate.
  - destruct (float_of_Z z) eqn:Ez; [discriminate|].
    now destruct (Hz z eq_refl).
  - destruct (float_of_str s); [discriminate|].
    injection Hv as <-. reflexivity.
Qed.

Lemma coerce_question_score_eq (is_correct : bool) (v : pyval) :
  ScoreAnswer.coerce_question_score is_correct v
  = match py_float float_of_str py_repr v with
    | Ok f => Ok f
    | Err e =>
        if ScoreAnswer.type_or_value_error e
        then Ok (one_or_zero is_correct)
        else Err e
    end.
Proof. destruct v; reflexivity. Qed.

(** The record [normalise] returns: its three scores. *)
Lemma normalise_scores (d : dict) :
  ~ score_overflows d ->
  let is_correct := truthy (dict_get_default "is_correct" PNone d) in
  exists record,
    ScoreAnswer.normalise (PDict d) = Ok record
    /\ field "question_score" record
       = Some (PFloat match coerced_score d with
                      | Some f => f
                      | None => one_or_zero is_correct
                      end)
    /\ field "correctness_score" record = field "question_score" record
    /\ field "rationale_score" record = Some (PFloat (one_or_zero is_correct)).
Proof.
  intros Hno is_correct.
  assert (Hq : ScoreAnswer.coerce_question_score is_correct
                 (dict_get_default "question_score" PNone d)
               = Ok match coerced_score d with
                    | Some f => f
                    | None => one_or_zero is_correct
                    end).
  { rewrite coerce_question_score_eq. unfold coerced_score, dict_get_default.
    destruct (dict_get "question_score" d) as [v|] eqn:Eq; [|reflexivity].
    destruct (py_float float_of_str py_repr v) as [f|e] eqn:Ef; [reflexivity|].
    rewrite (py_float_not_overflow v e Ef); [reflexivity|].
    intros z -> Hz. apply Hno. now exists z. }
  unfold ScoreAnswer.normalise. simpl. fold is_correct. rewrite Hq. simpl.
  eexists; repeat split.
Qed.

(** The two replies of the specification's examples. *)
Example normalise_partial_credit :
  exists record,
    ScoreAnswer.normalise
      (PDict [("is_correct", PBool false); ("question_score", PFloat 0.4)])
    = Ok record
    /\ field "correctness_score" record = Some (PFloat 0.4)
    /\ field "rationale_score" record = Some (PFloat 0).
Proof. eexists; repeat split. Qed.

Example normalise_correct_without_score :
  exists record,
    ScoreAnswer.normalise (PDict [("is_correct", PBool true)]) = Ok record
    /\ field "correctness_score" record = Some (PFloat 1)
    /\ field "rationale_score" record = Some (PFloat 1).
Proof. eexists; repeat split. Qed.

(** C1: on the reply [{"is_correct": true, "question_score": 10 ** 400}]
    the score is not coercible to a float, yet no record is returned:
    [float] raises [OverflowError], which the handler for [TypeError] and
    [ValueError] lets through. *)
Theorem normalise_overflowing_score :
  float_of_Z (10 ^ 400) = None
  /\ ScoreAnswer.normalise
       (PDict [("is_correct", PBool true); ("question_score", PInt (10 ^ 400))])
     = Err (Raise OverflowError "int too large to convert to float").
Proof. split; vm_compute; reflexivity. Qed.

End ScorerProperties.

(** ** The evaluation loops *)

Lemma prefix_refl (p : string) : String.prefix p p = true.
Proof.
  induction p as [|c p IH]; simpl; [reflexivity|].
  destruct (ascii_dec c c) as [_|Hc]; [exact IH | now destruct Hc].
Qed.

Lemma is_substring_refl (p : string) : CalcScores.is_substring p p = true.
Proof.
  destruct p as [|c p]; [reflexivity|].
  change (String.prefix (String c p) (String c p)
          || CalcScores.is_substring (String c p) p = true).
  now rewrite prefix_refl.
Qed.

Lemma is_substring_suffix (a p : string) : CalcScores.is_substring p (a +++ p) = true.
Proof.
  induction a as [|x a IH]; simpl.
  - apply is_substring_refl.
  - rewrite IH. apply orb_true_r.
Qed.

Lemma question_key_dict (q : pyval) (question_text : string) :
  Pipeline.question_key q = Ok question_text -> exists d, q = PDict d.
Proof.
  destruct q; try discriminate. intros _. now eexists.
Qed.

Section LoopProperties.
Context {W : World}.
Variables (doc_name extractor_model judge_model benchmark_key pdf_path : string).
Variable gt_map : dict.

Lemma error_scores_fallback (e : exn) (question_text : string)
  (model_answer metadata : pyval) :
  field "error" metadata = Some (PStr (exn_str e)) ->
  fallback_row_for e
    (Pipeline.make_row question_text model_answer (Pipeline.error_scores e) metadata).
Proof.
  intros Hmeta. unfold fallback_row_for.
  split; [reflexivity|]. split; [reflexivity|]. split; [|split].
  - eexists. split; [reflexivity|]. apply (is_substring_suffix "Error: ").
  - eexists. split; [reflexivity|]. apply (is_substring_suffix "Error: ").
  - exact Hmeta.
Qed.

Lemma question_fallback_records (idx : nat) (question_text : string)
  (category : pyval) (e : exn) :
  fallback_row_for e
    (Pipeline.question_fallback doc_name extractor_model judge_model benchmark_key
       idx question_text category e).
Proof. apply error_scores_fallback. reflexivity. Qed.

Local Abbreviation body := (Pipeline.question_body doc_name extractor_model judge_model
                    benchmark_key pdf_path gt_map).
Local Abbreviation loop := (Pipeline.question_loop doc_name extractor_model judge_model
                    benchmark_key pdf_path gt_map).

(** One turn of the loop of [evaluate_document]. *)
Lemma question_loop_cons (idx : nat) (q : pyval) (rest : list pyval)
  (acc : Pipeline.run) (t : list event) (question_text : string) (category : pyval) :
  Pipeline.question_key q = Ok question_text ->
  py_get q "category" (PStr "Uncategorized") = Ok category ->
  loop idx (q :: rest) acc t
  = let out :=
      match fst (body idx question_text category t) with
      | Ok row => (row, false)
      | Err e =>
          (Pipeline.question_fallback doc_name extractor_model judge_model
             benchmark_key idx question_text category e, true)
      end in
    loop (S idx) rest
      {| Pipeline.results := Pipeline.results acc ++ [fst out];
         Pipeline.failures := Pipeline.failures acc + (if snd out then 1 else 0) |}
      (snd (body idx question_text category t)).
Proof.
  intros Hkey Hcat. cbn [Pipeline.question_loop].
  unfold Eff.bind, Eff.lift, Eff.try_except, Eff.ret.
  rewrite Hkey, Hcat.
  destruct (body idx question_text category t) as [[row|e] t1]; reflexivity.
Qed.




Variable answers_path : string.

Local Abbreviation ebody := (Pipeline.entry_body doc_name answers_path judge_model
                               benchmark_key gt_map).
Local Abbreviation efallback := (Pipeline.entry_fallback doc_name answers_path
                                   judge_model benchmark_key).
Local Abbreviation eloop := (Pipeline.entry_loop doc_name answers_path judge_model
                               benchmark_key gt_map).








End LoopProperties.

Section RowProperties.
Context {W : World}.

Lemma normalise_ok_shape (judge_result record : pyval) :
  ScoreAnswer.normalise judge_result = Ok record ->
  exists (q r : float) (cj rj ic hv et jr : pyval),
    record = PDict
               [ ("correctness_score", PFloat q);
                 ("correctness_justification", cj);
                 ("rationale_score", PFloat r);
                 ("rationale_justification", rj);
                 ("is_correct", ic);
                 ("has_value", hv);
                 ("error_type", et);
                 ("judge_reasoning", jr);
                 ("question_score", PFloat q) ].
Proof.
  destruct judge_result as [| | | | | |d]; try discriminate.
  unfold ScoreAnswer.normalise. simpl.
  destruct (ScoreAnswer.coerce_question_score _ _) as [q|e]; simpl; [|discriminate].
  intros [= <-]. repeat eexists.
Qed.



Lemma built_row_numeric (question_text : string)
  (model_answer record metadata judge_result : pyval) :
  ScoreAnswer.normalise judge_result = Ok record ->
  row_scores_numeric (Pipeline.make_row question_text model_answer record metadata)
  /\ is_float (score_field "question_score"
                 (Pipeline.make_row question_text model_answer record metadata)).
Proof.
  intros Hn.
  destruct (normalise_ok_shape _ _ Hn) as (q & r & cj & rj & ic & hv & et & jr & ->).
  unfold row_scores_numeric, is_float.
  split; [|eexists; reflexivity].
  split; [eexists; reflexivity|]. split; [eexists; reflexivity|].
  split; [left; eexists; reflexivity|].
  exists q. split; reflexivity.
Qed.




End RowProperties.

(** ** A judge model outside the allowed set *)

Section DisallowedJudge.
Context {W : World}.
Variable judge_model : string.
Hypothesis Hjudge : str_in judge_model ScoreAnswer.JUDGE_MODELS = false.



End DisallowedJudge.


Section DisallowedJudgeLoop.
Context {W : World}.
Variables (doc_name extractor_model judge_model benchmark_key pdf_path : string).
Variable gt_map : dict.
Hypothesis Hjudge : str_in judge_model ScoreAnswer.JUDGE_MODELS = false.



Variable answers_path : string.




End DisallowedJudgeLoop.

(** ** Failure isolation and the scores of the rows *)





Lemma acme_questions_have_text : Forall has_question_text Example.acme_questions.
Proof. repeat constructor; eexists; reflexivity. Defined.




Section RecordedScores.
Context {W : World}.
Variables (doc_name extractor_model judge_model benchmark_key pdf_path : string).
Variable gt_map : dict.
Variable answers_path : string.






End RecordedScores.







(** ** The ground-truth map *)

Lemma dict_get_set_same (k : string) (v : pyval) (d : dict) :
  dict_get k (dict_set k v d) = Some v.
Proof.
  induction d as [|[k' v'] d IH]; simpl.
  - now rewrite String.eqb_refl.
  - destruct (String.eqb k k') eqn:E; simpl; rewrite E; [reflexivity | exact IH].
Qed.

Lemma dict_get_set_other (k k' : string) (v : pyval) (d : dict) :
  k <> k' -> dict_get k (dict_set k' v d) = dict_get k d.
Proof.
  intros Hne. apply String.eqb_neq in Hne.
  induction d as [|[k0 v0] d IH]; simpl.
  - now rewrite Hne.
  - destruct (String.eqb k' k0) eqn:E; simpl.
    + apply String.eqb_eq in E. subst k0. now rewrite Hne.
    + now rewrite IH.
Qed.

Lemma dict_update_app (l1 l2 d : dict) :
  dict_update (l1 ++ l2) d = dict_update l2 (dict_update l1 d).
Proof. apply fold_left_app. Qed.

Lemma dict_get_update_absent (k : string) (kvs d : dict) :
  Forall (fun kv => fst kv <> k) kvs ->
  dict_get k (dict_update kvs d) = dict_get k d.
Proof.
  intros Hall. revert d. induction Hall as [|[k' v'] kvs Hne _ IH]; intros d.
  - reflexivity.
  - unfold dict_update in *. simpl. rewrite IH.
    apply dict_get_set_other. simpl in Hne. congruence.
Qed.

(** A comprehension keeps, for each key, the value given last. *)
Lemma dict_of_pairs_last (k : string) (v : pyval) (l1 l2 : dict) :
  Forall (fun kv => fst kv <> k) l2 ->
  dict_get k (dict_of_pairs (l1 ++ (k, v) :: l2)) = Some v.
Proof.
  intros Hl2. unfold dict_of_pairs.
  rewrite dict_update_app.
  change (dict_update ((k, v) :: l2) (dict_update l1 []))
    with (dict_update l2 (dict_set k v (dict_update l1 []))).
  rewrite (dict_get_update_absent _ _ _ Hl2).
  apply dict_get_set_same.
Qed.

Lemma gt_pairs_app (l1 l2 : list pyval) :
  Pipeline.gt_pairs (l1 ++ l2)
  = (a <- Pipeline.gt_pairs l1 ;; b <- Pipeline.gt_pairs l2 ;; Ok (a ++ b))%res.
Proof.
  induction l1 as [|e l1 IH]; simpl.
  - destruct (Pipeline.gt_pairs l2); reflexivity.
  - destruct (Pipeline.question_key e); simpl; [|reflexivity].
    rewrite IH. destruct (Pipeline.gt_pairs l1); simpl; [|reflexivity].
    destruct (Pipeline.gt_pairs l2); reflexivity.
Qed.

Lemma gt_pairs_total (entries : list pyval) :
  Forall has_question_text entries ->
  exists kvs, Pipeline.gt_pairs entries = Ok kvs.
Proof.
  induction 1 as [|e rest [k Hk] _ [kvs IH]]; simpl.
  - now eexists.
  - rewrite Hk, IH. simpl. now eexists.
Qed.

Lemma gt_pairs_keys (entries : list pyval) (kvs : dict) (k : string) :
  Pipeline.gt_pairs entries = Ok kvs ->
  Forall (fun e => Pipeline.question_key e <> Ok k) entries ->
  Forall (fun kv => fst kv <> k) kvs.
Proof.
  revert kvs. induction entries as [|e rest IH]; simpl; intros kvs Hp Hall.
  - injection Hp as <-. constructor.
  - inversion Hall as [|? ? He Hrest]; subst.
    destruct (Pipeline.question_key e) as [k'|] eqn:Ek; simpl in Hp; [|discriminate].
    destruct (Pipeline.gt_pairs rest) as [kvs'|]; simpl in Hp; [|discriminate].
    injection Hp as <-. constructor; [|now apply IH].
    simpl. congruence.
Qed.

(** C9: when several ground-truth entries have the same trimmed question
    text, the lookup map built by the evaluation holds the last of them
    under that text, whatever stands before it, and the question with
    that text is scored against this last entry. *)
Theorem ground_truth_map_keeps_last_duplicate {W : World}
  (before after : list pyval) (last : pyval) (k : string) :
  Forall has_question_text (before ++ last :: after) ->
  Pipeline.question_key last = Ok k ->
  Forall (fun e => Pipeline.question_key e <> Ok k) after ->
  exists gt_map,
    Pipeline.build_gt_map (before ++ last :: after) = Ok gt_map
    /\ dict_get k gt_map = Some last
    /\ forall doc_name extractor_model judge_model benchmark_key pdf_path idx category,
         Pipeline.question_body doc_name extractor_model judge_model benchmark_key
           pdf_path gt_map idx k category
         = (model_answer_obj <- AskModel.ask_model k pdf_path extractor_model ;;
            score_obj <- ScoreAnswer.score_answer model_answer_obj last judge_model
                           benchmark_key ;;
            Eff.ret
              (Pipeline.make_row k model_answer_obj score_obj
                 (PDict
                    [ ("document", PStr doc_name);
                      ("extractor_model", PStr extractor_model);
                      ("judge_model", PStr judge_model);
                      ("benchmark", PStr benchmark_key);
                      ("category", category);
                      ("timestamp", PStr (utcnow_isoformat idx)) ])))%eff.
Proof.
  intros Hall Hlast Hafter.
  apply Forall_app in Hall as [Hbefore Hrest].
  inversion Hrest as [|? ? _ Hafter']; subst.
  destruct (gt_pairs_total _ Hbefore) as [kvs1 H1].
  destruct (gt_pairs_total _ Hafter') as [kvs2 H2].
  assert (Hpairs : Pipeline.gt_pairs (before ++ last :: after)
                   = Ok (kvs1 ++ (k, last) :: kvs2)).
  { rewrite gt_pairs_app, H1. simpl. now rewrite Hlast, H2. }
  assert (Hget : dict_get k (dict_of_pairs (kvs1 ++ (k, last) :: kvs2)) = Some last).
  { apply dict_of_pairs_last. exact (gt_pairs_keys _ _ _ H2 Hafter). }
  exists (dict_of_pairs (kvs1 ++ (k, last) :: kvs2)).
  split; [|split].
  - unfold Pipeline.build_gt_map. now rewrite Hpairs.
  - exact Hget.
  - intros. unfold Pipeline.question_body. now rewrite Hget.
Qed.

Lemma acme_ground_truth_has_text : Forall has_question_text Example.acme_ground_truth.
Proof. repeat constructor; eexists; reflexivity. Defined.

Lemma ground_truth_map_keeps_last_duplicate_witness :
  exists gt_map,
    Pipeline.build_gt_map Example.acme_ground_truth = Ok gt_map
    /\ dict_get "What is the revenue?" gt_map
       = Some (PDict [("question", PStr "What is the revenue? ");
                      ("ground_truth_answer", PStr "14"); ("rationale", PStr "p. 4")])
    /\ forall doc_name extractor_model judge_model benchmark_key pdf_path idx category,
         Pipeline.question_body (W := Example.acme) doc_name extractor_model
           judge_model benchmark_key pdf_path gt_map idx "What is the revenue?" category
         = (model_answer_obj <-
              AskModel.ask_model (W := Example.acme) "What is the revenue?" pdf_path
                extractor_model ;;
            score_obj <-
              ScoreAnswer.score_answer (W := Example.acme) model_answer_obj
                (PDict [("question", PStr "What is the revenue? ");
                        ("ground_truth_answer", PStr "14"); ("rationale", PStr "p. 4")])
                judge_model benchmark_key ;;
            Eff.ret
              (Pipeline.make_row "What is the revenue?" model_answer_obj score_obj
                 (PDict
                    [ ("document", PStr doc_name);
                      ("extractor_model", PStr extractor_model);
                      ("judge_model", PStr judge_model);
                      ("benchmark", PStr benchmark_key);
                      ("category", category);
                      ("timestamp", PStr (utcnow_isoformat (World := Example.acme) idx)) ])))%eff.
Proof.
  refine (ground_truth_map_keeps_last_duplicate (W := Example.acme)
            (firstn 3 Example.acme_ground_truth) [] _ "What is the revenue?"
            acme_ground_truth_has_text eq_refl _).
  constructor.
Defined.

(** *** [load_ground_truth] *)

Section LoadGroundTruthFacts.
Context {W : World}.

Lemma alist_get_set_same {K A : Type} (eq_dec : forall a b : K, {a = b} + {a <> b})
  (k : K) (a : A) (l : list (K * A)) :
  alist_get eq_dec k (alist_set eq_dec k a l) = Some a.
Proof.
  unfold alist_set. induction l as [|[k' a'] l IH]; simpl.
  - destruct (eq_dec k k); [reflexivity | contradiction].
  - destruct (eq_dec k k') as [->|Hne]; simpl.
    + destruct (eq_dec k' k'); [reflexivity | contradiction].
    + destruct (eq_dec k k'); [contradiction | exact IH].
Qed.

Lemma alist_get_set_other {K A : Type} (eq_dec : forall a b : K, {a = b} + {a <> b})
  (k k' : K) (a : A) (l : list (K * A)) :
  k <> k' -> alist_get eq_dec k (alist_set eq_dec k' a l) = alist_get eq_dec k l.
Proof.
  intros Hne. unfold alist_set. induction l as [|[k0 a0] l IH]; simpl.
  - destruct (eq_dec k k'); [contradiction | reflexivity].
  - destruct (eq_dec k' k0) as [->|Hne0]; simpl.
    + destruct (eq_dec k k0); [contradiction | reflexivity].
    + destruct (eq_dec k k0); [reflexivity | exact IH].
Qed.

Lemma load_lines_cons (line : string) (rest : list string) (gt : list (hkey * pyval)) :
  LoadGroundTruth.load_lines (line :: rest) gt
  = (kv <- line_entry line ;;
     LoadGroundTruth.load_lines rest (alist_set hkey_eq_dec (fst kv) (snd kv) gt))%res.
Proof.
  simpl. unfold line_entry.
  destruct (json_loads line) as [obj|]; simpl; [|reflexivity].
  destruct (py_getitem obj "question") as [q|]; simpl; [|reflexivity].
  destruct (py_key q); reflexivity.
Qed.

Lemma load_lines_other_keys (k : hkey) (lines : list string) :
  Forall (fun line => forall kv, line_entry line = Ok kv -> fst kv <> k) lines ->
  forall gt gt',
    LoadGroundTruth.load_lines lines gt = Ok gt' ->
    alist_get hkey_eq_dec k gt' = alist_get hkey_eq_dec k gt.
Proof.
  induction 1 as [|line rest Hline _ IH]; intros gt gt'.
  - simpl. now intros [= <-].
  - rewrite load_lines_cons.
    destruct (line_entry line) as [[k' obj]|] eqn:El; simpl; [|discriminate].
    intros Hrest. rewrite (IH _ _ Hrest).
    apply alist_get_set_other. intros ->. exact (Hline _ eq_refl eq_refl).
Qed.

(** Of the lines whose questions are equal as written, the map returned
    by [load_ground_truth] holds the object of the last. *)
Lemma load_ground_truth_keeps_last (before after : list string) (line : string)
  (k : hkey) (obj : pyval) (gt0 gt : list (hkey * pyval)) :
  LoadGroundTruth.load_lines (before ++ line :: after) gt0 = Ok gt ->
  line_entry line = Ok (k, obj) ->
  Forall (fun l => forall kv, line_entry l = Ok kv -> fst kv <> k) after ->
  alist_get hkey_eq_dec k gt = Some obj.
Proof.
  revert gt0. induction before as [|l before IH]; intros gt0 Hload Hline Hafter.
  - simpl app in Hload. rewrite load_lines_cons, Hline in Hload. simpl in Hload.
    rewrite (load_lines_other_keys k after Hafter _ _ Hload).
    apply alist_get_set_same.
  - simpl app in Hload. rewrite load_lines_cons in Hload.
    destruct (line_entry l) as [kv|]; simpl in Hload; [|discriminate].
    exact (IH _ Hload Hline Hafter).
Qed.

End LoadGroundTruthFacts.

(** [load_ground_truth] keeps apart two questions that differ by a
    trailing blank; the map of the evaluation has one entry for them. *)
Example load_ground_truth_keys_as_written :
  (gt <- LoadGroundTruth.load_ground_truth (W := Example.acme)
           "/bench/data/ground_truth/acme_benchmark_b_semantic.jsonl" ;;
   Ok (map fst gt))%res
  = Ok [ HStr "What is the revenue?"; HStr "Who is the CEO?"; HStr "How many sites?";
         HStr "What is the revenue? " ]
  /\ map fst Example.acme_gt_map
     = [ "What is the revenue?"; "Who is the CEO?"; "How many sites?" ].
Proof. split; vm_compute; reflexivity. Qed.

(** ** The score of a row *)

Section ExtractProperties.
Context {W : World}.

(** [extract_question_score] on a row whose [scores] is a dict: the
    float of [question_score] if the key is there, else the float of
    [correctness_score], else [0.0]. *)
Lemma extract_question_score_dict (entry scores : dict) :
  dict_get_default "scores" (PDict []) entry = PDict scores ->
  CalcScores.extract_question_score (PDict entry)
  = match dict_get "question_score" scores with
    | Some v => py_float float_of_str py_repr v
    | None =>
        match dict_get "correctness_score" scores with
        | Some v => py_float float_of_str py_repr v
        | None => Ok 0%float
        end
    end.
Proof.
  intros Hs. unfold CalcScores.extract_question_score. simpl. rewrite Hs. simpl.
  unfold dict_has.
  destruct (dict_get "question_score" scores) as [v|]; simpl; [reflexivity|].
  destruct (dict_get "correctness_score" scores) as [v|]; reflexivity.
Qed.

(** C10: [extract_question_score] returns a float for every row whose
    [scores] dict maps [question_score], when it has the key, and
    otherwise [correctness_score], when it has that key, to a value that
    [float] accepts; the records of the scorer and the fallback rows of
    the loops are such rows.  On a row whose [question_score] is a value
    that [float] refuses, it raises what [float] raises, and so does
    [aggregate] on a file with such a row. *)
Theorem extract_question_score_total_on_coercible :
  (forall entry scores : dict,
      dict_get_default "scores" (PDict []) entry = PDict scores ->
      (forall v, dict_get "question_score" scores = Some v ->
                 is_ok (py_float float_of_str py_repr v) = true) ->
      (dict_get "question_score" scores = None ->
       forall v, dict_get "correctness_score" scores = Some v ->
                 is_ok (py_float float_of_str py_repr v) = true) ->
      exists f, CalcScores.extract_question_score (PDict entry) = Ok f)
  /\ (forall question_text model_answer metadata judge_result record,
         ScoreAnswer.normalise judge_result = Ok record ->
         exists f,
           CalcScores.extract_question_score
             (Pipeline.make_row question_text model_answer record metadata) = Ok f)
  /\ (forall question_text model_answer metadata e,
         CalcScores.extract_question_score
           (Pipeline.make_row question_text model_answer (Pipeline.error_scores e)
              metadata) = Ok 0%float)
  /\ (forall (entry scores : dict) v e,
         dict_get_default "scores" (PDict []) entry = PDict scores ->
         dict_get "question_score" scores = Some v ->
         py_float float_of_str py_repr v = Err e ->
         CalcScores.extract_question_score (PDict entry) = Err e)
  /\ CalcScores.aggregate (W := Example.reports) ["/results/hand_benchmark_a_m.jsonl"]
     = Err (Raise ValueError "could not convert string to float: 'n/a'").
Proof.
  split; [|split; [|split; [|split]]]; [| | | |vm_compute; reflexivity].
  - intros entry scores Hs Hq Hc.
    rewrite (extract_question_score_dict _ _ Hs).
    destruct (dict_get "question_score" scores) as [v|].
    + specialize (Hq v eq_refl).
      destruct (py_float float_of_str py_repr v); [now eexists | discriminate].
    + destruct (dict_get "correctness_score" scores) as [v|]; [|now eexists].
      specialize (Hc eq_refl v eq_refl).
      destruct (py_float float_of_str py_repr v); [now eexists | discriminate].
  - intros question_text model_answer metadata judge_result record Hn.
    destruct (built_row_numeric question_text model_answer record metadata _ Hn)
      as [(_ & _ & _ & f & Hf & _) _].
    now exists f.
  - reflexivity.
  - intros entry scores v e Hs Hq Hv.
    rewrite (extract_question_score_dict _ _ Hs), Hq. exact Hv.
Qed.

End ExtractProperties.

Lemma extract_question_score_total_on_coercible_witness :
  (exists f,
      CalcScores.extract_question_score (W := Example.acme)
        (PDict [("question", PStr "q");
                ("scores", PDict [("question_score", PStr "0.5")])]) = Ok f)
  /\ (exists f,
         CalcScores.extract_question_score (W := Example.acme)
           (Pipeline.make_row "q" PNone
              (PDict
                 [ ("correctness_score", PFloat 1);
                   ("correctness_justification", PStr "");
                   ("rationale_score", PFloat 1);
                   ("rationale_justification", PStr "");
                   ("is_correct", PBool true);
                   ("has_value", PBool false);
                   ("error_type", PNone);
                   ("judge_reasoning", PStr "");
                   ("question_score", PFloat 1) ])
              (PDict [])) = Ok f)
  /\ CalcScores.extract_question_score (W := Example.acme)
       (PDict [("scores", PDict [("question_score", PStr "n/a");
                                 ("correctness_score", PFloat 1)])])
     = Err (Raise ValueError "could not convert string to float: 'n/a'").
Proof.
  destruct (extract_question_score_total_on_coercible (W := Example.acme))
    as (Htotal & Hbuilt & _ & Hraise & _).
  split; [|split].
  - apply (Htotal [("question", PStr "q");
                   ("scores", PDict [("question_score", PStr "0.5")])]
             [("question_score", PStr "0.5")] eq_refl).
    + intros v [= <-]. reflexivity.
    + discriminate.
  - apply (Hbuilt "q" PNone (PDict []) (PDict [("is_correct", PBool true)])).
    reflexivity.
  - apply (Hraise [("scores", PDict [("question_score", PStr "n/a");
                                     ("correctness_score", PFloat 1)])]
             [("question_score", PStr "n/a"); ("correctness_score", PFloat 1)]
             (PStr "n/a")); reflexivity.
Defined.

(** ** Grouping with insertion-ordered dictionaries *)

Section BucketFacts.
Context {K V : Type}.
Variable eq_dec : forall a b : K, {a = b} + {a <> b}.

Lemma bucket_snoc (k k' : K) (v : V) (l : list (K * V)) :
  bucket eq_dec k (l ++ [(k', v)])
  = bucket eq_dec k l ++ (if eq_dec k' k then [v] else []).
Proof.
  unfold bucket. rewrite filter_app, map_app. simpl. unfold has_key at 2. simpl.
  destruct (eq_dec k' k); reflexivity.
Qed.

Lemma keys_of_snoc (k : K) (v : V) (l : list (K * V)) :
  keys_of eq_dec (l ++ [(k, v)]) = add_first eq_dec (keys_of eq_dec l) k.
Proof. unfold keys_of. rewrite map_app, fold_left_app. reflexivity. Qed.

Lemma add_first_in (acc : list K) (k x : K) :
  In x (add_first eq_dec acc k) <-> In x acc \/ x = k.
Proof.
  unfold add_first. destruct (in_dec eq_dec k acc) as [Hin|Hout].
  - split; [auto | intros [H | ->]; assumption].
  - rewrite in_app_iff. simpl. intuition.
Qed.

Lemma add_first_nodup (acc : list K) (k : K) :
  NoDup acc -> NoDup (add_first eq_dec acc k).
Proof.
  intros Hnd. unfold add_first. destruct (in_dec eq_dec k acc) as [Hin|Hout].
  - exact Hnd.
  - apply NoDup_app; [exact Hnd | repeat constructor; intros [] | ].
    intros x Hx [<- | []]. contradiction.
Qed.

Lemma keys_of_in (l : list (K * V)) (k : K) :
  In k (keys_of eq_dec l) <-> In k (map fst l).
Proof.
  induction l as [|[k' v] l IH] using rev_ind.
  - reflexivity.
  - rewrite keys_of_snoc, add_first_in, map_app, in_app_iff, IH. simpl.
    intuition.
Qed.

Lemma keys_of_nodup (l : list (K * V)) : NoDup (keys_of eq_dec l).
Proof.
  induction l as [|[k' v] l IH] using rev_ind.
  - constructor.
  - rewrite keys_of_snoc. now apply add_first_nodup.
Qed.

Lemma bucket_absent (k : K) (l : list (K * V)) :
  ~ In k (keys_of eq_dec l) -> bucket eq_dec k l = [].
Proof.
  rewrite keys_of_in. unfold bucket.
  induction l as [|[k' v] l IH]; simpl; intros Hout; [reflexivity|].
  unfold has_key at 1. simpl. destruct (eq_dec k' k) as [->|Hne].
  - destruct Hout. now left.
  - apply IH. intros Hin. apply Hout. now right.
Qed.

Lemma bucket_present (k : K) (l : list (K * V)) :
  In k (keys_of eq_dec l) -> bucket eq_dec k l <> [].
Proof.
  rewrite keys_of_in. unfold bucket.
  induction l as [|[k' v] l IH]; simpl; [intros []|].
  unfold has_key at 1. simpl. destruct (eq_dec k' k) as [->|Hne].
  - discriminate.
  - intros [Heq|Hin]; [contradiction | now apply IH].
Qed.

End BucketFacts.

Section AlterFacts.
Context {K A : Type}.
Variable eq_dec : forall a b : K, {a = b} + {a <> b}.

Lemma alist_alter_absent (f : A -> A) (default : A) (k : K) (l : list (K * A)) :
  ~ In k (map fst l) ->
  alist_alter eq_dec f default k l = l ++ [(k, f default)].
Proof.
  induction l as [|[k' a] l IH]; simpl; intros Hout; [reflexivity|].
  destruct (eq_dec k k') as [->|Hne].
  - destruct Hout. now left.
  - rewrite IH; [reflexivity|]. intros Hin. apply Hout. now right.
Qed.

Lemma tabulate_keys (F : K -> A) (ks : list K) : map fst (tabulate F ks) = ks.
Proof. unfold tabulate. rewrite map_map. simpl. apply map_id. Qed.

Lemma tabulate_ext (F G : K -> A) (ks : list K) :
  (forall k, In k ks -> F k = G k) -> tabulate F ks = tabulate G ks.
Proof.
  intros Hext. unfold tabulate. apply map_ext_in.
  intros k Hk. now rewrite Hext.
Qed.

Lemma tabulate_app (F : K -> A) (ks ks' : list K) :
  tabulate F (ks ++ ks') = tabulate F ks ++ tabulate F ks'.
Proof. apply map_app. Qed.

(** Altering the value of a key that the table has changes it there. *)
Lemma alist_alter_tabulate (f : A -> A) (default : A) (k : K)
  (F : K -> A) (ks : list K) :
  NoDup ks -> In k ks ->
  alist_alter eq_dec f default k (tabulate F ks)
  = tabulate (fun k' => if eq_dec k' k then f (F k') else F k') ks.
Proof.
  induction 1 as [|k0 ks Hout Hnd IH]; intros Hin; [destruct Hin|].
  unfold tabulate. simpl. destruct (eq_dec k k0) as [->|Hne].
  - destruct (eq_dec k0 k0) as [_|Hne]; [|now destruct Hne].
    f_equal. apply map_ext_in. intros k' Hk'.
    destruct (eq_dec k' k0) as [->|_]; [contradiction | reflexivity].
  - destruct (eq_dec k0 k) as [Heq|_]; [now destruct Hne|].
    f_equal. apply IH. destruct Hin as [Heq|Hin]; [now destruct Hne | exact Hin].
Qed.

End AlterFacts.

(** Folding rows into a [defaultdict] gives, for each key in the order of
    first appearance, the fold of the rows of that key. *)
Lemma grouping_fold {K V A : Type} (eq_dec : forall a b : K, {a = b} + {a <> b})
  (step : A -> V -> A) (init : A) (l : list (K * V)) :
  fold_left (fun acc kv => alist_alter eq_dec (fun a => step a (snd kv)) init (fst kv) acc)
    l []
  = tabulate (fun k => fold_left step (bucket eq_dec k l) init) (keys_of eq_dec l).
Proof.
  induction l as [|[k v] l IH] using rev_ind; [reflexivity|].
  rewrite fold_left_app. simpl. rewrite IH, keys_of_snoc.
  unfold add_first. destruct (in_dec eq_dec k (keys_of eq_dec l)) as [Hin|Hout].
  - rewrite (alist_alter_tabulate eq_dec _ _ _ _ _ (keys_of_nodup eq_dec l) Hin).
    apply tabulate_ext. intros k' _. rewrite bucket_snoc.
    destruct (eq_dec k' k) as [->|Hne].
    + destruct (eq_dec k k) as [_|Hne]; [|now destruct Hne].
      now rewrite fold_left_app.
    + destruct (eq_dec k k') as [Heq|_]; [now destruct Hne|].
      now rewrite app_nil_r.
  - rewrite alist_alter_absent by (now rewrite tabulate_keys).
    rewrite tabulate_app. f_equal.
    + apply tabulate_ext. intros k' Hk'. rewrite bucket_snoc.
      destruct (eq_dec k k') as [->|_]; [contradiction|].
      now rewrite app_nil_r.
    + unfold tabulate. simpl. rewrite bucket_snoc.
      rewrite (bucket_absent eq_dec _ _ Hout).
      destruct (eq_dec k k) as [_|Hne]; [reflexivity | now destruct Hne].
Qed.

Lemma fold_left_snoc {V : Type} (vs acc : list V) :
  fold_left (fun a v => a ++ [v]) vs acc = acc ++ vs.
Proof.
  revert acc. induction vs as [|v vs IH]; intros acc; simpl.
  - now rewrite app_nil_r.
  - rewrite IH, <- app_assoc. reflexivity.
Qed.

(** ** The aggregator *)

Lemma keys_of_nonempty {K V : Type} (eq_dec : forall a b : K, {a = b} + {a <> b})
  (l : list (K * V)) :
  l <> [] -> keys_of eq_dec l <> [].
Proof.
  destruct l as [|[k v] l]; [congruence|]. intros _ Hnil.
  assert (Hin : In k (keys_of eq_dec ((k, v) :: l)))
    by (apply keys_of_in; now left).
  rewrite Hnil in Hin. destruct Hin.
Qed.

(** The nested [defaultdict] after the rows: group by group and, within
    a group, category by category, in the order of first appearance. *)
Lemma grouped_rows (infos : list info) :
  fold_left (fun acc (i : info) =>
               CalcScores.add_score (fst i) (fst (snd i)) (snd (snd i)) acc) infos []
  = tabulate (fun g => tabulate (fun c => scores_in g c infos) (categories_in g infos))
      (keys_of CalcScores.gkey_eq_dec infos).
Proof.
  unfold CalcScores.add_score. etransitivity.
  - exact (grouping_fold CalcScores.gkey_eq_dec
             (fun (cm : CalcScores.category_map) (cx : hkey * float) =>
                alist_alter hkey_eq_dec (fun values => values ++ [snd cx]) []
                  (fst cx) cm)
             [] infos).
  - apply tabulate_ext. intros g _. etransitivity.
    + exact (grouping_fold hkey_eq_dec (fun (a : list float) v => a ++ [v]) []
               (bucket CalcScores.gkey_eq_dec g infos)).
    + apply tabulate_ext. intros c _. apply fold_left_snoc.
Qed.

Section AggregateFacts.
Context {W : World}.

Lemma collect_infos (data : list (string * pyval)) (grouped : CalcScores.grouped_map) :
  CalcScores.collect data grouped
  = (infos <- infos_of data ;;
     Ok (fold_left (fun acc (i : info) =>
                      CalcScores.add_score (fst i) (fst (snd i)) (snd (snd i)) acc)
           infos grouped))%res.
Proof.
  revert grouped. induction data as [|[path entry] data IH]; intros grouped; simpl.
  - reflexivity.
  - destruct (CalcScores.entry_keys entry) as [[g [c x]]|e]; simpl; [|reflexivity].
    rewrite IH. destruct (infos_of data); reflexivity.
Qed.

(** The score of each row is what [extract_question_score] returns. *)
Lemma infos_of_scores (data : list (string * pyval)) (infos : list info) :
  infos_of data = Ok infos ->
  Forall2 (fun pe i => CalcScores.extract_question_score (snd pe) = Ok (snd (snd i)))
    data infos.
Proof.
  revert infos. induction data as [|[path entry] data IH]; simpl; intros infos.
  - intros [= <-]. constructor.
  - destruct (CalcScores.entry_keys entry) as [i|] eqn:Ei; simpl; [|discriminate].
    destruct (infos_of data) as [more|]; simpl; [|discriminate].
    intros [= <-]. constructor; [|now apply IH].
    simpl. unfold CalcScores.entry_keys, Py.bind in Ei.
    repeat match type of Ei with
           | match ?x with _ => _ end = _ => destruct x eqn:?; try discriminate
           end.
    injection Ei as <-. reflexivity.
Qed.

End AggregateFacts.

Lemma category_pass_tabulate {W : World} (S : hkey -> list float)
  (cats : list hkey) :
  NoDup cats ->
  (forall c, In c cats -> S c <> []) ->
  forall (category_scores : list (hkey * float)) (all_scores : list float),
  (forall c, In c cats -> ~ In c (map fst category_scores)) ->
  CalcScores.category_pass (tabulate S cats) category_scores all_scores
  = (category_scores ++ tabulate (fun c => CalcScores.mean (S c)) cats,
     all_scores ++ flat_map S cats).
Proof.
  induction 1 as [|c cats Hout Hnd IH]; intros Hne cs all Hfresh; simpl.
  - now rewrite !app_nil_r.
  - destruct (S c) as [|v vs] eqn:Es.
    { destruct (Hne c (or_introl eq_refl) Es). }
    unfold alist_set.
    rewrite alist_alter_absent by (apply Hfresh; now left).
    rewrite IH.
    + rewrite <- !app_assoc. reflexivity.
    + intros c' Hc'. apply Hne. now right.
    + intros c' Hc'. rewrite map_app, in_app_iff. simpl.
      intros [Hin|[<-|[]]]; [|contradiction].
      apply (Hfresh c'); [now right | exact Hin].
Qed.

Lemma group_pass_tabulate {W : World}
  (CM : CalcScores.gkey -> CalcScores.category_map) (gs : list CalcScores.gkey) :
  NoDup gs ->
  forall acc : CalcScores.totals,
  (forall g, In g gs -> ~ In g (map fst (CalcScores.model_summaries acc))) ->
  CalcScores.model_summaries (CalcScores.group_pass (tabulate CM gs) acc)
  = CalcScores.model_summaries acc ++ tabulate (fun g => summarise (CM g)) gs.
Proof.
  induction 1 as [|g gs Hout Hnd IH]; intros acc Hfresh.
  - simpl. now rewrite app_nil_r.
  - destruct g as [[model doc] benchmark] eqn:Eg.
    unfold tabulate at 1. simpl map. cbn [CalcScores.group_pass].
    destruct (CalcScores.category_pass (CM (model, doc, benchmark)) [] [])
      as [category_scores all_scores] eqn:Ecp.
    fold (tabulate CM gs). rewrite IH; cbn [CalcScores.model_summaries].
    + unfold alist_set.
      rewrite alist_alter_absent by (apply Hfresh; now left).
      rewrite <- app_assoc. simpl. unfold summarise. now rewrite Ecp.
    + intros g' Hg'. unfold alist_set.
      rewrite alist_alter_absent by (apply Hfresh; now left).
      rewrite map_app, in_app_iff. simpl.
      intros [Hin|[<-|[]]]; [|contradiction].
      apply (Hfresh g'); [now right | exact Hin].
Qed.

Lemma group_scores_nonempty (g : CalcScores.gkey) (infos : list info) :
  In g (keys_of CalcScores.gkey_eq_dec infos) -> group_scores g infos <> [].
Proof.
  intros Hg. unfold group_scores.
  assert (Hrows := bucket_present CalcScores.gkey_eq_dec g infos Hg).
  assert (Hcats := keys_of_nonempty hkey_eq_dec _ Hrows).
  fold (categories_in g infos) in Hcats.
  destruct (categories_in g infos) as [|c cats] eqn:Ec; [congruence|].
  simpl. intros Hnil. apply app_eq_nil in Hnil as [Hnil _].
  apply (bucket_present hkey_eq_dec c (bucket CalcScores.gkey_eq_dec g infos));
    [|exact Hnil].
  unfold categories_in in Ec. rewrite Ec. now left.
Qed.

(** The summaries [aggregate] computes from the rows are those of the
    specification. *)
Lemma summaries_of_rows {W : World} (infos : list info) :
  CalcScores.model_summaries
    (CalcScores.group_pass
       (fold_left (fun acc (i : info) =>
                     CalcScores.add_score (fst i) (fst (snd i)) (snd (snd i)) acc)
          infos [])
       {| CalcScores.model_summaries := [];
          CalcScores.benchmark_totals := [];
          CalcScores.model_benchmark_totals := [] |})
  = summaries_spec infos.
Proof.
  rewrite grouped_rows.
  rewrite group_pass_tabulate;
    [|apply keys_of_nodup | intros g _ []].
  simpl. apply tabulate_ext. intros g Hg.
  unfold summarise, summary_spec.
  rewrite (category_pass_tabulate (fun c => scores_in g c infos) (categories_in g infos));
    [|apply keys_of_nodup
     |intros c Hc; now apply bucket_present
     |intros c _ []].
  simpl. fold (group_scores g infos).
  destruct (group_scores g infos) as [|x xs] eqn:Egs; [|reflexivity].
  destruct (group_scores_nonempty g infos Hg Egs).
Qed.

Lemma flat_map_ext_in {A B : Type} (f g : A -> list B) (l : list A) :
  (forall a, In a l -> f a = g a) -> flat_map f l = flat_map g l.
Proof.
  induction l as [|a l IH]; simpl; intros Hext; [reflexivity|].
  rewrite (Hext a (or_introl eq_refl)), IH; [reflexivity|].
  intros a' Ha'. apply Hext. now right.
Qed.

Section FlatScores.
Context {K V : Type}.
Variable eq_dec : forall a b : K, {a = b} + {a <> b}.

Lemma flat_map_one_more (S : K -> list V) (k : K) (v : V) (ks : list K) :
  NoDup ks -> In k ks ->
  Permutation (flat_map (fun k' => S k' ++ (if eq_dec k k' then [v] else [])) ks)
    (flat_map S ks ++ [v]).
Proof.
  induction 1 as [|k0 ks Hout Hnd IH]; intros Hin; [destruct Hin|]. simpl.
  destruct (eq_dec k k0) as [->|Hne].
  - rewrite (flat_map_ext_in _ S).
    + rewrite <- !app_assoc. apply Permutation_app_head. apply Permutation_app_comm.
    + intros k' Hk'. destruct (eq_dec k0 k') as [->|_]; [contradiction|].
      apply app_nil_r.
  - rewrite app_nil_r, <- app_assoc. apply Permutation_app_head.
    apply IH. destruct Hin as [Heq|Hin]; [now destruct Hne | exact Hin].
Qed.

(** The buckets of all keys, one after the other, hold every value once. *)
Lemma flat_buckets_permutation (l : list (K * V)) :
  Permutation (flat_map (fun k => bucket eq_dec k l) (keys_of eq_dec l)) (map snd l).
Proof.
  induction l as [|[k v] l IH] using rev_ind; [constructor|].
  rewrite keys_of_snoc, map_app. simpl.
  rewrite (flat_map_ext _ (fun k' => bucket eq_dec k' l
                                      ++ (if eq_dec k k' then [v] else [])))
    by (intros k'; apply bucket_snoc).
  unfold add_first. destruct (in_dec eq_dec k (keys_of eq_dec l)) as [Hin|Hout].
  - rewrite (flat_map_one_more _ _ _ _ (keys_of_nodup eq_dec l) Hin).
    now apply Permutation_app_tail.
  - rewrite flat_map_app. simpl.
    rewrite (bucket_absent eq_dec _ _ Hout). simpl.
    destruct (eq_dec k k) as [_|Hne]; [|now destruct Hne].
    apply Permutation_app_tail.
    rewrite (flat_map_ext_in _ (fun k' => bucket eq_dec k' l)); [exact IH|].
    intros k' Hk'. destruct (eq_dec k k') as [->|_]; [contradiction|].
    apply app_nil_r.
Qed.

End FlatScores.

(** C3: the summaries of [aggregate] are, group by group, the mean of
    the row scores of each category and the mean of all the row scores of
    the group; a row's score is the float of its [question_score] when
    the key is present, else of its [correctness_score], else [0.0]; the
    scores that the group mean is taken over are all the scores of the
    rows of the group, each once.  Two rows of one group and one category
    scored [1.0] and [0.0] give the category mean [0.5] and the group
    score [0.5]; the group score [0.75] of the second file is not the
    mean [0.5] of its category means. *)
Theorem aggregate_means {W : World} (paths : list string) :
  (r <- CalcScores.aggregate paths ;; Ok (CalcScores.summaries r))%res
  = (data <- CalcScores.load_results paths ;;
     infos <- infos_of data ;;
     Ok (summaries_spec infos))%res
  /\ (forall data infos,
         infos_of data = Ok infos ->
         Forall2 (fun pe i =>
                    CalcScores.extract_question_score (snd pe) = Ok (snd (snd i)))
           data infos)
  /\ (forall entry scores : dict,
         dict_get_default "scores" (PDict []) entry = PDict scores ->
         CalcScores.extract_question_score (PDict entry)
         = match dict_get "question_score" scores with
           | Some v => py_float float_of_str py_repr v
           | None =>
               match dict_get "correctness_score" scores with
               | Some v => py_float float_of_str py_repr v
               | None => Ok 0%float
               end
           end)
  /\ (forall infos g,
         Permutation (group_scores g infos)
           (map snd (bucket CalcScores.gkey_eq_dec g infos)))
  /\ (r <- CalcScores.aggregate (W := Example.reports)
             ["/results/acme_benchmark_a_openai-gpt5.jsonl"] ;;
      Ok (CalcScores.summaries r))%res
     = Ok [ ((HStr "openai-gpt5", HStr "acme", HStr "A"),
             {| CalcScores.categories := [(HStr "Finance", 0.5%float)];
                CalcScores.functional_score := 0.5%float |}) ]
  /\ (r <- CalcScores.aggregate (W := Example.reports)
             ["/results/acme_benchmark_b_openai-gpt5.jsonl"] ;;
      Ok (map (fun gs => (CalcScores.functional_score (snd gs),
                          mean_of_category_means (W := Example.reports) (snd gs)))
            (CalcScores.summaries r)))%res
     = Ok [ (0.75%float, 0.5%float) ].
Proof.
  split; [|split; [|split; [|split; [|split]]]].
  - unfold CalcScores.aggregate.
    destruct (CalcScores.load_results paths) as [data|e]; simpl; [|reflexivity].
    rewrite collect_infos.
    destruct (infos_of data) as [infos|e]; simpl; [|reflexivity].
    now rewrite summaries_of_rows.
  - intros data infos. apply infos_of_scores.
  - intros entry scores. apply extract_question_score_dict.
  - intros infos g. apply flat_buckets_permutation.
  - vm_compute. reflexivity.
  - vm_compute. reflexivity.
Qed.

Lemma aggregate_means_witness :
  CalcScores.extract_question_score (W := Example.reports)
    (PDict [("scores", PDict [("correctness_score", PFloat 0);
                              ("rationale_score", PFloat 0)])])
  = Ok 0%float
  /\ Forall2 (fun pe i =>
                CalcScores.extract_question_score (W := Example.reports) (snd pe)
                = Ok (snd (snd i)))
       [("f", PDict [("scores", PDict [("question_score", PInt 1)])])]
       [((HStr "unknown_model", HStr "unknown_document", HStr "unknown_benchmark"),
         (HStr "Uncategorized", 1%float))].
Proof.
  destruct (aggregate_means (W := Example.reports) []) as (_ & Hrows & Hscore & _).
  split.
  - exact (Hscore [("scores", PDict [("correctness_score", PFloat 0);
                                     ("rationale_score", PFloat 0)])]
             [("correctness_score", PFloat 0); ("rationale_score", PFloat 0)]
             eq_refl).
  - apply Hrows. reflexivity.
Defined.

(** ** Loading result files *)

Lemma attach_model_loaded (benchmark_from_file : pyval) (model_name : string)
  (entry : pyval) :
  result_entry_ok entry = true ->
  exists row,
    CalcScores.attach_model benchmark_from_file model_name entry = Ok row
    /\ metadata_field "extractor_model" row = Some (PStr model_name)
    /\ metadata_field "benchmark" row
       = Some match metadata_field "benchmark" entry with
              | Some own => own
              | None => benchmark_from_file
              end
    /\ field "scores" row = field "scores" entry.
Proof.
  intros Hok. destruct entry as [| | | | | |d]; try discriminate.
  simpl in Hok.
  assert (Hmeta : exists meta,
             dict_get_default "metadata" (PDict []) d = PDict meta
             /\ metadata_field "benchmark" (PDict d) = dict_get "benchmark" meta).
  { unfold dict_get_default, metadata_field. simpl.
    destruct (dict_get "metadata" d) as [[| | | | | |meta]|]; try discriminate.
    - now exists meta.
    - now exists []. }
  destruct Hmeta as (meta & Hdef & Hown).
  unfold CalcScores.attach_model. rewrite Hdef, Hown.
  eexists. split; [reflexivity|].
  unfold metadata_field, field. rewrite dict_get_set_same.
  split; [apply dict_get_set_same|]. split.
  - rewrite dict_get_set_other by discriminate.
    unfold dict_setdefault, dict_has.
    destruct (dict_get "benchmark" meta) as [own|] eqn:Eb.
    + exact Eb.
    + apply dict_get_set_same.
  - apply dict_get_set_other. discriminate.
Qed.

Lemma attach_all_loaded (benchmark_from_file : pyval) (model_name path : string)
  (entries : list pyval) :
  Forall (fun entry => result_entry_ok entry = true) entries ->
  exists rows,
    CalcScores.attach_all benchmark_from_file model_name path entries
    = Ok (map (pair path) rows)
    /\ Forall2 (fun entry row =>
                  CalcScores.attach_model benchmark_from_file model_name entry
                  = Ok row) entries rows.
Proof.
  induction 1 as [|entry rest Hok _ (rows & Hrows & Hall)]; simpl.
  - exists []. split; [reflexivity | constructor].
  - destruct (attach_model_loaded benchmark_from_file model_name entry Hok)
      as (row & Hrow & _).
    rewrite Hrow, Hrows. simpl. exists (row :: rows).
    split; [reflexivity | now constructor].
Qed.

(** C5 (as amended): loading a result file always takes the extractor
    model from the file name, by the pattern
    [benchmark_<a|b>_<modelname>.jsonl] read without regard to case, and
    overwrites the model the row's metadata may name; the benchmark letter
    of the file name is used only for a row whose metadata has no
    [benchmark] key.  A file name the pattern does not match gives the
    model ["unknown_model"] and the load does not fail.  The file name
    [reportX_benchmark_a_openai-gpt5.jsonl] gives benchmark ["A"] and
    model ["openai-gpt5"]. *)
Theorem load_results_takes_model_from_file_name {W : World}
  (path : string) (entries : list pyval) :
  result_file_ok path entries ->
  (exists rows,
      Forall2 (loaded_from path) entries rows
      /\ forall others,
           CalcScores.load_results (path :: others)
           = (more <- CalcScores.load_results others ;;
              Ok (map (pair path) rows ++ more))%res)
  /\ (CalcScores.search_pattern (Utils.basename path) = None ->
      snd (CalcScores.file_benchmark_and_model (Utils.basename path)) = "unknown_model")
  /\ CalcScores.file_benchmark_and_model "reportX_benchmark_a_openai-gpt5.jsonl"
     = (PStr "A", "openai-gpt5").
Proof.
  intros (Hexists & Hload & Hok). split; [|split].
  - destruct (CalcScores.file_benchmark_and_model (Utils.basename path))
      as [benchmark_from_file model_name] eqn:Efile.
    destruct (attach_all_loaded benchmark_from_file model_name path entries Hok)
      as (rows & Hrows & Hall).
    exists rows. split.
    + clear Hrows Hload. revert Hok.
      induction Hall as [|entry row rest rows Hrow _ IH]; intros Hok; constructor.
      * inversion Hok as [|? ? Hentry _]; subst.
        destruct (attach_model_loaded benchmark_from_file model_name entry Hentry)
          as (row' & Hrow' & Hmodel & Hbenchmark & Hscores).
        rewrite Hrow in Hrow'. injection Hrow' as <-.
        unfold loaded_from. rewrite Efile. simpl. auto.
      * apply IH. now inversion Hok.
    + intros others. cbn [CalcScores.load_results].
      rewrite Hexists, Hload, Efile. simpl. rewrite Hrows. reflexivity.
  - unfold CalcScores.file_benchmark_and_model. now intros ->.
  - reflexivity.
Qed.

Lemma report_file_ok :
  result_file_ok (W := Example.reports) "/results/notes.jsonl"
    [ PDict [("question", PStr "q3");
             ("scores", PDict [("question_score", PFloat 0.25)]);
             ("metadata", PDict [("document", PStr "acme");
                                 ("extractor_model", PStr "openai/gpt-5.1")])] ].
Proof. repeat split. repeat constructor. Defined.

Lemma load_results_takes_model_from_file_name_witness :
  (exists rows,
      Forall2 (loaded_from "/results/notes.jsonl")
        [ PDict [("question", PStr "q3");
                 ("scores", PDict [("question_score", PFloat 0.25)]);
                 ("metadata", PDict [("document", PStr "acme");
                                     ("extractor_model", PStr "openai/gpt-5.1")])] ]
        rows
      /\ forall others,
           CalcScores.load_results (W := Example.reports)
             ("/results/notes.jsonl" :: others)
           = (more <- CalcScores.load_results (W := Example.reports) others ;;
              Ok (map (pair "/results/notes.jsonl") rows ++ more))%res)
  /\ snd (CalcScores.file_benchmark_and_model (Utils.basename "/results/notes.jsonl"))
     = "unknown_model".
Proof.
  destruct (load_results_takes_model_from_file_name (W := Example.reports)
              "/results/notes.jsonl" _ report_file_ok) as (Hrows & Hunknown & _).
  split; [exact Hrows | exact (Hunknown eq_refl)].
Defined.

(** The claim as stated keeps a model that the row names: the first row
    of the file names [anthropic/claude-4.5-opus] and is loaded as a row
    of [openai-gpt5]. *)
Lemma named_model_overwritten_counterexample :
  exists entry rest row more,
    Utils.load_jsonl (W := Example.reports)
      "/results/acme_benchmark_a_openai-gpt5.jsonl" = Ok (entry :: rest)
    /\ metadata_field "extractor_model" entry
       = Some (PStr "anthropic/claude-4.5-opus")
    /\ CalcScores.load_results (W := Example.reports)
         ["/results/acme_benchmark_a_openai-gpt5.jsonl"]
       = Ok (("/results/acme_benchmark_a_openai-gpt5.jsonl", row) :: more)
    /\ field "question" row = field "question" entry
    /\ metadata_field "extractor_model" row = Some (PStr "openai-gpt5").
Proof.
  eexists. eexists. eexists. eexists.
  split; [vm_compute; reflexivity|].
  split; [reflexivity|].
  split; [vm_compute; reflexivity|].
  split; reflexivity.
Qed.

(** A file name the pattern does not match leaves the rows without a
    benchmark: they are grouped under [None]. *)
Example unmatched_file_name_groups_under_none :
  (r <- CalcScores.aggregate (W := Example.reports) ["/results/notes.jsonl"] ;;
   Ok (map fst (CalcScores.summaries r)))%res
  = Ok [ (HStr "unknown_model", HStr "acme", HNone) ].
Proof. vm_compute. reflexivity. Qed.

(** * Further properties of the code *)

(** ** The name of a result file, written and read back *)

Lemma replace_slash_cons (c : ascii) (s : string) :
  replace "/" "_" (String c s)
  = String (if Ascii.eqb c "/" then "_"%char else c) (replace "/" "_" s).
Proof.
  unfold replace. cbn [replace_from String.prefix String.length Nat.sub].
  destruct (ascii_dec "/" c) as [<-|Hne].
  - destruct s; reflexivity.
  - destruct (Ascii.eqb c "/") eqn:Ec; [|reflexivity].
    apply Ascii.eqb_eq in Ec. now subst c.
Qed.

Lemma safe_model_name_chars {W : World} (x : ascii) (model : string) :
  x <> "_"%char ->
  char_in x model = false \/ x = "/"%char ->
  char_in x (Outputs.safe_model_name model) = false.
Proof.
  intros Hx. unfold Outputs.safe_model_name.
  induction model as [|c model IH]; intros Hin; [reflexivity|].
  rewrite replace_slash_cons. cbn [char_in].
  assert (Htail : char_in x (replace "/" "_" model) = false).
  { apply IH. destruct Hin as [Hin|Hin]; [|now right].
    left. cbn [char_in] in Hin. now apply orb_false_iff in Hin. }
  rewrite Htail, orb_false_r.
  destruct (Ascii.eqb c "/") eqn:Ec.
  - apply Ascii.eqb_neq. exact Hx.
  - destruct Hin as [Hin | ->].
    + cbn [char_in] in Hin. now apply orb_false_iff in Hin.
    + rewrite Ascii.eqb_sym. exact Ec.
Qed.

Lemma safe_model_name_nonempty {W : World} (model : string) :
  model <> EmptyString -> Outputs.safe_model_name model <> EmptyString.
Proof.
  destruct model as [|c model]; [congruence|]. intros _.
  unfold Outputs.safe_model_name. rewrite replace_slash_cons. discriminate.
Qed.

Lemma ends_with_slash_results (a : string) :
  Utils.ends_with_slash (a +++ "results") = false.
Proof.
  induction a as [|c a IH]; [reflexivity|].
  cbn [String.append Utils.ends_with_slash].
  destruct (a +++ "results") eqn:Ea; [|exact IH].
  destruct a; discriminate.
Qed.

Lemma results_dir_shape {W : World} :
  exists a, Outputs.RESULTS_DIR = a +++ "results".
Proof.
  unfold Outputs.RESULTS_DIR, Utils.path_join.
  change (startswith "results" "/") with false. cbv iota.
  destruct (str_empty BASE_DIR || Utils.ends_with_slash BASE_DIR).
  - now exists BASE_DIR.
  - exists (BASE_DIR +++ "/"). now rewrite append_assoc.
Qed.

Lemma basename_join (dir name : string) :
  char_in "/" name = false ->
  Utils.basename (dir +++ "/" +++ name) = name.
Proof.
  intros Hname. unfold Utils.basename.
  change ("/" +++ name) with (String "/" name).
  rewrite (rindex_of_last _ _ _ Hname). unfold slice.
  replace (dir +++ String "/" name) with ((dir +++ "/") +++ name)
    by (rewrite append_assoc; reflexivity).
  replace (String.length dir + 1) with (String.length (dir +++ "/"))
    by (rewrite length_append; reflexivity).
  rewrite substring_skip, length_append.
  replace (String.length (dir +++ "/") + String.length name
           - String.length (dir +++ "/")) with (String.length name) by lia.
  rewrite <- (append_nil_r name) at 2. apply substring_take.
Qed.

Lemma basename_out_path {W : World} (name : string) :
  char_in "/" name = false ->
  Utils.basename (Utils.path_join Outputs.RESULTS_DIR name) = name.
Proof.
  intros Hname. destruct results_dir_shape as [a Ha]. rewrite Ha.
  unfold Utils.path_join.
  assert (Hstart : startswith name "/" = false).
  { destruct name as [|c name]; [reflexivity|].
    cbn [char_in] in Hname. apply orb_false_iff in Hname as [Hc _].
    unfold startswith. cbn [String.prefix].
    destruct (ascii_dec "/" c) as [<-|_]; [|reflexivity].
    now rewrite Ascii.eqb_refl in Hc. }
  rewrite Hstart, ends_with_slash_results.
  replace (str_empty (a +++ "results")) with false by (now destruct a).
  now apply basename_join.
Qed.

(** What follows a literal is what follows its characters. *)
Lemma after_literal_length (p s rest : string) :
  CalcScores.after_literal p s = Some rest ->
  String.length s = String.length p + String.length rest.
Proof.
  revert s. induction p as [|a p IH]; intros s; simpl.
  - now intros [= ->].
  - destruct s as [|b s]; [discriminate|].
    destruct (Ascii.eqb _ _); [|discriminate].
    intros H. apply IH in H. simpl. lia.
Qed.

Lemma is_jsonl_tail_longer (m : string) :
  m <> EmptyString -> CalcScores.is_jsonl_tail (m +++ ".jsonl") = false.
Proof.
  intros Hm. unfold CalcScores.is_jsonl_tail.
  destruct (CalcScores.after_literal ".jsonl" (m +++ ".jsonl")) as [rest|] eqn:Er;
    [|reflexivity].
  assert (Hlen := after_literal_length _ _ _ Er).
  rewrite length_append in Hlen. simpl in Hlen.
  destruct m as [|x [|y m]]; [congruence| |].
  - simpl in Er.
    match type of Er with (if ?c then _ else _) = _ => destruct c end; discriminate.
  - destruct rest as [|r1 [|r2 rest]]; simpl in Hlen; try lia.
    unfold nl. simpl.
    repeat match goal with |- context [if ?c then _ else _] => destruct c end;
      reflexivity.
Qed.

Lemma lazy_group_model (model : string) :
  model <> EmptyString ->
  char_in "010" model = false ->
  CalcScores.lazy_group (model +++ ".jsonl") = Some model.
Proof.
  induction model as [|c model IH]; [congruence|]. intros _ Hnl.
  cbn [char_in] in Hnl. apply orb_false_iff in Hnl as [Hc Hnl].
  cbn [String.append CalcScores.lazy_group].
  rewrite Ascii.eqb_sym, Hc.
  destruct model as [|d model].
  - reflexivity.
  - rewrite is_jsonl_tail_longer by discriminate.
    now rewrite IH.
Qed.

(** A match of the pattern cannot start in a text that has not the
    literal at its head and is followed by [_benchmark_]. *)
Lemma no_match_across (doc tail : string) :
  CalcScores.after_literal "benchmark_" doc = None ->
  CalcScores.match_here (doc +++ "_benchmark_" +++ tail) = None.
Proof.
  intros H. unfold CalcScores.match_here.
  do 10 (destruct doc as [|? doc]; [reflexivity|];
         cbn [CalcScores.after_literal String.append] in H |- *;
         match type of H with
         | (if ?c then _ else _) = _ => destruct c
         end; [|reflexivity]).
  discriminate H.
Qed.

Lemma search_after_document (doc tail : string) :
  literal_inside "benchmark_" doc = false ->
  CalcScores.search_pattern (doc +++ "_benchmark_" +++ tail)
  = CalcScores.search_pattern ("benchmark_" +++ tail).
Proof.
  induction doc as [|c doc IH]; intros Hdoc.
  - change ("" +++ "_benchmark_" +++ tail) with (String "_" ("benchmark_" +++ tail)).
    cbn [CalcScores.search_pattern].
    assert (Hhere : CalcScores.match_here (String "_" ("benchmark_" +++ tail)) = None)
      by exact (no_match_across "" tail eq_refl).
    now rewrite Hhere.
  - cbn [literal_inside] in Hdoc.
    destruct (CalcScores.after_literal "benchmark_" (String c doc)) eqn:Ehead;
      [discriminate|].
    change (String c doc +++ "_benchmark_" +++ tail)
      with (String c (doc +++ "_benchmark_" +++ tail)).
    cbn [CalcScores.search_pattern].
    change (String c (doc +++ "_benchmark_" +++ tail))
      with (String c doc +++ "_benchmark_" +++ tail).
    rewrite (no_match_across _ tail Ehead). now apply IH.
Qed.

Lemma search_at_label (k : ascii) (model : string) :
  (Ascii.eqb (CalcScores.lower_char k) "a" || Ascii.eqb (CalcScores.lower_char k) "b") = true ->
  model <> EmptyString ->
  char_in "010" model = false ->
  CalcScores.search_pattern ("benchmark_" +++ String k ("_" +++ model +++ ".jsonl"))
  = Some (k, model).
Proof.
  intros Hk Hm Hnl.
  change ("benchmark_" +++ String k ("_" +++ model +++ ".jsonl"))
    with (String "b" ("enchmark_" +++ String k ("_" +++ model +++ ".jsonl"))).
  cbn [CalcScores.search_pattern].
  assert (Hhere : CalcScores.match_here
            (String "b" ("enchmark_" +++ String k ("_" +++ model +++ ".jsonl")))
          = Some (k, model)).
  { unfold CalcScores.match_here.
    change (CalcScores.after_literal "benchmark_"
              (String "b" ("enchmark_" +++ String k ("_" +++ model +++ ".jsonl"))))
      with (Some (String k (String "_" (model +++ ".jsonl")))).
    cbv iota. rewrite Hk. cbn [andb].
    change (Ascii.eqb "_" "_") with true. cbv iota.
    now rewrite (lazy_group_model model Hm Hnl). }
  now rewrite Hhere.
Qed.

Lemma read_back_name {W : World} (doc_name safe : string) (k : ascii) :
  k = "a"%char \/ k = "b"%char ->
  char_in "/" doc_name = false ->
  literal_inside "benchmark_" doc_name = false ->
  safe <> EmptyString ->
  char_in "010" safe = false ->
  char_in "/" safe = false ->
  CalcScores.file_benchmark_and_model
    (Utils.basename
       (Utils.path_join Outputs.RESULTS_DIR
          (doc_name +++ "_" +++ ("benchmark_" +++ String k "") +++ "_"
             +++ safe +++ ".jsonl")))
  = (PStr (String (upper_char k) ""), safe).
Proof.
  intros Hk Hslash Hdoc Hsafe_ne Hsafe_nl Hsafe_slash.
  assert (Hname : doc_name +++ "_" +++ ("benchmark_" +++ String k "") +++ "_"
                    +++ safe +++ ".jsonl"
                  = doc_name +++ "_benchmark_" +++ String k ("_" +++ safe +++ ".jsonl"))
    by reflexivity.
  rewrite Hname, basename_out_path.
  - unfold CalcScores.file_benchmark_and_model.
    rewrite (search_after_document _ _ Hdoc).
    rewrite (search_at_label k safe); [reflexivity | | exact Hsafe_ne | exact Hsafe_nl].
    destruct Hk as [-> | ->]; reflexivity.
  - rewrite char_in_append, Hslash.
    change ("_benchmark_" +++ String k ("_" +++ safe +++ ".jsonl"))
      with (("_benchmark_" +++ String k "_") +++ safe +++ ".jsonl").
    rewrite !char_in_append, Hsafe_slash.
    destruct Hk as [-> | ->]; reflexivity.
Qed.

(** X1: the result file that [evaluate_document] writes is read back by
    [load_results] with the benchmark of the run and the extractor model
    of the run, its slashes turned into underscores: for a document name
    without a slash and without the text [benchmark_] in any letter case,
    and a model name that is not empty and has no line feed. *)
Theorem result_file_name_read_back {W : World}
  (doc_name extractor_model benchmark_type : string) (track_info : Pipeline.track) :
  Pipeline.TRACK_CONFIG (upper benchmark_type) = Some track_info ->
  char_in "/" doc_name = false ->
  literal_inside "benchmark_" doc_name = false ->
  str_empty extractor_model = false ->
  char_in "010" extractor_model = false ->
  CalcScores.file_benchmark_and_model
    (Utils.basename (Outputs.out_path doc_name extractor_model track_info))
  = (PStr (upper benchmark_type), Outputs.safe_model_name extractor_model).
Proof.
  intros Htrack Hslash Hdoc Hmodel Hnl.
  assert (Hsafe_ne : Outputs.safe_model_name extractor_model <> EmptyString).
  { apply safe_model_name_nonempty. now destruct extractor_model. }
  assert (Hsafe_nl : char_in "010" (Outputs.safe_model_name extractor_model) = false).
  { apply safe_model_name_chars; [discriminate | now left]. }
  assert (Hsafe_slash : char_in "/" (Outputs.safe_model_name extractor_model) = false).
  { apply safe_model_name_chars; [discriminate | now right]. }
  unfold Pipeline.TRACK_CONFIG in Htrack. unfold Outputs.out_path.
  destruct (String.eqb (upper benchmark_type) "A") eqn:Ea.
  - apply String.eqb_eq in Ea. injection Htrack as <-. rewrite Ea.
    apply (read_back_name doc_name _ "a"); auto.
  - destruct (String.eqb (upper benchmark_type) "B") eqn:Eb; [|discriminate].
    apply String.eqb_eq in Eb. injection Htrack as <-. rewrite Eb.
    apply (read_back_name doc_name _ "b"); auto.
Qed.

Lemma result_file_name_read_back_witness :
  CalcScores.file_benchmark_and_model
    (Utils.basename
       (Outputs.out_path (W := Example.acme) "acme" "openai/gpt-5.1"
          {| Pipeline.questions_pattern := "_benchmark_b_semantic_questions.jsonl";
             Pipeline.ground_truth_pattern := "_benchmark_b_semantic.jsonl";
             Pipeline.label := "benchmark_b" |}))
  = (PStr "B", "openai_gpt-5.1").
Proof.
  exact (result_file_name_read_back (W := Example.acme) "acme" "openai/gpt-5.1" "b" _
           eq_refl eq_refl eq_refl eq_refl eq_refl).
Defined.

(** A document name that holds the text of the pattern is read back as
    part of another match: the model is not the one of the run. *)
Example document_name_with_pattern_text :
  CalcScores.file_benchmark_and_model
    (Utils.basename
       (Outputs.out_path (W := Example.acme) "benchmark_b_2024" "openai/gpt-5.1"
          {| Pipeline.questions_pattern := "_benchmark_a_vision_questions.jsonl";
             Pipeline.ground_truth_pattern := "_benchmark_a_vision.jsonl";
             Pipeline.label := "benchmark_a" |}))
  = (PStr "B", "2024_benchmark_a_openai_gpt-5.1").
Proof. reflexivity. Qed.

(** ** The requests of the extractor and of the scorer *)

Section ExtractorCalls.
Context {W : World}.

(** What [ask_model] sends: nothing, or one request to the extractor;
    and what it returns is an object with the two keys, parsed from the
    reply to that request. *)
Lemma ask_model_events (question pdf_path model_name : string) (t : list event) :
  (exists e, AskModel.ask_model question pdf_path model_name t = (Err e, t))
  \/ (exists r,
        AskModel.ask_model question pdf_path model_name t
        = (r, t ++ [ExtractorRequest model_name question pdf_path])
        /\ str_in model_name AskModel.EXTRACTOR_MODELS = true
        /\ env_set (backend_key model_name) = true
        /\ forall v, r = Ok v ->
             (exists d, v = PDict d /\ dict_has "answer" d = true
                        /\ dict_has "rationale" d = true)
             /\ exists raw, Parser.parse_extractor_output raw = Ok v).
Proof.
  unfold AskModel.ask_model, backend_key.
  destruct (str_in model_name AskModel.EXTRACTOR_MODELS); cbn [negb];
    [|left; eexists; reflexivity].
  unfold Eff.bind.
  assert (Hcall :
    (exists e, (if startswith model_name "google/"
                then AskModel.call_gemini_native question pdf_path model_name
                else AskModel.call_openrouter_extractor question pdf_path model_name) t
               = (Err e, t))
    \/ (exists r,
          (if startswith model_name "google/"
           then AskModel.call_gemini_native question pdf_path model_name
           else AskModel.call_openrouter_extractor question pdf_path model_name) t
          = (r, t ++ [ExtractorRequest model_name question pdf_path])
          /\ env_set (if startswith model_name "google/"
                      then "GEMINI_API_KEY" else "OPENROUTER_API_KEY") = true
          /\ forall v, r = Ok v -> exists raw, Parser.parse_extractor_output raw = Ok v)).
  { destruct (startswith model_name "google/").
    - unfold AskModel.call_gemini_native.
      destruct (env_set "GEMINI_API_KEY"); cbn [negb]; [|left; eexists; reflexivity].
      destruct genai_installed; cbn [negb]; [|left; eexists; reflexivity].
      unfold Eff.bind, Eff.request, Eff.lift.
      destruct (gemini_reply t model_name question pdf_path) as [raw|e].
      + right. eexists. split; [reflexivity|]. split; [reflexivity|].
        intros v Hv. now exists raw.
      + right. eexists. split; [reflexivity|]. split; [reflexivity|]. discriminate.
    - unfold AskModel.call_openrouter_extractor.
      destruct (env_set "OPENROUTER_API_KEY"); cbn [negb]; [|left; eexists; reflexivity].
      unfold Eff.bind, Eff.request, Eff.lift.
      destruct (encode_pdf pdf_path) as [encoded|e]; [|left; eexists; reflexivity].
      destruct (openrouter_reply t model_name question pdf_path) as [raw|e].
      + right. eexists. split; [reflexivity|]. split; [reflexivity|].
        intros v Hv. now exists raw.
      + right. eexists. split; [reflexivity|]. split; [reflexivity|]. discriminate. }
  destruct Hcall as [[e ->] | (r & -> & Henv & Hparsed)].
  - left. now exists e.
  - right. destruct r as [parsed|e].
    + destruct (Hparsed parsed eq_refl) as [raw Hraw].
      destruct parsed as [| | | | | |d];
        try (eexists; split; [reflexivity|]; split; [reflexivity|];
             split; [exact Henv | discriminate]).
      destruct (dict_has "answer" d) eqn:Ea; cbn [negb orb].
      * destruct (dict_has "rationale" d) eqn:Er; cbn [negb].
        -- eexists. split; [reflexivity|]. split; [reflexivity|].
           split; [exact Henv|]. intros v [= <-].
           split; [now exists d | now exists raw].
        -- eexists. split; [reflexivity|]. split; [reflexivity|].
           split; [exact Henv | discriminate].
      * eexists. split; [reflexivity|]. split; [reflexivity|].
        split; [exact Henv | discriminate].
    + eexists. split; [reflexivity|]. split; [reflexivity|].
      split; [exact Henv | discriminate].
Qed.

(** X2: [ask_model] with the key of the model's backend missing raises a
    [ValueError] that names the key, before the document is read and
    before anything is sent; the key of the other backend is not looked
    at. *)
Theorem ask_model_needs_backend_key (question pdf_path model_name : string)
  (t : list event) :
  str_in model_name AskModel.EXTRACTOR_MODELS = true ->
  env_set (backend_key model_name) = false ->
  AskModel.ask_model question pdf_path model_name t
  = (Err (Raise ValueError
            ("Missing " +++ backend_key model_name +++ " in environment.")), t).
Proof.
  intros Hmodel Henv. unfold AskModel.ask_model, backend_key in *.
  rewrite Hmodel. cbn [negb]. unfold Eff.bind.
  destruct (startswith model_name "google/").
  - unfold AskModel.call_gemini_native. now rewrite Henv.
  - unfold AskModel.call_openrouter_extractor. now rewrite Henv.
Qed.


End ExtractorCalls.

Lemma ask_model_needs_backend_key_witness :
  AskModel.ask_model (W := Example.reports) "What is the revenue?"
    "/bench/data/documents/acme.pdf" "google/gemini-3-pro-preview" []
  = (Err (Raise ValueError "Missing GEMINI_API_KEY in environment."), []).
Proof.
  exact (ask_model_needs_backend_key (W := Example.reports) "What is the revenue?"
           "/bench/data/documents/acme.pdf" "google/gemini-3-pro-preview" []
           eq_refl eq_refl).
Defined.



Section ScorerCalls.
Context {W : World}.

Lemma call_judge_llm_events (user_prompt model : string) (t : list event) :
  (exists e, ScoreAnswer.call_judge_llm user_prompt model t = (Err e, t))
  \/ (exists r,
        ScoreAnswer.call_judge_llm user_prompt model t
        = (r, t ++ [JudgeRequest model user_prompt])
        /\ str_in model ScoreAnswer.JUDGE_MODELS = true
        /\ env_set "OPENROUTER_API_KEY" = true).
Proof.
  unfold ScoreAnswer.call_judge_llm.
  destruct (env_set "OPENROUTER_API_KEY"); cbn [negb]; [|left; eexists; reflexivity].
  destruct (str_in model ScoreAnswer.JUDGE_MODELS); cbn [negb];
    [|left; eexists; reflexivity].
  right. unfold Eff.bind, Eff.request, Eff.lift.
  destruct (judge_reply t model user_prompt); eexists; repeat split.
Qed.

Lemma prompt_for_known (k prompt : string) :
  ScoreAnswer.prompt_for k ScoreAnswer.BENCHMARK_PROMPTS = Some prompt ->
  k = "A" \/ k = "B".
Proof.
  unfold ScoreAnswer.BENCHMARK_PROMPTS. cbn [ScoreAnswer.prompt_for].
  destruct (String.eqb k "A") eqn:Ea; [apply String.eqb_eq in Ea; auto|].
  destruct (String.eqb k "B") eqn:Eb; [apply String.eqb_eq in Eb; auto|].
  discriminate.
Qed.

(** What [score_answer] sends: nothing, or one request to the judge. *)
Lemma score_answer_events (model_answer_obj ground_truth_obj : pyval)
  (judge_model benchmark_type : string) (t : list event) :
  (exists e,
      ScoreAnswer.score_answer model_answer_obj ground_truth_obj judge_model
        benchmark_type t = (Err e, t))
  \/ (exists r user_prompt,
        ScoreAnswer.score_answer model_answer_obj ground_truth_obj judge_model
          benchmark_type t = (r, t ++ [JudgeRequest judge_model user_prompt])
        /\ str_in judge_model ScoreAnswer.JUDGE_MODELS = true
        /\ env_set "OPENROUTER_API_KEY" = true
        /\ (upper benchmark_type = "A" \/ upper benchmark_type = "B")
        /\ forall record, r = Ok record ->
             exists judge_result, ScoreAnswer.normalise judge_result = Ok record).
Proof.
  unfold ScoreAnswer.score_answer.
  destruct (ScoreAnswer.prompt_for _ _) as [template|] eqn:Ep;
    [|left; eexists; reflexivity].
  apply prompt_for_known in Ep.
  unfold Eff.bind, Eff.lift.
  destruct (py_get ground_truth_obj "answer" _); [|left; eexists; reflexivity].
  destruct (py_get ground_truth_obj "ground_truth_answer" _);
    [|left; eexists; reflexivity].
  destruct (py_get ground_truth_obj "rationale" _); [|left; eexists; reflexivity].
  destruct (py_get model_answer_obj "answer" _); [|left; eexists; reflexivity].
  destruct (py_get model_answer_obj "rationale" _); [|left; eexists; reflexivity].
  destruct (py_get ground_truth_obj "question" _); [|left; eexists; reflexivity].
  match goal with
  | |- context [ScoreAnswer.call_judge_llm ?p judge_model t] =>
      destruct (call_judge_llm_events p judge_model t)
        as [[e ->] | (r & -> & Hmodel & Henv)];
      [left; now exists e | right]
  end.
  destruct r as [judge_result|e].
  - eexists _, _. split; [reflexivity|]. repeat split; auto.
    intros record Hrecord. now exists judge_result.
  - eexists _, _. split; [reflexivity|]. repeat split; auto. discriminate.
Qed.

(** The record made from the judge's reply: nine keys in a fixed order,
    two booleans, and the three scores. *)
Lemma normalise_record (judge_result record : pyval) :
  ScoreAnswer.normalise judge_result = Ok record ->
  exists (q : float) (is_correct has_value : bool) (cj rj et jr : pyval),
    record = PDict
               [ ("correctness_score", PFloat q);
                 ("correctness_justification", cj);
                 ("rationale_score", PFloat (if is_correct then 1 else 0));
                 ("rationale_justification", rj);
                 ("is_correct", PBool is_correct);
                 ("has_value", PBool has_value);
                 ("error_type", et);
                 ("judge_reasoning", jr);
                 ("question_score", PFloat q) ].
Proof.
  destruct judge_result as [| | | | | |d]; try discriminate.
  unfold ScoreAnswer.normalise. simpl.
  destruct (ScoreAnswer.coerce_question_score _ _) as [q|e]; simpl; [|discriminate].
  intros [= <-]. unfold ScoreAnswer.derived_score. repeat eexists.
Qed.

(** X4: every record that [score_answer] returns cost one request to a judge
    of the allowed set, for benchmark A or B, and has the nine keys of the
    scorer in their order: [is_correct] and [has_value] are booleans,
    [rationale_score] is [1.0] or [0.0] as [is_correct] says, and
    [correctness_score] is the float [question_score]. *)
Theorem score_answer_returns_record (model_answer_obj ground_truth_obj : pyval)
  (judge_model benchmark_type : string) (t t' : list event) (record : pyval) :
  ScoreAnswer.score_answer model_answer_obj ground_truth_obj judge_model
    benchmark_type t = (Ok record, t') ->
  (exists user_prompt, t' = t ++ [JudgeRequest judge_model user_prompt])
  /\ str_in judge_model ScoreAnswer.JUDGE_MODELS = true
  /\ env_set "OPENROUTER_API_KEY" = true
  /\ (upper benchmark_type = "A" \/ upper benchmark_type = "B")
  /\ exists (q : float) (is_correct has_value : bool) (cj rj et jr : pyval),
       record = PDict
                  [ ("correctness_score", PFloat q);
                    ("correctness_justification", cj);
                    ("rationale_score", PFloat (if is_correct then 1 else 0));
                    ("rationale_justification", rj);
                    ("is_correct", PBool is_correct);
                    ("has_value", PBool has_value);
                    ("error_type", et);
                    ("judge_reasoning", jr);
                    ("question_score", PFloat q) ].
Proof.
  intros Hscore.
  destruct (score_answer_events model_answer_obj ground_truth_obj judge_model
              benchmark_type t)
    as [[e He] | (r & user_prompt & Hr & Hmodel & Henv & Hbench & Hrecord)].
  - rewrite He in Hscore. discriminate.
  - rewrite Hr in Hscore. injection Hscore as -> <-.
    destruct (Hrecord record eq_refl) as [judge_result Hn].
    split; [now exists user_prompt|]. repeat (split; [assumption|]).
    exact (normalise_record _ _ Hn).
Qed.

End ScorerCalls.

Lemma score_answer_returns_record_witness :
  (exists user_prompt,
      [JudgeRequest "deepseek/deepseek-v3.2"
         "Track B. Question: How many sites? Expected: 4 (p. 9) Given: 5 (map)"]
      = [] ++ [JudgeRequest "deepseek/deepseek-v3.2" user_prompt])
  /\ str_in "deepseek/deepseek-v3.2" ScoreAnswer.JUDGE_MODELS = true
  /\ env_set (W := Example.acme) "OPENROUTER_API_KEY" = true
  /\ (upper "b" = "A" \/ upper "b" = "B")
  /\ exists (q : float) (is_correct has_value : bool) (cj rj et jr : pyval),
       PDict
         [ ("correctness_score", PFloat 0.4);
           ("correctness_justification", PStr "off by one");
           ("rationale_score", PFloat 0);
           ("rationale_justification", PStr "wrong_count");
           ("is_correct", PBool false);
           ("has_value", PBool true);
           ("error_type", PStr "wrong_count");
           ("judge_reasoning", PStr "off by one");
           ("question_score", PFloat 0.4) ]
       = PDict
           [ ("correctness_score", PFloat q);
             ("correctness_justification", cj);
             ("rationale_score", PFloat (if is_correct then 1 else 0));
             ("rationale_justification", rj);
             ("is_correct", PBool is_correct);
             ("has_value", PBool has_value);
             ("error_type", et);
             ("judge_reasoning", jr);
             ("question_score", PFloat q) ].
Proof.
  exact (score_answer_returns_record (W := Example.acme)
           (PDict [("answer", PInt 5); ("rationale", PStr "map")])
           (PDict [("question", PStr "How many sites?");
                   ("answer", PInt 4); ("rationale", PStr "p. 9")])
           "deepseek/deepseek-v3.2" "b" [] _ _ eq_refl).
Defined.

(** ** The loop of [evaluate_document], question by question *)

Section DocumentLoop.
Context {W : World}.
Variables (doc_name extractor_model judge_model benchmark_key pdf_path : string).
Variable gt_map : dict.

Local Abbreviation body := (Pipeline.question_body doc_name extractor_model judge_model
                              benchmark_key pdf_path gt_map).
Local Abbreviation loop := (Pipeline.question_loop doc_name extractor_model judge_model
                              benchmark_key pdf_path gt_map).
Local Abbreviation fallback := (Pipeline.question_fallback doc_name extractor_model
                                  judge_model benchmark_key).

Local Abbreviation stamp := (stamp_of doc_name extractor_model judge_model benchmark_key).

(** One question: the body fails having sent nothing or the request to
    the extractor only, or it has sent one request to the extractor and
    then one to the judge; the row it builds is the extractor's answer,
    the scorer's record and the stamp of the run. *)
Lemma question_body_events (idx : nat) (question_text : string) (category : pyval)
  (t : list event) :
  (exists e evs,
      body idx question_text category t = (Err e, t ++ evs)
      /\ (evs = [] \/ evs = [ExtractorRequest extractor_model question_text pdf_path]))
  \/ (exists r user_prompt,
        body idx question_text category t
        = (r, t ++ [ExtractorRequest extractor_model question_text pdf_path;
                    JudgeRequest judge_model user_prompt])
        /\ forall built, r = Ok built ->
             exists model_answer judge_result record,
               built = Pipeline.make_row question_text model_answer record
                         (stamp idx category)
               /\ ScoreAnswer.normalise judge_result = Ok record).
Proof.
  unfold Pipeline.question_body.
  destruct (dict_get question_text gt_map) as [gt|].
  2:{ left. eexists _, []. rewrite app_nil_r. split; [reflexivity | now left]. }
  unfold Eff.bind, Eff.ret.
  destruct (ask_model_events question_text pdf_path extractor_model t)
    as [[e ->] | (r & -> & _ & _ & _)].
  { left. exists e, []. rewrite app_nil_r. split; [reflexivity | now left]. }
  destruct r as [ma|e].
  2:{ left. exists e, [ExtractorRequest extractor_model question_text pdf_path].
      split; [reflexivity | now right]. }
  destruct (score_answer_events ma gt judge_model benchmark_key
              (t ++ [ExtractorRequest extractor_model question_text pdf_path]))
    as [[e ->] | (r & user_prompt & -> & _ & _ & _ & Hrecord)].
  { left. exists e, [ExtractorRequest extractor_model question_text pdf_path].
    split; [reflexivity | now right]. }
  right. rewrite <- app_assoc. simpl app.
  destruct r as [record|e].
  - eexists _, user_prompt. split; [reflexivity|].
    intros built [= <-]. destruct (Hrecord record eq_refl) as [j Hj].
    now exists ma, j, record.
  - eexists _, user_prompt. split; [reflexivity|]. discriminate.
Qed.

Lemma question_loop_all_fail (P : exn -> Prop) (questions : list pyval) :
  (forall idx question_text category t,
      exists e, body idx question_text category t = (Err e, t) /\ P e) ->
  Forall has_question_text questions ->
  forall (idx : nat) (acc : Pipeline.run) (t : list event),
  exists rows,
    loop idx questions acc t
    = (Ok {| Pipeline.results := Pipeline.results acc ++ rows;
             Pipeline.failures := Pipeline.failures acc + length questions |}, t)
    /\ length rows = length questions
    /\ Forall (fun row => exists e, fallback_row_for e row /\ P e) rows.
Proof.
  intros Hbody.
  induction 1 as [|q rest [question_text Hkey] _ IH]; intros idx acc t.
  - exists []. simpl. unfold Eff.ret.
    rewrite app_nil_r, Nat.add_0_r. destruct acc. repeat split; constructor.
  - destruct (question_key_dict _ _ Hkey) as [d ->].
    pose (category := dict_get_default "category" (PStr "Uncategorized") d).
    rewrite (question_loop_cons doc_name extractor_model judge_model benchmark_key
               pdf_path gt_map idx _ rest acc t question_text category Hkey eq_refl).
    destruct (Hbody idx question_text category t) as (e & He & HP).
    rewrite He. cbv zeta. simpl fst. simpl snd.
    destruct (IH (S idx)
                {| Pipeline.results :=
                     Pipeline.results acc ++ [fallback idx question_text category e];
                   Pipeline.failures := Pipeline.failures acc + 1 |} t)
      as (rows & Hloop & Hlen & Hrows).
    exists (fallback idx question_text category e :: rows).
    rewrite Hloop. simpl Pipeline.results. simpl Pipeline.failures.
    rewrite <- app_assoc. simpl app. simpl length.
    replace (Pipeline.failures acc + 1 + length rest)
      with (Pipeline.failures acc + S (length rest)) by lia.
    split; [reflexivity|]. split; [now rewrite Hlen|].
    constructor; [|exact Hrows]. exists e. split; [|exact HP].
    apply question_fallback_records.
Qed.

(** X5: an extractor model outside the allowed set: the run is not aborted
    and nothing is sent, neither to the extractor nor to the judge; every
    question gets a fallback row, for the [ValueError] of [ask_model] or
    the [KeyError] of a question without ground truth. *)
Theorem disallowed_extractor_sends_nothing (questions : list pyval)
  (idx : nat) (acc : Pipeline.run) (t : list event) :
  str_in extractor_model AskModel.EXTRACTOR_MODELS = false ->
  Forall has_question_text questions ->
  exists rows,
    loop idx questions acc t
    = (Ok {| Pipeline.results := Pipeline.results acc ++ rows;
             Pipeline.failures := Pipeline.failures acc + length questions |}, t)
    /\ length rows = length questions
    /\ Forall (fun row =>
                 exists e, fallback_row_for e row
                           /\ (exn_cls e = ValueError \/ exn_cls e = KeyError)) rows.
Proof.
  intros Hmodel Hq. apply question_loop_all_fail; [|exact Hq].
  intros idx' question_text category t0. unfold Pipeline.question_body.
  destruct (dict_get question_text gt_map) as [gt|].
  - unfold Eff.bind, AskModel.ask_model. rewrite Hmodel. cbn [negb].
    eexists. split; [reflexivity | now left].
  - eexists. split; [reflexivity | now right].
Qed.


End DocumentLoop.

Section DocumentRows.
Context {W : World}.
Variables (doc_name extractor_model judge_model benchmark_key pdf_path : string).
Variable gt_map : dict.

Local Abbreviation body := (Pipeline.question_body doc_name extractor_model judge_model
                              benchmark_key pdf_path gt_map).
Local Abbreviation loop := (Pipeline.question_loop doc_name extractor_model judge_model
                              benchmark_key pdf_path gt_map).
Local Abbreviation fallback := (Pipeline.question_fallback doc_name extractor_model
                                  judge_model benchmark_key).
Local Abbreviation stamp := (stamp_of doc_name extractor_model judge_model benchmark_key).

Lemma question_body_row (idx : nat) (question_text : string) (category : pyval)
  (t : list event) (built : pyval) :
  fst (body idx question_text category t) = Ok built ->
  exists model_answer judge_result record,
    built = Pipeline.make_row question_text model_answer record (stamp idx category)
    /\ ScoreAnswer.normalise judge_result = Ok record.
Proof.
  destruct (question_body_events doc_name extractor_model judge_model benchmark_key
              pdf_path gt_map idx question_text category t)
    as [(e & evs & -> & _) | (r & user_prompt & -> & Hbuilt)]; [discriminate|].
  simpl. exact (Hbuilt built).
Qed.




End DocumentRows.

(** ** [evaluate_document] as a whole *)





Lemma disallowed_extractor_sends_nothing_witness :
  exists rows,
    Pipeline.question_loop (W := Example.acme) "acme" "openai/gpt-4o"
      "deepseek/deepseek-v3.2" "B" "/bench/data/documents/acme.pdf"
      Example.acme_gt_map 1 Example.acme_questions Example.no_rows []
    = (Ok {| Pipeline.results := Pipeline.results Example.no_rows ++ rows;
             Pipeline.failures :=
               Pipeline.failures Example.no_rows + length Example.acme_questions |},
       [])
    /\ length rows = length Example.acme_questions
    /\ Forall (fun row =>
                 exists e, fallback_row_for e row
                           /\ (exn_cls e = ValueError \/ exn_cls e = KeyError)) rows.
Proof.
  exact (disallowed_extractor_sends_nothing (W := Example.acme) "acme" "openai/gpt-4o"
           "deepseek/deepseek-v3.2" "B" "/bench/data/documents/acme.pdf"
           Example.acme_gt_map Example.acme_questions 1 Example.no_rows []
           eq_refl acme_questions_have_text).
Defined.


(** ** Errors that end a run *)

Lemma upper_char_is (c x : ascii) :
  (x = "A" \/ x = "B")%char ->
  upper_char c = x -> c = x \/ c = CalcScores.lower_char x.
Proof.
  intros [-> | ->];
    destruct c as [[] [] [] [] [] [] [] []]; vm_compute; intros H;
    try discriminate H; auto.
Qed.

Lemma upper_is (s : string) (x : ascii) :
  (x = "A" \/ x = "B")%char ->
  upper s = String x EmptyString ->
  s = String x EmptyString \/ s = String (CalcScores.lower_char x) EmptyString.
Proof.
  intros Hx. destruct s as [|c [|d s]]; try discriminate.
  cbn [upper]. intros [= Hc].
  destruct (upper_char_is c x Hx Hc) as [-> | ->]; auto.
Qed.

(** X9: the benchmark types that the two entry points accept are [a], [A],
    [b] and [B] and no other: any other text makes both raise a
    [ValueError] that quotes it, before a file is looked at and before
    anything is sent. *)
Theorem unknown_benchmark_type_is_fatal {W : World}
  (doc_name extractor_model answers_path judge_model benchmark_type : string)
  (t : list event) :
  str_in benchmark_type ["a"; "A"; "b"; "B"] = false ->
  Pipeline.TRACK_CONFIG (upper benchmark_type) = None
  /\ Pipeline.evaluate_document doc_name extractor_model judge_model benchmark_type t
     = (Err (Raise ValueError
               ("Unknown benchmark type '" +++ benchmark_type
                  +++ "'. Expected ['A', 'B']")), t)
  /\ Pipeline.evaluate_precomputed_answers doc_name answers_path judge_model
       benchmark_type t
     = (Err (Raise ValueError
               ("Unknown benchmark type '" +++ benchmark_type
                  +++ "'. Expected ['A', 'B']")), t).
Proof.
  intros Hnot.
  assert (Hnone : Pipeline.TRACK_CONFIG (upper benchmark_type) = None).
  { unfold Pipeline.TRACK_CONFIG.
    cbn [str_in] in Hnot. rewrite !orb_false_iff in Hnot.
    destruct Hnot as (Ha & HA & Hb & HB & _).
    apply String.eqb_neq in Ha, HA, Hb, HB.
    destruct (String.eqb (upper benchmark_type) "A") eqn:Ea.
    { apply String.eqb_eq in Ea.
      destruct (upper_is benchmark_type "A" (or_introl eq_refl) Ea); contradiction. }
    destruct (String.eqb (upper benchmark_type) "B") eqn:Eb; [|reflexivity].
    apply String.eqb_eq in Eb.
    destruct (upper_is benchmark_type "B" (or_intror eq_refl) Eb); contradiction. }
  split; [exact Hnone|].
  unfold Pipeline.evaluate_document, Pipeline.evaluate_precomputed_answers.
  rewrite Hnone. split; reflexivity.
Qed.

Lemma unknown_benchmark_type_is_fatal_witness :
  Pipeline.TRACK_CONFIG (upper "C") = None
  /\ Pipeline.evaluate_document (W := Example.acme) "acme" "openai/gpt-5.1"
       "deepseek/deepseek-v3.2" "C" []
     = (Err (Raise ValueError "Unknown benchmark type 'C'. Expected ['A', 'B']"), [])
  /\ Pipeline.evaluate_precomputed_answers (W := Example.acme) "acme"
       "/in/answers.jsonl" "deepseek/deepseek-v3.2" "C" []
     = (Err (Raise ValueError "Unknown benchmark type 'C'. Expected ['A', 'B']"), []).
Proof.
  exact (unknown_benchmark_type_is_fatal (W := Example.acme) "acme" "openai/gpt-5.1"
           "/in/answers.jsonl" "deepseek/deepseek-v3.2" "C" [] eq_refl).
Defined.

Section RunErrors.
Context {W : World}.
Variables (doc_name extractor_model judge_model benchmark_key pdf_path : string).

Lemma dict_of_pairs_absent (k : string) (kvs : dict) :
  Forall (fun kv => fst kv <> k) kvs -> dict_get k (dict_of_pairs kvs) = None.
Proof.
  intros Hall. unfold dict_of_pairs. now rewrite dict_get_update_absent.
Qed.

(** X10: a question whose trimmed text is the trimmed text of no ground-truth
    entry fails with a [KeyError] before anything is sent to the
    extractor or the judge, in either loop. *)
Theorem question_without_ground_truth_sends_nothing
  (answers_path : string) (ground_truth_entries : list pyval) (gt_map : dict)
  (idx : nat) (question_text : string) (category entry : pyval) (t : list event) :
  Pipeline.build_gt_map ground_truth_entries = Ok gt_map ->
  Forall (fun e => Pipeline.question_key e <> Ok question_text) ground_truth_entries ->
  Pipeline.question_body doc_name extractor_model judge_model benchmark_key pdf_path
    gt_map idx question_text category t
  = (Err (Pipeline.missing_ground_truth question_text), t)
  /\ (str_empty question_text = false ->
      Pipeline.entry_body doc_name answers_path judge_model benchmark_key gt_map
        idx question_text entry t
      = ((PNone, Err (Pipeline.missing_ground_truth question_text)), t)).
Proof.
  intros Hmap Hnone. unfold Pipeline.build_gt_map in Hmap.
  destruct (Pipeline.gt_pairs ground_truth_entries) as [kvs|] eqn:Ekvs;
    [|discriminate].
  injection Hmap as <-.
  assert (Hget : dict_get question_text (dict_of_pairs kvs) = None)
    by (apply dict_of_pairs_absent; exact (gt_pairs_keys _ _ _ Ekvs Hnone)).
  unfold Pipeline.question_body, Pipeline.entry_body. rewrite Hget.
  split; [reflexivity|]. now intros ->.
Qed.


End RunErrors.


(** X12: a ground-truth entry without a textual [question] ends
    [evaluate_document] with the exception of that entry, before the first
    question is looked at and before anything is sent. *)
Theorem ground_truth_without_text_aborts_run {W : World}
  (doc_name extractor_model judge_model benchmark_type : string)
  (track_info : Pipeline.track) (questions before : list pyval) (bad : pyval)
  (after : list pyval) (e : exn) (t : list event) :
  Pipeline.TRACK_CONFIG (upper benchmark_type) = Some track_info ->
  path_exists (document_path doc_name) = true ->
  Utils.load_jsonl (questions_path doc_name track_info) = Ok questions ->
  Utils.load_jsonl (ground_truth_path doc_name track_info)
  = Ok (before ++ bad :: after) ->
  Forall has_question_text before ->
  Pipeline.question_key bad = Err e ->
  Pipeline.evaluate_document doc_name extractor_model judge_model benchmark_type t
  = (Err e, t).
Proof.
  intros Htrack Hpdf Hquestions Hgt Hbefore Hbad.
  unfold document_path, questions_path, ground_truth_path in *.
  unfold Pipeline.evaluate_document. rewrite Htrack, Hpdf. cbn [negb].
  unfold Eff.bind at 1 2 3. unfold Eff.lift at 1 2 3.
  rewrite Hquestions, Hgt.
  unfold Pipeline.build_gt_map. rewrite gt_pairs_app.
  destruct (gt_pairs_total _ Hbefore) as [kvs ->].
  cbn [Py.bind Pipeline.gt_pairs]. now rewrite Hbad.
Qed.

(** ** Judging answers given beforehand *)

Section JudgedEntries.
Context {W : World}.
Variables (doc_name answers_path judge_model benchmark_key : string).
Variable gt_map : dict.

Local Abbreviation judged := (Pipeline.judged_row doc_name answers_path judge_model
                                benchmark_key).
Local Abbreviation ebody := (Pipeline.entry_body doc_name answers_path judge_model
                               benchmark_key gt_map).
Local Abbreviation efallback := (Pipeline.entry_fallback doc_name answers_path
                                   judge_model benchmark_key).
Local Abbreviation eloop := (Pipeline.entry_loop doc_name answers_path judge_model
                               benchmark_key gt_map).
Local Abbreviation stamp := (judged_stamp doc_name answers_path judge_model
                               benchmark_key).

(** The statements of the [try] on an entry that is an object. *)
Lemma judged_row_eq (idx : nat) (question_text : string) (d : dict)
  (gt_entry category : pyval) (t : list event) :
  judged idx question_text (PDict d) gt_entry category t
  = match ScoreAnswer.score_answer (answer_of_entry d) gt_entry judge_model
            benchmark_key t with
    | (Ok record, t1) =>
        ((copied <- py_copy (dict_get_default "metadata" (PDict []) d) ;;
          metadata <- py_update copied (stamp idx category) ;;
          Ok (Pipeline.make_row question_text (answer_of_entry d) record metadata))%res,
         t1)
    | (Err e, t1) => (Err e, t1)
    end.
Proof.
  unfold Pipeline.judged_row, Eff.bind, Eff.lift, Eff.ret, answer_of_entry, flat_answer,
    judged_stamp, Py.bind.
  cbn [py_get].
  destruct (dict_get_default "model_answer" PNone d);
    destruct (ScoreAnswer.score_answer _ gt_entry judge_model benchmark_key t)
      as [[record|e] t1];
    try reflexivity;
    destruct (py_copy _) as [copied|e]; try reflexivity;
    destruct (py_update copied _); reflexivity.
Qed.

(** One entry with ground truth: nothing is sent, or one request to the
    judge; the row is the entry's answer, the scorer's record and the
    entry's metadata with the stamp of the run written over it. *)
Lemma judged_row_events (idx : nat) (question_text : string)
  (entry gt_entry category : pyval) (t : list event) :
  (exists e, judged idx question_text entry gt_entry category t = (Err e, t))
  \/ (exists r user_prompt,
        judged idx question_text entry gt_entry category t
        = (r, t ++ [JudgeRequest judge_model user_prompt])
        /\ forall built, r = Ok built ->
             exists d judge_result record,
               entry = PDict d
               /\ built = Pipeline.make_row question_text (answer_of_entry d) record
                            (PDict (dict_update (stamp idx category)
                                      (metadata_of_entry d)))
               /\ ScoreAnswer.normalise judge_result = Ok record).
Proof.
  destruct entry as [| | | | | |d]; try (left; eexists; reflexivity).
  rewrite judged_row_eq.
  destruct (score_answer_events (answer_of_entry d) gt_entry judge_model
              benchmark_key t)
    as [[e ->] | (r & user_prompt & -> & _ & _ & _ & Hrecord)].
  { left. now exists e. }
  right. destruct r as [record|e].
  2:{ eexists _, user_prompt. split; [reflexivity | discriminate]. }
  destruct (Hrecord record eq_refl) as [j Hj].
  eexists _, user_prompt. split; [reflexivity|].
  intros built Hb. exists d, j, record. split; [reflexivity|]. split; [|exact Hj].
  revert Hb. unfold dict_get_default, metadata_of_entry.
  destruct (dict_get "metadata" d) as [[| | | | | |meta]|];
    cbn [Py.bind py_copy py_update]; try discriminate; now intros [= <-].
Qed.


Lemma dict_get_stamp (idx : nat) (category : pyval) (meta : dict) (k : string) :
  dict_get k (dict_update (stamp idx category) meta)
  = match dict_get k (stamp idx category) with
    | Some v => Some v
    | None => dict_get k meta
    end.
Proof.
  unfold dict_update, judged_stamp. cbn [fold_left fst snd dict_get].
  repeat match goal with
         | |- context [String.eqb k ?key] =>
             destruct (String.eqb_spec k key) as [->|?];
             [rewrite ?dict_get_set_same;
              repeat (rewrite dict_get_set_other by discriminate);
              rewrite ?dict_get_set_same; reflexivity|]
         end.
  repeat (rewrite dict_get_set_other by congruence). reflexivity.
Qed.

(** X13: a judged row keeps what the entry's metadata says beside the six keys
    of the run (the extractor model that the answers file names, for one),
    and has the document, the judge, the answers file, the benchmark key
    and the ground truth's category of the run under those, whatever the
    entry said there; the answer it records is the entry's [model_answer],
    or the entry's top-level [answer] and [rationale] in its place. *)
Theorem judged_row_keeps_entry_metadata (idx : nat) (question_text : string)
  (entry gt_entry category built : pyval) (t t' : list event) :
  judged idx question_text entry gt_entry category t = (Ok built, t') ->
  (forall k, str_in k judged_keys = false ->
             metadata_field k built = metadata_field k entry)
  /\ metadata_field "document" built = Some (PStr doc_name)
  /\ metadata_field "judge_model" built = Some (PStr judge_model)
  /\ metadata_field "source_answers_file" built = Some (PStr answers_path)
  /\ metadata_field "benchmark" built = Some (PStr benchmark_key)
  /\ metadata_field "category" built = Some category
  /\ (exists d, entry = PDict d /\ field "model_answer" built = Some (answer_of_entry d))
  /\ field "question" built = Some (PStr question_text).
Proof.
  intros Hrow.
  destruct (judged_row_events idx question_text entry gt_entry category t)
    as [[e He] | (r & user_prompt & Hr & Hbuilt)].
  { rewrite He in Hrow. discriminate. }
  rewrite Hr in Hrow. injection Hrow as -> _.
  destruct (Hbuilt built eq_refl) as (d & j & record & -> & -> & _).
  unfold metadata_field. cbn [field Pipeline.make_row dict_get String.eqb Ascii.eqb Bool.eqb].
  split; [|split; [|split; [|split; [|split; [|split; [|split]]]]]];
    try (rewrite dict_get_stamp; reflexivity); try reflexivity.
  - intros k Hk. rewrite dict_get_stamp.
    assert (Hnone : dict_get k (stamp idx category) = None).
    { unfold judged_keys in Hk. cbn [str_in] in Hk.
      unfold judged_stamp. cbn [dict_get].
      repeat match goal with
             | |- context [String.eqb k ?key] =>
                 destruct (String.eqb k key); [discriminate Hk|]
             end.
      reflexivity. }
    rewrite Hnone. unfold metadata_of_entry.
    destruct (dict_get "metadata" d) as [[| | | | | |meta]|]; reflexivity.
  - now exists d.
Qed.

(** X14: an entry that gives [answer] and [rationale] at its top level is
    judged as the entry that gives them as its [model_answer]: the same
    request, the same row or the same exception. *)
Theorem flat_entry_is_judged_as_nested (idx : nat) (question_text : string)
  (d : dict) (t : list event) :
  dict_get_default "model_answer" PNone d = PNone ->
  ebody idx question_text (PDict d) t
  = ebody idx question_text (PDict (dict_set "model_answer" (flat_answer d) d)) t.
Proof.
  intros Hflat. unfold Pipeline.entry_body.
  destruct (str_empty question_text); [reflexivity|].
  destruct (dict_get question_text gt_map) as [gt_entry|]; [|reflexivity].
  destruct (py_get gt_entry "category" _) as [category|e]; [|reflexivity].
  rewrite !judged_row_eq.
  assert (Hanswer : answer_of_entry (dict_set "model_answer" (flat_answer d) d)
                    = answer_of_entry d).
  { unfold answer_of_entry, dict_get_default at 1.
    rewrite dict_get_set_same, Hflat. reflexivity. }
  assert (Hmeta : dict_get_default "metadata" (PDict [])
                    (dict_set "model_answer" (flat_answer d) d)
                  = dict_get_default "metadata" (PDict []) d).
  { unfold dict_get_default. now rewrite dict_get_set_other by discriminate. }
  now rewrite Hanswer, Hmeta.
Qed.


End JudgedEntries.


(** X16: an answers file without entries ends [evaluate_precomputed_answers]
    with a [ValueError] that names the file; the ground truth has been
    loaded by then, and nothing has been sent. *)
Theorem empty_answers_file_is_fatal {W : World}
  (doc_name answers_path judge_model benchmark_type : string)
  (track_info : Pipeline.track) (ground_truth_entries : list pyval) (t : list event) :
  Pipeline.TRACK_CONFIG (upper benchmark_type) = Some track_info ->
  path_exists answers_path = true ->
  path_exists (ground_truth_path doc_name track_info) = true ->
  Utils.load_jsonl (ground_truth_path doc_name track_info) = Ok ground_truth_entries ->
  Utils.load_jsonl answers_path = Ok [] ->
  Pipeline.evaluate_precomputed_answers doc_name answers_path judge_model
    benchmark_type t
  = (Err (Raise ValueError ("No entries found in answers file: " +++ answers_path)), t).
Proof.
  intros Htrack Hanswers Hgt_exists Hgt Hload.
  unfold ground_truth_path in *.
  unfold Pipeline.evaluate_precomputed_answers.
  rewrite Htrack, Hanswers, Hgt_exists. cbn [negb].
  unfold Eff.bind, Eff.lift. now rewrite Hgt, Hload.
Qed.

(** ** The scores per benchmark and per model and benchmark *)

Lemma fold_left_map_list {A B C : Type} (f : A -> C -> A) (g : B -> C)
  (l : list B) (a : A) :
  fold_left f (map g l) a = fold_left (fun acc x => f acc (g x)) l a.
Proof.
  revert a. induction l as [|x l IH]; intros a; simpl; [reflexivity | apply IH].
Qed.

Section Totals.
Context {W : World}.

(** What the second loop of [aggregate] collects per benchmark and per
    model and benchmark: the scores of the groups, in their order. *)
Lemma group_pass_totals (grouped : CalcScores.grouped_map) (acc : CalcScores.totals) :
  CalcScores.benchmark_totals (CalcScores.group_pass grouped acc)
  = fold_left (fun a gcm =>
                 alist_alter hkey_eq_dec
                   (fun l => l ++ [CalcScores.functional_score (summarise (snd gcm))])
                   [] (benchmark_of (fst gcm)) a)
      grouped (CalcScores.benchmark_totals acc)
  /\ CalcScores.model_benchmark_totals (CalcScores.group_pass grouped acc)
     = fold_left (fun a gcm =>
                    alist_alter CalcScores.mbkey_eq_dec
                      (fun l => l ++ [CalcScores.functional_score (summarise (snd gcm))])
                      [] (model_benchmark_of (fst gcm)) a)
         grouped (CalcScores.model_benchmark_totals acc).
Proof.
  revert acc. induction grouped as [|[[[model doc] benchmark] cm] grouped IH];
    intros acc; [split; reflexivity|].
  cbn [CalcScores.group_pass fold_left].
  destruct (CalcScores.category_pass cm [] []) as [category_scores all_scores] eqn:Ecp.
  destruct (IH {| CalcScores.model_summaries :=
                    alist_set CalcScores.gkey_eq_dec (model, doc, benchmark)
                      {| CalcScores.categories := category_scores;
                         CalcScores.functional_score :=
                           CalcScores.mean_or_zero all_scores |}
                      (CalcScores.model_summaries acc);
                  CalcScores.benchmark_totals :=
                    alist_alter hkey_eq_dec
                      (fun l => l ++ [CalcScores.mean_or_zero all_scores]) []
                      benchmark (CalcScores.benchmark_totals acc);
                  CalcScores.model_benchmark_totals :=
                    alist_alter CalcScores.mbkey_eq_dec
                      (fun l => l ++ [CalcScores.mean_or_zero all_scores]) []
                      (model, benchmark) (CalcScores.model_benchmark_totals acc) |})
    as [IHb IHmb].
  rewrite IHb, IHmb. cbn [CalcScores.benchmark_totals CalcScores.model_benchmark_totals].
  unfold summarise, benchmark_of, model_benchmark_of, model_of.
  cbn [fst snd]. rewrite Ecp. cbn [fst snd CalcScores.functional_score].
  split; reflexivity.
Qed.

(** Scores collected under a key of the group, then averaged: the mean of
    the scores of the groups with that key, key by key in the order of
    first appearance. *)
Lemma means_of_totals {K : Type} (eq_dec : forall a b : K, {a = b} + {a <> b})
  (key : CalcScores.gkey -> K) (sums : list (CalcScores.gkey * CalcScores.summary)) :
  CalcScores.means_of
    (fold_left (fun a gs =>
                  alist_alter eq_dec
                    (fun l => l ++ [CalcScores.functional_score (snd gs)])
                    [] (key (fst gs)) a)
       sums [])
  = means_by eq_dec key sums.
Proof.
  unfold means_by, scores_by.
  set (l := map (fun gs => (key (fst gs), CalcScores.functional_score (snd gs))) sums).
  assert (Hfold :
    fold_left (fun a gs =>
                 alist_alter eq_dec
                   (fun l => l ++ [CalcScores.functional_score (snd gs)])
                   [] (key (fst gs)) a)
      sums []
    = fold_left (fun a (kv : K * float) =>
                   alist_alter eq_dec (fun l => l ++ [snd kv]) [] (fst kv) a) l [])
    by (symmetry;
        exact (fold_left_map_list
                 (fun a (kv : K * float) =>
                    alist_alter eq_dec (fun l => l ++ [snd kv]) [] (fst kv) a)
                 (fun gs => (key (fst gs), CalcScores.functional_score (snd gs)))
                 sums [])).
  rewrite Hfold.
  etransitivity.
  - apply f_equal.
    exact (grouping_fold eq_dec (fun (a : list float) v => a ++ [v]) [] l).
  - unfold CalcScores.means_of, tabulate. rewrite map_map. cbn [fst snd].
    apply map_ext_in. intros k Hk. f_equal.
    rewrite fold_left_snoc. cbn [app].
    destruct (bucket eq_dec k l) as [|x xs] eqn:Eb; [|reflexivity].
    destruct (bucket_present eq_dec k l Hk Eb).
Qed.

Lemma summaries_of_grouped (CM : CalcScores.gkey -> CalcScores.category_map)
  (gs : list CalcScores.gkey) :
  map (fun gcm : CalcScores.gkey * CalcScores.category_map =>
         (fst gcm, summarise (snd gcm))) (tabulate CM gs)
  = tabulate (fun g => summarise (CM g)) gs.
Proof. unfold tabulate. rewrite map_map. reflexivity. Qed.

(** The three results of [aggregate], from the rows. *)
Lemma aggregate_of_rows (paths : list string) (r : CalcScores.aggregate_result) :
  CalcScores.aggregate paths = Ok r ->
  exists infos,
    CalcScores.summaries r = summaries_spec infos
    /\ CalcScores.global_scores r
       = means_by hkey_eq_dec benchmark_of (CalcScores.summaries r)
    /\ CalcScores.model_benchmark_scores r
       = means_by CalcScores.mbkey_eq_dec model_benchmark_of (CalcScores.summaries r).
Proof.
  unfold CalcScores.aggregate.
  destruct (CalcScores.load_results paths) as [data|e]; simpl; [|discriminate].
  rewrite collect_infos.
  destruct (infos_of data) as [infos|e]; simpl; [|discriminate].
  intros [= <-]. exists infos. cbn [CalcScores.summaries CalcScores.global_scores
                                    CalcScores.model_benchmark_scores].
  set (zero := {| CalcScores.model_summaries := [];
                  CalcScores.benchmark_totals := [];
                  CalcScores.model_benchmark_totals := [] |}).
  assert (Hsum := summaries_of_rows infos). fold zero in Hsum.
  destruct (group_pass_totals
              (fold_left (fun acc (i : info) =>
                            CalcScores.add_score (fst i) (fst (snd i)) (snd (snd i)) acc)
                 infos []) zero) as [Hb Hmb].
  rewrite Hb, Hmb, Hsum. cbn [zero CalcScores.benchmark_totals
                                CalcScores.model_benchmark_totals].
  split; [reflexivity|].
  assert (Hgrouped :
    map (fun gcm : CalcScores.gkey * CalcScores.category_map =>
           (fst gcm, summarise (snd gcm)))
      (fold_left (fun acc (i : info) =>
                    CalcScores.add_score (fst i) (fst (snd i)) (snd (snd i)) acc)
         infos [])
    = summaries_spec infos).
  { rewrite <- Hsum, grouped_rows, summaries_of_grouped.
    rewrite group_pass_tabulate; [reflexivity | apply keys_of_nodup | intros g _ []]. }
  rewrite <- Hgrouped.
  split.
  - rewrite <- (means_of_totals hkey_eq_dec benchmark_of).
    f_equal. symmetry. apply fold_left_map_list with
      (f := fun a (gs : CalcScores.gkey * CalcScores.summary) =>
              alist_alter hkey_eq_dec
                (fun l => l ++ [CalcScores.functional_score (snd gs)])
                [] (benchmark_of (fst gs)) a)
      (g := fun gcm : CalcScores.gkey * CalcScores.category_map =>
              (fst gcm, summarise (snd gcm))).
  - rewrite <- (means_of_totals CalcScores.mbkey_eq_dec model_benchmark_of).
    f_equal. symmetry. apply fold_left_map_list with
      (f := fun a (gs : CalcScores.gkey * CalcScores.summary) =>
              alist_alter CalcScores.mbkey_eq_dec
                (fun l => l ++ [CalcScores.functional_score (snd gs)])
                [] (model_benchmark_of (fst gs)) a)
      (g := fun gcm : CalcScores.gkey * CalcScores.category_map =>
              (fst gcm, summarise (snd gcm))).
Qed.

(** X17: the global score of a benchmark is the mean of the scores of the
    groups (model, document, benchmark) of that benchmark, each group
    counting once whatever the number of its rows; the benchmarks stand in
    the order in which their first group appears. *)
Theorem global_scores_are_means_of_group_scores (paths : list string)
  (r : CalcScores.aggregate_result) :
  CalcScores.aggregate paths = Ok r ->
  CalcScores.global_scores r
  = means_by hkey_eq_dec benchmark_of (CalcScores.summaries r).
Proof.
  intros Hr. destruct (aggregate_of_rows paths r Hr) as (infos & _ & Hglobal & _).
  exact Hglobal.
Qed.

(** X18: the score of a model on a benchmark is the mean of the scores of its
    groups of that benchmark: the mean over its documents of the document
    scores, not the mean over its rows. *)
Theorem model_benchmark_scores_are_means_of_group_scores (paths : list string)
  (r : CalcScores.aggregate_result) :
  CalcScores.aggregate paths = Ok r ->
  CalcScores.model_benchmark_scores r
  = means_by CalcScores.mbkey_eq_dec model_benchmark_of (CalcScores.summaries r).
Proof.
  intros Hr. destruct (aggregate_of_rows paths r Hr) as (infos & _ & _ & Hmb).
  exact Hmb.
Qed.

(** X19: the summaries of [aggregate] have each group once, each group has at
    least one category and each of its categories once. *)
Theorem summaries_have_distinct_groups (paths : list string)
  (r : CalcScores.aggregate_result) :
  CalcScores.aggregate paths = Ok r ->
  NoDup (map fst (CalcScores.summaries r))
  /\ Forall (fun gs =>
               CalcScores.categories (snd gs) <> []
               /\ NoDup (map fst (CalcScores.categories (snd gs))))
       (CalcScores.summaries r).
Proof.
  intros Hr. destruct (aggregate_of_rows paths r Hr) as (infos & -> & _).
  unfold summaries_spec. split.
  - rewrite tabulate_keys. apply keys_of_nodup.
  - apply Forall_forall. intros [g s] Hin.
    unfold tabulate in Hin. apply in_map_iff in Hin as (g' & [= <- <-] & Hg).
    cbn [snd summary_spec CalcScores.categories]. split.
    + intros Hnil. apply (f_equal (map fst)) in Hnil.
      rewrite tabulate_keys in Hnil. simpl in Hnil.
      apply (keys_of_nonempty hkey_eq_dec
               (bucket CalcScores.gkey_eq_dec g' infos)); [|exact Hnil].
      now apply bucket_present.
    + rewrite tabulate_keys. apply keys_of_nodup.
Qed.

End Totals.

(** ** Loading result files *)

Section LoadResults.
Context {W : World}.

(** X20: the rows of several result files are the rows of each file, in the
    order of the paths; the load of the later files is not started when an
    earlier one fails. *)
Theorem load_results_concatenates (paths more : list string) :
  CalcScores.load_results (paths ++ more)
  = (a <- CalcScores.load_results paths ;;
     b <- CalcScores.load_results more ;;
     Ok (a ++ b))%res.
Proof.
  induction paths as [|path paths IH]; cbn [app CalcScores.load_results].
  - cbn [Py.bind app]. destruct (CalcScores.load_results more); reflexivity.
  - destruct (negb (path_exists path)); [reflexivity|].
    destruct (Utils.load_jsonl path) as [entries|e]; cbn [Py.bind]; [|reflexivity].
    destruct (CalcScores.file_benchmark_and_model (Utils.basename path))
      as [benchmark_from_file model_name].
    destruct (CalcScores.attach_all benchmark_from_file model_name path entries)
      as [here|e]; cbn [Py.bind]; [|reflexivity].
    rewrite IH.
    destruct (CalcScores.load_results paths) as [a|e]; cbn [Py.bind]; [|reflexivity].
    destruct (CalcScores.load_results more) as [b|e]; cbn [Py.bind]; [|reflexivity].
    now rewrite app_assoc.
Qed.

(** X21: one missing file among the paths fails the whole load, and with it
    [aggregate], with a [FileNotFoundError] that names the file: the rows
    of the files before it are not returned. *)
Theorem missing_results_file_fails_the_load (before after : list string)
  (path : string) (rows : list (string * pyval)) :
  CalcScores.load_results before = Ok rows ->
  path_exists path = false ->
  CalcScores.load_results (before ++ path :: after)
  = Err (Raise FileNotFoundError ("Results file not found: " +++ path))
  /\ CalcScores.aggregate (before ++ path :: after)
     = Err (Raise FileNotFoundError ("Results file not found: " +++ path)).
Proof.
  intros Hbefore Hmissing.
  assert (Hload : CalcScores.load_results (before ++ path :: after)
                  = Err (Raise FileNotFoundError ("Results file not found: " +++ path))).
  { revert rows Hbefore.
    induction before as [|p before IH]; intros rows Hbefore;
      cbn [app CalcScores.load_results] in Hbefore |- *.
    - now rewrite Hmissing.
    - destruct (negb (path_exists p)); [discriminate|].
      destruct (Utils.load_jsonl p) as [entries|]; cbn [Py.bind] in Hbefore |- *;
        [|discriminate].
      destruct (CalcScores.file_benchmark_and_model (Utils.basename p))
        as [benchmark_from_file model_name].
      destruct (CalcScores.attach_all benchmark_from_file model_name p entries)
        as [here|]; cbn [Py.bind] in Hbefore |- *; [|discriminate].
      destruct (CalcScores.load_results before) as [more|]; [|discriminate].
      now rewrite (IH more eq_refl). }
  split; [exact Hload|]. unfold CalcScores.aggregate. now rewrite Hload.
Qed.

End LoadResults.

Lemma missing_results_file_fails_the_load_witness :
  CalcScores.load_results (W := Example.reports)
    (["/results/notes.jsonl"] ++ "/results/absent.jsonl" :: [])
  = Err (Raise FileNotFoundError "Results file not found: /results/absent.jsonl")
  /\ CalcScores.aggregate (W := Example.reports)
       (["/results/notes.jsonl"] ++ "/results/absent.jsonl" :: [])
     = Err (Raise FileNotFoundError "Results file not found: /results/absent.jsonl").
Proof.
  refine (missing_results_file_fails_the_load (W := Example.reports)
            ["/results/notes.jsonl"] [] "/results/absent.jsonl" _ _ eq_refl).
  vm_compute. reflexivity.
Defined.

(** ** From the rows of a run to the groups of the aggregator *)

Section RowsToGroups.
Context {W : World}.
Variables (doc_name extractor_model judge_model benchmark_key pdf_path : string).
Variable gt_map : dict.

(** X22: a row as the loop of [evaluate_document] builds it (what
    [save_jsonl] and [json.loads] do to it in between is not modelled),
    given the model [model_name] of a file name as [load_results] does:
    the aggregator puts it into the group of that model, the document and
    the benchmark key of the run, whatever benchmark the file name gives,
    under the category of its question, with its [correctness_score] as
    its score; a category that is a JSON list or object makes it raise
    the [TypeError] of an unhashable key. *)
Theorem document_row_is_grouped_as_stamped (q : pyval) (out : pyval * bool)
  (benchmark_from_file : pyval) (model_name : string) :
  question_outcome doc_name extractor_model judge_model benchmark_key pdf_path
    gt_map q out ->
  exists loaded f,
    CalcScores.attach_model benchmark_from_file model_name (fst out) = Ok loaded
    /\ score_field "correctness_score" (fst out) = Some (PFloat f)
    /\ CalcScores.entry_keys loaded
       = (c <- py_key (category_of q) ;;
          Ok ((HStr model_name, HStr doc_name, HStr benchmark_key), (c, f)))%res.
Proof.
  intros (idx & question_text & category & t & Hkey & Hcat & Hout).
  destruct (question_key_dict _ _ Hkey) as [d ->].
  assert (Hcategory : category_of (PDict d) = category)
    by (simpl in Hcat; now injection Hcat).
  rewrite Hcategory.
  destruct (fst (Pipeline.question_body doc_name extractor_model judge_model
                   benchmark_key pdf_path gt_map idx question_text category t))
    as [built|e] eqn:Ebody.
  - subst out.
    destruct (question_body_row _ _ _ _ _ _ _ _ _ _ _ Ebody)
      as (ma & j & record & -> & Hj).
    destruct (normalise_record _ _ Hj)
      as (score & is_correct & has_value & cj & rj & et & jr & ->).
    exists (Pipeline.make_row question_text ma
              (PDict
                 [ ("correctness_score", PFloat score);
                   ("correctness_justification", cj);
                   ("rationale_score", PFloat (if is_correct then 1 else 0));
                   ("rationale_justification", rj);
                   ("is_correct", PBool is_correct);
                   ("has_value", PBool has_value);
                   ("error_type", et);
                   ("judge_reasoning", jr);
                   ("question_score", PFloat score) ])
              (PDict
                 [ ("document", PStr doc_name);
                   ("extractor_model", PStr model_name);
                   ("judge_model", PStr judge_model);
                   ("benchmark", PStr benchmark_key);
                   ("category", category);
                   ("timestamp", PStr (utcnow_isoformat idx)) ])), score.
    split; [reflexivity|]. split; [reflexivity|].
    unfold CalcScores.entry_keys. cbn.
    destruct (py_key category); reflexivity.
  - destruct Hout as [-> _].
    exists (Pipeline.make_row question_text PNone (Pipeline.error_scores e)
              (PDict
                 [ ("document", PStr doc_name);
                   ("extractor_model", PStr model_name);
                   ("judge_model", PStr judge_model);
                   ("benchmark", PStr benchmark_key);
                   ("category", category);
                   ("error", PStr (exn_str e));
                   ("timestamp", PStr (utcnow_isoformat idx)) ])), 0%float.
    split; [reflexivity|]. split; [reflexivity|].
    unfold CalcScores.entry_keys. cbn.
    destruct (py_key category); reflexivity.
Qed.

End RowsToGroups.

(** ** Reading JSONL files *)

Section JsonLines.
Context {W : World}.

Lemma loads_all_values (lines : list string) (vs : list pyval) :
  Utils.loads_all lines = Ok vs
  <-> Forall2 (fun line v => json_loads line = Ok v) lines vs.
Proof.
  revert vs. induction lines as [|line lines IH]; intros vs; simpl.
  - split; [intros [= <-]; constructor | now inversion 1].
  - split.
    + destruct (json_loads line) as [v|] eqn:Ev; simpl; [|discriminate].
      destruct (Utils.loads_all lines) as [vs'|]; simpl; [|discriminate].
      intros [= <-]. constructor; [exact Ev | now apply IH].
    + inversion 1 as [|? v ? vs' Hv Hvs]; subst. rewrite Hv. simpl.
      apply IH in Hvs. now rewrite Hvs.
Qed.

Lemma loads_all_first_error (before after : list string) (bad : string) (e : exn) :
  Forall (fun l => is_ok (json_loads l) = true) before ->
  json_loads bad = Err e ->
  Utils.loads_all (before ++ bad :: after) = Err e.
Proof.
  intros Hbefore Hbad. induction Hbefore as [|l before Hl _ IH]; simpl.
  - now rewrite Hbad.
  - destruct (json_loads l); [|discriminate]. simpl. now rewrite IH.
Qed.

(** X23: [load_jsonl] returns the values of all the lines of the file, one per
    line in the order of the lines, or raises what [json.loads] raises on
    the first line that it does not decode: no line is skipped, and no
    value is returned for the lines before the bad one. *)
Theorem load_jsonl_all_or_nothing (path : string) (lines : list string) :
  read_lines path = Ok lines ->
  (forall vs,
      Utils.load_jsonl path = Ok vs
      <-> Forall2 (fun line v => json_loads line = Ok v) lines vs)
  /\ (forall before bad after e,
         lines = before ++ bad :: after ->
         Forall (fun l => is_ok (json_loads l) = true) before ->
         json_loads bad = Err e ->
         Utils.load_jsonl path = Err e).
Proof.
  intros Hread. unfold Utils.load_jsonl. rewrite Hread. cbn [Py.bind]. split.
  - intros vs. apply loads_all_values.
  - intros before bad after e -> Hbefore Hbad.
    now apply loads_all_first_error.
Qed.

End JsonLines.

(** ** The parser on texts without an object, and on blanks *)

Lemma index_of_absent (c : ascii) (s : string) :
  char_in c s = false -> index_of c s = None.
Proof.
  induction s as [|x s IH]; simpl; intros Hs; [reflexivity|].
  apply orb_false_iff in Hs as [Hx Hs].
  now rewrite Hx, (IH Hs).
Qed.

Lemma char_in_strip (c : ascii) (s : string) :
  char_in c s = false -> char_in c (strip s) = false.
Proof.
  intros Hs. unfold strip, strip_with.
  now apply char_in_rstrip, char_in_lstrip.
Qed.

Lemma lstrip_blanks (p : ascii -> bool) (a s : string) :
  (forall c, char_in c a = true -> p c = true) ->
  lstrip_with p (a +++ s) = lstrip_with p s.
Proof.
  induction a as [|x a IH]; intros Ha; [reflexivity|].
  cbn [String.append lstrip_with].
  rewrite (Ha x) by (cbn [char_in]; now rewrite Ascii.eqb_refl).
  apply IH. intros c Hc. apply Ha. cbn [char_in]. rewrite Hc. apply orb_true_r.
Qed.

Lemma all_space_chars (a : string) :
  all_space a = true -> forall c, char_in c a = true -> is_space c = true.
Proof.
  induction a as [|x a IH]; [discriminate 2|].
  cbn [all_space char_in]. intros Ha c Hc.
  apply andb_true_iff in Ha as [Hx Ha].
  apply orb_true_iff in Hc as [Hc|Hc]; [|now apply IH].
  apply Ascii.eqb_eq in Hc. now subst c.
Qed.

Lemma strip_blanks_after (s b : string) :
  all_space b = true -> strip (s +++ b) = strip s.
Proof.
  revert s. induction b as [|x b IH]; intros s Hb.
  - now rewrite append_nil_r.
  - cbn [all_space] in Hb. apply andb_true_iff in Hb as [Hx Hb].
    replace (s +++ String x b) with ((s +++ String x EmptyString) +++ b)
      by (rewrite append_assoc; reflexivity).
    rewrite (IH _ Hb). exact (strip_with_one_more is_space s x Hx).
Qed.

Lemma strip_blanks_around (a s b : string) :
  all_space a = true -> all_space b = true -> strip (a +++ s +++ b) = strip s.
Proof.
  intros Ha Hb. rewrite <- (strip_blanks_after s b Hb).
  unfold strip, strip_with. f_equal.
  apply lstrip_blanks. now apply all_space_chars.
Qed.

Section ParserEdges.
Context {W : World}.

(** X24: a reply that does not parse as it stands and has no opening brace, or
    no closing brace, has nothing to fall back to: both parsers raise the
    [ValueError] that carries the trimmed reply. *)
Theorem parser_rejects_text_without_object (raw : string) (e : exn) :
  startswith (strip raw) "```" = false ->
  json_loads (strip raw) = Err e ->
  char_in "{" raw = false \/ char_in "}" raw = false ->
  Parser.parse_extractor_output raw = Err (Parser.malformed "Extractor" (strip raw))
  /\ Parser.parse_judge_output raw = Err (Parser.malformed "Judge" (strip raw)).
Proof.
  intros Hfence Hfail Hbrace.
  assert (Hblock : Parser.brace_block (strip raw) = None).
  { unfold Parser.brace_block. destruct Hbrace as [Hopen|Hclose].
    - now rewrite (index_of_absent _ _ (char_in_strip _ _ Hopen)).
    - rewrite (rindex_of_absent _ _ (char_in_strip _ _ Hclose)).
      now destruct (index_of "{" (strip raw)). }
  unfold Parser.parse_extractor_output, Parser.parse_judge_output, Parser.clean_fences.
  rewrite Hfence.
  split; exact (loads_tolerant_no_block _ _ e Hfail Hblock).
Qed.

(** X25: blanks before and after a reply do not change what the parsers make
    of it: the same value, or the same exception with the same text. *)
Theorem parser_ignores_surrounding_blanks (before raw after : string) :
  all_space before = true ->
  all_space after = true ->
  Parser.parse_extractor_output (before +++ raw +++ after)
  = Parser.parse_extractor_output raw
  /\ Parser.parse_judge_output (before +++ raw +++ after)
     = Parser.parse_judge_output raw.
Proof.
  intros Ha Hb. unfold Parser.parse_extractor_output, Parser.parse_judge_output.
  now rewrite (strip_blanks_around before raw after Ha Hb).
Qed.

End ParserEdges.

(** ** [load_ground_truth] *)

Section GroundTruthFile.
Context {W : World}.

Lemma load_lines_total (lines : list string) :
  Forall (fun l => is_ok (line_entry l) = true) lines ->
  forall gt0, exists gt, LoadGroundTruth.load_lines lines gt0 = Ok gt.
Proof.
  induction 1 as [|line lines Hline _ IH]; intros gt0.
  - now exists gt0.
  - rewrite load_lines_cons.
    destruct (line_entry line) as [kv|]; [|discriminate]. cbn [Py.bind]. apply IH.
Qed.

(** X26: [load_ground_truth] on a file whose lines are objects with a hashable
    [question]: it returns a map that holds, under a question as it is
    written (blanks included), the object of the last line with that
    question. *)
Theorem load_ground_truth_last_line_wins (path : string)
  (before after : list string) (line : string) (k : hkey) (obj : pyval) :
  read_lines path = Ok (before ++ line :: after) ->
  Forall (fun l => is_ok (line_entry l) = true) (before ++ line :: after) ->
  line_entry line = Ok (k, obj) ->
  Forall (fun l => forall kv, line_entry l = Ok kv -> fst kv <> k) after ->
  exists gt,
    LoadGroundTruth.load_ground_truth path = Ok gt
    /\ alist_get hkey_eq_dec k gt = Some obj.
Proof.
  intros Hread Hlines Hline Hafter.
  unfold LoadGroundTruth.load_ground_truth. rewrite Hread. cbn [Py.bind].
  destruct (load_lines_total _ Hlines []) as [gt Hgt].
  exists gt. split; [exact Hgt|].
  exact (load_ground_truth_keeps_last before after line k obj [] gt Hgt Hline Hafter).
Qed.

End GroundTruthFile.

(** ** The theorems on the example files *)

Lemma question_without_ground_truth_sends_nothing_witness :
  Pipeline.question_body (W := Example.acme) "acme" "openai/gpt-5.1"
    "deepseek/deepseek-v3.2" "B" "/bench/data/documents/acme.pdf"
    Example.acme_gt_map 1 "What is the margin?" (PStr "Uncategorized") []
  = (Err (Pipeline.missing_ground_truth (W := Example.acme) "What is the margin?"), [])
  /\ (str_empty "What is the margin?" = false ->
      Pipeline.entry_body (W := Example.acme) "acme" "/in/answers.jsonl"
        "deepseek/deepseek-v3.2" "B" Example.acme_gt_map 1 "What is the margin?"
        (PDict [("question", PStr "What is the margin?"); ("answer", PStr "3 %")]) []
      = ((PNone,
          Err (Pipeline.missing_ground_truth (W := Example.acme) "What is the margin?")),
         [])).
Proof.
  refine (question_without_ground_truth_sends_nothing (W := Example.acme)
            "acme" "openai/gpt-5.1" "deepseek/deepseek-v3.2" "B"
            "/bench/data/documents/acme.pdf" "/in/answers.jsonl"
            Example.acme_ground_truth Example.acme_gt_map 1 "What is the margin?"
            (PStr "Uncategorized")
            (PDict [("question", PStr "What is the margin?"); ("answer", PStr "3 %")])
            [] eq_refl _).
  repeat constructor; intros H; vm_compute in H; discriminate H.
Defined.




Lemma gamma_questions :
  Utils.load_jsonl (W := Cases.desk)
    "/bench/data/questions/gamma_benchmark_a_vision_questions.jsonl"
  = Ok [PDict [("question", PStr "How many sites?")]].
Proof. vm_compute. reflexivity. Qed.

Lemma gamma_ground_truth :
  Utils.load_jsonl (W := Cases.desk)
    "/bench/data/ground_truth/gamma_benchmark_a_vision.jsonl"
  = Ok ([Cases.sites_truth] ++ PDict [("answer", PInt 5)] :: []).
Proof. vm_compute. reflexivity. Qed.

Lemma ground_truth_without_text_aborts_run_witness :
  Pipeline.evaluate_document (W := Cases.desk) "gamma" "openai/gpt-5.1"
    "deepseek/deepseek-v3.2" "A" []
  = (Err (Raise KeyError "'question'"), []).
Proof.
  refine (ground_truth_without_text_aborts_run (W := Cases.desk) "gamma"
            "openai/gpt-5.1" "deepseek/deepseek-v3.2" "A" _
            [PDict [("question", PStr "How many sites?")]]
            [Cases.sites_truth] (PDict [("answer", PInt 5)]) []
            (Raise KeyError "'question'") []
            eq_refl eq_refl gamma_questions gamma_ground_truth _ eq_refl).
  repeat constructor. eexists. reflexivity.
Defined.

Lemma hand_entry_judged :
  Pipeline.judged_row (W := Cases.desk) "acme" "/in/answers.jsonl"
    "deepseek/deepseek-v3.2" "B" 1 "How many sites?" (PDict Cases.hand_entry)
    Cases.sites_truth (PStr "Uncategorized") []
  = (Ok Cases.hand_row,
     [JudgeRequest "deepseek/deepseek-v3.2"
        "Track B. Question: How many sites? Expected: 4 (p. 9) Given: 5 (map)"]).
Proof. vm_compute. reflexivity. Qed.

Lemma judged_row_keeps_entry_metadata_witness :
  (forall k, str_in k judged_keys = false ->
             metadata_field k Cases.hand_row
             = metadata_field k (PDict Cases.hand_entry))
  /\ metadata_field "document" Cases.hand_row = Some (PStr "acme")
  /\ metadata_field "judge_model" Cases.hand_row = Some (PStr "deepseek/deepseek-v3.2")
  /\ metadata_field "source_answers_file" Cases.hand_row
     = Some (PStr "/in/answers.jsonl")
  /\ metadata_field "benchmark" Cases.hand_row = Some (PStr "B")
  /\ metadata_field "category" Cases.hand_row = Some (PStr "Uncategorized")
  /\ (exists d, PDict Cases.hand_entry = PDict d
                /\ field "model_answer" Cases.hand_row = Some (answer_of_entry d))
  /\ field "question" Cases.hand_row = Some (PStr "How many sites?").
Proof.
  exact (judged_row_keeps_entry_metadata (W := Cases.desk) "acme" "/in/answers.jsonl"
           "deepseek/deepseek-v3.2" "B" 1 "How many sites?" (PDict Cases.hand_entry)
           Cases.sites_truth (PStr "Uncategorized") Cases.hand_row [] _
           hand_entry_judged).
Defined.

Lemma flat_entry_is_judged_as_nested_witness :
  Pipeline.entry_body (W := Cases.desk) "acme" "/in/answers.jsonl"
    "deepseek/deepseek-v3.2" "B" Example.acme_gt_map 1 "How many sites?"
    (PDict Cases.hand_entry) []
  = Pipeline.entry_body (W := Cases.desk) "acme" "/in/answers.jsonl"
      "deepseek/deepseek-v3.2" "B" Example.acme_gt_map 1 "How many sites?"
      (PDict (dict_set "model_answer" (flat_answer Cases.hand_entry) Cases.hand_entry))
      [].
Proof.
  exact (flat_entry_is_judged_as_nested (W := Cases.desk) "acme" "/in/answers.jsonl"
           "deepseek/deepseek-v3.2" "B" Example.acme_gt_map 1 "How many sites?"
           Cases.hand_entry [] eq_refl).
Defined.

Lemma acme_ground_truth_loaded :
  Utils.load_jsonl (W := Cases.desk)
    "/bench/data/ground_truth/acme_benchmark_b_semantic.jsonl"
  = Ok Example.acme_ground_truth.
Proof. vm_compute. reflexivity. Qed.



Lemma empty_answers_file_is_fatal_witness :
  Pipeline.evaluate_precomputed_answers (W := Cases.desk) "acme" "/in/empty.jsonl"
    "deepseek/deepseek-v3.2" "B" []
  = (Err (Raise ValueError "No entries found in answers file: /in/empty.jsonl"), []).
Proof.
  exact (empty_answers_file_is_fatal (W := Cases.desk) "acme" "/in/empty.jsonl"
           "deepseek/deepseek-v3.2" "B" _ Example.acme_ground_truth []
           eq_refl eq_refl eq_refl acme_ground_truth_loaded eq_refl).
Defined.

Lemma board_aggregated :
  CalcScores.aggregate (W := Cases.board) Cases.board_paths = Ok Cases.board_report.
Proof. vm_compute. reflexivity. Qed.

(** One model, one benchmark, two documents with three rows scored [1.0]
    and one row scored [0.0]: the score of the benchmark and of the model
    on it is [0.5], the mean of the two document scores [1.0] and [0.0]. *)
Lemma global_scores_are_means_of_group_scores_witness :
  CalcScores.global_scores Cases.board_report
  = means_by (W := Cases.board) hkey_eq_dec benchmark_of
      (CalcScores.summaries Cases.board_report)
  /\ CalcScores.global_scores Cases.board_report = [(HStr "A", 0.5%float)].
Proof.
  split; [|reflexivity].
  exact (global_scores_are_means_of_group_scores (W := Cases.board)
           Cases.board_paths Cases.board_report board_aggregated).
Defined.

Lemma model_benchmark_scores_are_means_of_group_scores_witness :
  CalcScores.model_benchmark_scores Cases.board_report
  = means_by (W := Cases.board) CalcScores.mbkey_eq_dec model_benchmark_of
      (CalcScores.summaries Cases.board_report)
  /\ CalcScores.model_benchmark_scores Cases.board_report
     = [((HStr "m1", HStr "A"), 0.5%float)].
Proof.
  split; [|reflexivity].
  exact (model_benchmark_scores_are_means_of_group_scores (W := Cases.board)
           Cases.board_paths Cases.board_report board_aggregated).
Defined.

Lemma summaries_have_distinct_groups_witness :
  NoDup (map fst (CalcScores.summaries Cases.board_report))
  /\ Forall (fun gs =>
               CalcScores.categories (snd gs) <> []
               /\ NoDup (map fst (CalcScores.categories (snd gs))))
       (CalcScores.summaries Cases.board_report).
Proof.
  exact (summaries_have_distinct_groups (W := Cases.board)
           Cases.board_paths Cases.board_report board_aggregated).
Defined.

Lemma acme_first_outcome :
  question_outcome (W := Example.acme) "acme" "openai/gpt-5.1" "deepseek/deepseek-v3.2"
    "B" "/bench/data/documents/acme.pdf" Example.acme_gt_map
    (PDict [("question", PStr "What is the revenue?"); ("category", PStr "Finance")])
    (Cases.first_row, false).
Proof.
  exists 1, "What is the revenue?", (PStr "Finance"), [].
  split; [reflexivity|]. split; [reflexivity|]. vm_compute. reflexivity.
Qed.

Lemma document_row_is_grouped_as_stamped_witness :
  exists loaded f,
    CalcScores.attach_model (PStr "B") "openai_gpt-5.1" (fst (Cases.first_row, false))
    = Ok loaded
    /\ score_field "correctness_score" (fst (Cases.first_row, false)) = Some (PFloat f)
    /\ CalcScores.entry_keys (W := Example.acme) loaded
       = (c <- py_key
                 (category_of
                    (PDict [("question", PStr "What is the revenue?");
                            ("category", PStr "Finance")])) ;;
          Ok ((HStr "openai_gpt-5.1", HStr "acme", HStr "B"), (c, f)))%res.
Proof.
  exact (document_row_is_grouped_as_stamped (W := Example.acme) "acme" "openai/gpt-5.1"
           "deepseek/deepseek-v3.2" "B" "/bench/data/documents/acme.pdf"
           Example.acme_gt_map _ _ (PStr "B") "openai_gpt-5.1" acme_first_outcome).
Defined.

Lemma load_jsonl_all_or_nothing_witness :
  (forall vs,
      Utils.load_jsonl (W := Cases.desk) "/in/broken.jsonl" = Ok vs
      <-> Forall2 (fun line v => json_loads (World := Cases.desk) line = Ok v)
            [ Json.qq "{'question': 'How many sites?'}"; "not json";
              Json.qq "{'question': 'What is the revenue?'}" ] vs)
  /\ (forall before bad after e,
         [ Json.qq "{'question': 'How many sites?'}"; "not json";
           Json.qq "{'question': 'What is the revenue?'}" ]
         = before ++ bad :: after ->
         Forall (fun l => is_ok (json_loads (World := Cases.desk) l) = true) before ->
         json_loads (World := Cases.desk) bad = Err e ->
         Utils.load_jsonl (W := Cases.desk) "/in/broken.jsonl" = Err e).
Proof.
  exact (load_jsonl_all_or_nothing (W := Cases.desk) "/in/broken.jsonl" _ eq_refl).
Defined.

Lemma parser_rejects_text_without_object_witness :
  Parser.parse_extractor_output (W := Example.acme) " I cannot answer. "
  = Err (Parser.malformed "Extractor" (strip " I cannot answer. "))
  /\ Parser.parse_judge_output (W := Example.acme) " I cannot answer. "
     = Err (Parser.malformed "Judge" (strip " I cannot answer. ")).
Proof.
  exact (parser_rejects_text_without_object (W := Example.acme) " I cannot answer. "
           Json.decode_error eq_refl eq_refl (or_introl eq_refl)).
Defined.

Lemma parser_ignores_surrounding_blanks_witness :
  Parser.parse_extractor_output (W := Example.acme)
    ((nl +++ "  ") +++ Json.qq "{'answer': 5, 'rationale': 'map'}" +++ nl)
  = Parser.parse_extractor_output (W := Example.acme)
      (Json.qq "{'answer': 5, 'rationale': 'map'}")
  /\ Parser.parse_judge_output (W := Example.acme)
       ((nl +++ "  ") +++ Json.qq "{'answer': 5, 'rationale': 'map'}" +++ nl)
     = Parser.parse_judge_output (W := Example.acme)
         (Json.qq "{'answer': 5, 'rationale': 'map'}").
Proof.
  exact (parser_ignores_surrounding_blanks (W := Example.acme) (nl +++ "  ")
           (Json.qq "{'answer': 5, 'rationale': 'map'}") nl eq_refl eq_refl).
Defined.

Lemma load_ground_truth_last_line_wins_witness :
  exists gt,
    LoadGroundTruth.load_ground_truth (W := Example.acme)
      "/bench/data/ground_truth/acme_benchmark_b_semantic.jsonl" = Ok gt
    /\ alist_get hkey_eq_dec (HStr "What is the revenue?") gt
       = Some (PDict [("question", PStr "What is the revenue?");
                      ("ground_truth_answer", PStr "12"); ("rationale", PStr "p. 3")]).
Proof.
  refine (load_ground_truth_last_line_wins (W := Example.acme)
            "/bench/data/ground_truth/acme_benchmark_b_semantic.jsonl"
            []
            [ Json.qq "{'question': 'Who is the CEO?', 'answer': 'A. Smith', 'rationale': 'p. 1'}";
              Json.qq "{'question': 'How many sites?', 'answer': 4, 'rationale': 'p. 9'}";
              Json.qq "{'question': 'What is the revenue? ', 'ground_truth_answer': '14', 'rationale': 'p. 4'}" ]
            (Json.qq "{'question': 'What is the revenue?', 'ground_truth_answer': '12', 'rationale': 'p. 3'}")
            (HStr "What is the revenue?") _ eq_refl _ eq_refl _).
  - repeat constructor.
  - repeat constructor; intros kv H; vm_compute in H; injection H as <-; discriminate.
Defined.
